(** * Sales dashboard: joining, filtering and aggregation pipeline

    A shallow embedding of [dashboard.py] (and of the parts of [tra.py] that
    differ from it).  Data frames are lists of records, in row order.
    Monetary amounts are exact rationals ([Q]); a missing cell (pandas NaN)
    of a text column is [None]; a numeric result that pandas reports as NaN
    is the constructor [NaN] of [numero].  The theorems state nothing that
    depends on the order in which pandas adds floating-point numbers.
    A text cell is the UTF-8 bytes of a Python [str]; the string methods
    work on its code points, with the case and white-space tables of
    Unicode 14.0 as CPython 3.11 has them. *)

From Stdlib Require Import List String Ascii Bool Arith ZArith QArith Lia Lqa.
From Stdlib Require Import Permutation Sorted.
Import ListNotations.

Local Open Scope string_scope.

(* ================================================================== *)
(** ** Python string methods *)

(** A [str] is a list of code points. *)
Module Unicode.

(** The code points that [str.isspace] accepts, as ranges. *)
Definition whitespace_t : list (N * N) :=
  [
   (9, 13); (28, 32); (133, 133); (160, 160); (5760, 5760); (8192, 8202);
   (8232, 8233); (8239, 8239); (8287, 8287); (12288, 12288)
  ]%N.

(** The code points with the property Cased, as ranges. *)
Definition cased_t : list (N * N) :=
  [
   (65, 90); (97, 122); (170, 170); (181, 181); (186, 186); (192, 214);
   (216, 246); (248, 442); (444, 447); (452, 659); (661, 696); (704, 705);
   (736, 740); (837, 837); (880, 883); (886, 887); (890, 893); (895, 895);
   (902, 902); (904, 906); (908, 908); (910, 929); (931, 1013);
   (1015, 1153); (1162, 1327); (1329, 1366); (1376, 1416); (4256, 4293);
   (4295, 4295); (4301, 4301); (4304, 4346); (4349, 4351); (5024, 5109);
   (5112, 5117); (7296, 7304); (7312, 7354); (7357, 7359); (7424, 7615);
   (7680, 7957); (7960, 7965); (7968, 8005); (8008, 8013); (8016, 8023);
   (8025, 8025); (8027, 8027); (8029, 8029); (8031, 8061); (8064, 8116);
   (8118, 8124); (8126, 8126); (8130, 8132); (8134, 8140); (8144, 8147);
   (8150, 8155); (8160, 8172); (8178, 8180); (8182, 8188); (8305, 8305);
   (8319, 8319); (8336, 8348); (8450, 8450); (8455, 8455); (8458, 8467);
   (8469, 8469); (8473, 8477); (8484, 8484); (8486, 8486); (8488, 8488);
   (8490, 8493); (8495, 8500); (8505, 8505); (8508, 8511); (8517, 8521);
   (8526, 8526); (8544, 8575); (8579, 8580); (9398, 9449); (11264, 11492);
   (11499, 11502); (11506, 11507); (11520, 11557); (11559, 11559);
   (11565, 11565); (42560, 42605); (42624, 42653); (42786, 42887);
   (42891, 42894); (42896, 42954); (42960, 42961); (42963, 42963);
   (42965, 42969); (42997, 42998); (43000, 43002); (43824, 43866);
   (43868, 43880); (43888, 43967); (64256, 64262); (64275, 64279);
   (65313, 65338); (65345, 65370); (66560, 66639); (66736, 66771);
   (66776, 66811); (66928, 66938); (66940, 66954); (66956, 66962);
   (66964, 66965); (66967, 66977); (66979, 66993); (66995, 67001);
   (67003, 67004); (67456, 67456); (67459, 67461); (67463, 67504);
   (67506, 67514); (68736, 68786); (68800, 68850); (71840, 71903);
   (93760, 93823); (119808, 119892); (119894, 119964); (119966, 119967);
   (119970, 119970); (119973, 119974); (119977, 119980); (119982, 119993);
   (119995, 119995); (119997, 120003); (120005, 120069); (120071, 120074);
   (120077, 120084); (120086, 120092); (120094, 120121); (120123, 120126);
   (120128, 120132); (120134, 120134); (120138, 120144); (120146, 120485);
   (120488, 120512); (120514, 120538); (120540, 120570); (120572, 120596);
   (120598, 120628); (120630, 120654); (120656, 120686); (120688, 120712);
   (120714, 120744); (120746, 120770); (120772, 120779); (122624, 122633);
   (122635, 122654); (125184, 125251); (127280, 127305); (127312, 127337);
   (127344, 127369)
  ]%N.

(** The code points with the property Case_Ignorable, as ranges. *)
Definition case_ignorable_t : list (N * N) :=
  [
   (39, 39); (46, 46); (58, 58); (94, 94); (96, 96); (168, 168);
   (173, 173); (175, 175); (180, 180); (183, 184); (688, 879); (884, 885);
   (890, 890); (900, 901); (903, 903); (1155, 1161); (1369, 1369);
   (1375, 1375); (1425, 1469); (1471, 1471); (1473, 1474); (1476, 1477);
   (1479, 1479); (1524, 1524); (1536, 1541); (1552, 1562); (1564, 1564);
   (1600, 1600); (1611, 1631); (1648, 1648); (1750, 1757); (1759, 1768);
   (1770, 1773); (1807, 1807); (1809, 1809); (1840, 1866); (1958, 1968);
   (2027, 2037); (2042, 2042); (2045, 2045); (2070, 2093); (2137, 2139);
   (2184, 2184); (2192, 2193); (2200, 2207); (2249, 2306); (2362, 2362);
   (2364, 2364); (2369, 2376); (2381, 2381); (2385, 2391); (2402, 2403);
   (2417, 2417); (2433, 2433); (2492, 2492); (2497, 2500); (2509, 2509);
   (2530, 2531); (2558, 2558); (2561, 2562); (2620, 2620); (2625, 2626);
   (2631, 2632); (2635, 2637); (2641, 2641); (2672, 2673); (2677, 2677);
   (2689, 2690); (2748, 2748); (2753, 2757); (2759, 2760); (2765, 2765);
   (2786, 2787); (2810, 2815); (2817, 2817); (2876, 2876); (2879, 2879);
   (2881, 2884); (2893, 2893); (2901, 2902); (2914, 2915); (2946, 2946);
   (3008, 3008); (3021, 3021); (3072, 3072); (3076, 3076); (3132, 3132);
   (3134, 3136); (3142, 3144); (3146, 3149); (3157, 3158); (3170, 3171);
   (3201, 3201); (3260, 3260); (3263, 3263); (3270, 3270); (3276, 3277);
   (3298, 3299); (3328, 3329); (3387, 3388); (3393, 3396); (3405, 3405);
   (3426, 3427); (3457, 3457); (3530, 3530); (3538, 3540); (3542, 3542);
   (3633, 3633); (3636, 3642); (3654, 3662); (3761, 3761); (3764, 3772);
   (3782, 3782); (3784, 3789); (3864, 3865); (3893, 3893); (3895, 3895);
   (3897, 3897); (3953, 3966); (3968, 3972); (3974, 3975); (3981, 3991);
   (3993, 4028); (4038, 4038); (4141, 4144); (4146, 4151); (4153, 4154);
   (4157, 4158); (4184, 4185); (4190, 4192); (4209, 4212); (4226, 4226);
   (4229, 4230); (4237, 4237); (4253, 4253); (4348, 4348); (4957, 4959);
   (5906, 5908); (5938, 5939); (5970, 5971); (6002, 6003); (6068, 6069);
   (6071, 6077); (6086, 6086); (6089, 6099); (6103, 6103); (6109, 6109);
   (6155, 6159); (6211, 6211); (6277, 6278); (6313, 6313); (6432, 6434);
   (6439, 6440); (6450, 6450); (6457, 6459); (6679, 6680); (6683, 6683);
   (6742, 6742); (6744, 6750); (6752, 6752); (6754, 6754); (6757, 6764);
   (6771, 6780); (6783, 6783); (6823, 6823); (6832, 6862); (6912, 6915);
   (6964, 6964); (6966, 6970); (6972, 6972); (6978, 6978); (7019, 7027);
   (7040, 7041); (7074, 7077); (7080, 7081); (7083, 7085); (7142, 7142);
   (7144, 7145); (7149, 7149); (7151, 7153); (7212, 7219); (7222, 7223);
   (7288, 7293); (7376, 7378); (7380, 7392); (7394, 7400); (7405, 7405);
   (7412, 7412); (7416, 7417); (7468, 7530); (7544, 7544); (7579, 7679);
   (8125, 8125); (8127, 8129); (8141, 8143); (8157, 8159); (8173, 8175);
   (8189, 8190); (8203, 8207); (8216, 8217); (8228, 8228); (8231, 8231);
   (8234, 8238); (8288, 8292); (8294, 8303); (8305, 8305); (8319, 8319);
   (8336, 8348); (8400, 8432); (11388, 11389); (11503, 11505);
   (11631, 11631); (11647, 11647); (11744, 11775); (11823, 11823);
   (12293, 12293); (12330, 12333); (12337, 12341); (12347, 12347);
   (12441, 12446); (12540, 12542); (40981, 40981); (42232, 42237);
   (42508, 42508); (42607, 42610); (42612, 42621); (42623, 42623);
   (42652, 42655); (42736, 42737); (42752, 42785); (42864, 42864);
   (42888, 42890); (42994, 42996); (43000, 43001); (43010, 43010);
   (43014, 43014); (43019, 43019); (43045, 43046); (43052, 43052);
   (43204, 43205); (43232, 43249); (43263, 43263); (43302, 43309);
   (43335, 43345); (43392, 43394); (43443, 43443); (43446, 43449);
   (43452, 43453); (43471, 43471); (43493, 43494); (43561, 43566);
   (43569, 43570); (43573, 43574); (43587, 43587); (43596, 43596);
   (43632, 43632); (43644, 43644); (43696, 43696); (43698, 43700);
   (43703, 43704); (43710, 43711); (43713, 43713); (43741, 43741);
   (43756, 43757); (43763, 43764); (43766, 43766); (43867, 43871);
   (43881, 43883); (44005, 44005); (44008, 44008); (44013, 44013);
   (64286, 64286); (64434, 64450); (65024, 65039); (65043, 65043);
   (65056, 65071); (65106, 65106); (65109, 65109); (65279, 65279);
   (65287, 65287); (65294, 65294); (65306, 65306); (65342, 65342);
   (65344, 65344); (65392, 65392); (65438, 65439); (65507, 65507);
   (65529, 65531); (66045, 66045); (66272, 66272); (66422, 66426);
   (67456, 67461); (67463, 67504); (67506, 67514); (68097, 68099);
   (68101, 68102); (68108, 68111); (68152, 68154); (68159, 68159);
   (68325, 68326); (68900, 68903); (69291, 69292); (69446, 69456);
   (69506, 69509); (69633, 69633); (69688, 69702); (69744, 69744);
   (69747, 69748); (69759, 69761); (69811, 69814); (69817, 69818);
   (69821, 69821); (69826, 69826); (69837, 69837); (69888, 69890);
   (69927, 69931); (69933, 69940); (70003, 70003); (70016, 70017);
   (70070, 70078); (70089, 70092); (70095, 70095); (70191, 70193);
   (70196, 70196); (70198, 70199); (70206, 70206); (70367, 70367);
   (70371, 70378); (70400, 70401); (70459, 70460); (70464, 70464);
   (70502, 70508); (70512, 70516); (70712, 70719); (70722, 70724);
   (70726, 70726); (70750, 70750); (70835, 70840); (70842, 70842);
   (70847, 70848); (70850, 70851); (71090, 71093); (71100, 71101);
   (71103, 71104); (71132, 71133); (71219, 71226); (71229, 71229);
   (71231, 71232); (71339, 71339); (71341, 71341); (71344, 71349);
   (71351, 71351); (71453, 71455); (71458, 71461); (71463, 71467);
   (71727, 71735); (71737, 71738); (71995, 71996); (71998, 71998);
   (72003, 72003); (72148, 72151); (72154, 72155); (72160, 72160);
   (72193, 72202); (72243, 72248); (72251, 72254); (72263, 72263);
   (72273, 72278); (72281, 72283); (72330, 72342); (72344, 72345);
   (72752, 72758); (72760, 72765); (72767, 72767); (72850, 72871);
   (72874, 72880); (72882, 72883); (72885, 72886); (73009, 73014);
   (73018, 73018); (73020, 73021); (73023, 73029); (73031, 73031);
   (73104, 73105); (73109, 73109); (73111, 73111); (73459, 73460);
   (78896, 78904); (92912, 92916); (92976, 92982); (92992, 92995);
   (94031, 94031); (94095, 94111); (94176, 94177); (94179, 94180);
   (110576, 110579); (110581, 110587); (110589, 110590); (113821, 113822);
   (113824, 113827); (118528, 118573); (118576, 118598); (119143, 119145);
   (119155, 119170); (119173, 119179); (119210, 119213); (119362, 119364);
   (121344, 121398); (121403, 121452); (121461, 121461); (121476, 121476);
   (121499, 121503); (121505, 121519); (122880, 122886); (122888, 122904);
   (122907, 122913); (122915, 122916); (122918, 122922); (123184, 123197);
   (123566, 123566); (123628, 123631); (125136, 125142); (125252, 125259);
   (127995, 127999); (917505, 917505); (917536, 917631); (917760, 917999)
  ]%N.

(** The lower-case mappings to one code point: the range from the first to the second component is mapped, in order, to the code points that start at the third. *)
Definition lower_t : list (N * N * N) :=
  [
   (65, 90, 97); (192, 214, 224); (216, 222, 248); (256, 256, 257);
   (258, 258, 259); (260, 260, 261); (262, 262, 263); (264, 264, 265);
   (266, 266, 267); (268, 268, 269); (270, 270, 271); (272, 272, 273);
   (274, 274, 275); (276, 276, 277); (278, 278, 279); (280, 280, 281);
   (282, 282, 283); (284, 284, 285); (286, 286, 287); (288, 288, 289);
   (290, 290, 291); (292, 292, 293); (294, 294, 295); (296, 296, 297);
   (298, 298, 299); (300, 300, 301); (302, 302, 303); (306, 306, 307);
   (308, 308, 309); (310, 310, 311); (313, 313, 314); (315, 315, 316);
   (317, 317, 318); (319, 319, 320); (321, 321, 322); (323, 323, 324);
   (325, 325, 326); (327, 327, 328); (330, 330, 331); (332, 332, 333);
   (334, 334, 335); (336, 336, 337); (338, 338, 339); (340, 340, 341);
   (342, 342, 343); (344, 344, 345); (346, 346, 347); (348, 348, 349);
   (350, 350, 351); (352, 352, 353); (354, 354, 355); (356, 356, 357);
   (358, 358, 359); (360, 360, 361); (362, 362, 363); (364, 364, 365);
   (366, 366, 367); (368, 368, 369); (370, 370, 371); (372, 372, 373);
   (374, 374, 375); (376, 376, 255); (377, 377, 378); (379, 379, 380);
   (381, 381, 382); (385, 385, 595); (386, 386, 387); (388, 388, 389);
   (390, 390, 596); (391, 391, 392); (393, 394, 598); (395, 395, 396);
   (398, 398, 477); (399, 399, 601); (400, 400, 603); (401, 401, 402);
   (403, 403, 608); (404, 404, 611); (406, 406, 617); (407, 407, 616);
   (408, 408, 409); (412, 412, 623); (413, 413, 626); (415, 415, 629);
   (416, 416, 417); (418, 418, 419); (420, 420, 421); (422, 422, 640);
   (423, 423, 424); (425, 425, 643); (428, 428, 429); (430, 430, 648);
   (431, 431, 432); (433, 434, 650); (435, 435, 436); (437, 437, 438);
   (439, 439, 658); (440, 440, 441); (444, 444, 445); (452, 452, 454);
   (453, 453, 454); (455, 455, 457); (456, 456, 457); (458, 458, 460);
   (459, 459, 460); (461, 461, 462); (463, 463, 464); (465, 465, 466);
   (467, 467, 468); (469, 469, 470); (471, 471, 472); (473, 473, 474);
   (475, 475, 476); (478, 478, 479); (480, 480, 481); (482, 482, 483);
   (484, 484, 485); (486, 486, 487); (488, 488, 489); (490, 490, 491);
   (492, 492, 493); (494, 494, 495); (497, 497, 499); (498, 498, 499);
   (500, 500, 501); (502, 502, 405); (503, 503, 447); (504, 504, 505);
   (506, 506, 507); (508, 508, 509); (510, 510, 511); (512, 512, 513);
   (514, 514, 515); (516, 516, 517); (518, 518, 519); (520, 520, 521);
   (522, 522, 523); (524, 524, 525); (526, 526, 527); (528, 528, 529);
   (530, 530, 531); (532, 532, 533); (534, 534, 535); (536, 536, 537);
   (538, 538, 539); (540, 540, 541); (542, 542, 543); (544, 544, 414);
   (546, 546, 547); (548, 548, 549); (550, 550, 551); (552, 552, 553);
   (554, 554, 555); (556, 556, 557); (558, 558, 559); (560, 560, 561);
   (562, 562, 563); (570, 570, 11365); (571, 571, 572); (573, 573, 410);
   (574, 574, 11366); (577, 577, 578); (579, 579, 384); (580, 580, 649);
   (581, 581, 652); (582, 582, 583); (584, 584, 585); (586, 586, 587);
   (588, 588, 589); (590, 590, 591); (880, 880, 881); (882, 882, 883);
   (886, 886, 887); (895, 895, 1011); (902, 902, 940); (904, 906, 941);
   (908, 908, 972); (910, 911, 973); (913, 929, 945); (931, 939, 963);
   (975, 975, 983); (984, 984, 985); (986, 986, 987); (988, 988, 989);
   (990, 990, 991); (992, 992, 993); (994, 994, 995); (996, 996, 997);
   (998, 998, 999); (1000, 1000, 1001); (1002, 1002, 1003);
   (1004, 1004, 1005); (1006, 1006, 1007); (1012, 1012, 952);
   (1015, 1015, 1016); (1017, 1017, 1010); (1018, 1018, 1019);
   (1021, 1023, 891); (1024, 1039, 1104); (1040, 1071, 1072);
   (1120, 1120, 1121); (1122, 1122, 1123); (1124, 1124, 1125);
   (1126, 1126, 1127); (1128, 1128, 1129); (1130, 1130, 1131);
   (1132, 1132, 1133); (1134, 1134, 1135); (1136, 1136, 1137);
   (1138, 1138, 1139); (1140, 1140, 1141); (1142, 1142, 1143);
   (1144, 1144, 1145); (1146, 1146, 1147); (1148, 1148, 1149);
   (1150, 1150, 1151); (1152, 1152, 1153); (1162, 1162, 1163);
   (1164, 1164, 1165); (1166, 1166, 1167); (1168, 1168, 1169);
   (1170, 1170, 1171); (1172, 1172, 1173); (1174, 1174, 1175);
   (1176, 1176, 1177); (1178, 1178, 1179); (1180, 1180, 1181);
   (1182, 1182, 1183); (1184, 1184, 1185); (1186, 1186, 1187);
   (1188, 1188, 1189); (1190, 1190, 1191); (1192, 1192, 1193);
   (1194, 1194, 1195); (1196, 1196, 1197); (1198, 1198, 1199);
   (1200, 1200, 1201); (1202, 1202, 1203); (1204, 1204, 1205);
   (1206, 1206, 1207); (1208, 1208, 1209); (1210, 1210, 1211);
   (1212, 1212, 1213); (1214, 1214, 1215); (1216, 1216, 1231);
   (1217, 1217, 1218); (1219, 1219, 1220); (1221, 1221, 1222);
   (1223, 1223, 1224); (1225, 1225, 1226); (1227, 1227, 1228);
   (1229, 1229, 1230); (1232, 1232, 1233); (1234, 1234, 1235);
   (1236, 1236, 1237); (1238, 1238, 1239); (1240, 1240, 1241);
   (1242, 1242, 1243); (1244, 1244, 1245); (1246, 1246, 1247);
   (1248, 1248, 1249); (1250, 1250, 1251); (1252, 1252, 1253);
   (1254, 1254, 1255); (1256, 1256, 1257); (1258, 1258, 1259);
   (1260, 1260, 1261); (1262, 1262, 1263); (1264, 1264, 1265);
   (1266, 1266, 1267); (1268, 1268, 1269); (1270, 1270, 1271);
   (1272, 1272, 1273); (1274, 1274, 1275); (1276, 1276, 1277);
   (1278, 1278, 1279); (1280, 1280, 1281); (1282, 1282, 1283);
   (1284, 1284, 1285); (1286, 1286, 1287); (1288, 1288, 1289);
   (1290, 1290, 1291); (1292, 1292, 1293); (1294, 1294, 1295);
   (1296, 1296, 1297); (1298, 1298, 1299); (1300, 1300, 1301);
   (1302, 1302, 1303); (1304, 1304, 1305); (1306, 1306, 1307);
   (1308, 1308, 1309); (1310, 1310, 1311); (1312, 1312, 1313);
   (1314, 1314, 1315); (1316, 1316, 1317); (1318, 1318, 1319);
   (1320, 1320, 1321); (1322, 1322, 1323); (1324, 1324, 1325);
   (1326, 1326, 1327); (1329, 1366, 1377); (4256, 4293, 11520);
   (4295, 4295, 11559); (4301, 4301, 11565); (5024, 5103, 43888);
   (5104, 5109, 5112); (7312, 7354, 4304); (7357, 7359, 4349);
   (7680, 7680, 7681); (7682, 7682, 7683); (7684, 7684, 7685);
   (7686, 7686, 7687); (7688, 7688, 7689); (7690, 7690, 7691);
   (7692, 7692, 7693); (7694, 7694, 7695); (7696, 7696, 7697);
   (7698, 7698, 7699); (7700, 7700, 7701); (7702, 7702, 7703);
   (7704, 7704, 7705); (7706, 7706, 7707); (7708, 7708, 7709);
   (7710, 7710, 7711); (7712, 7712, 7713); (7714, 7714, 7715);
   (7716, 7716, 7717); (7718, 7718, 7719); (7720, 7720, 7721);
   (7722, 7722, 7723); (7724, 7724, 7725); (7726, 7726, 7727);
   (7728, 7728, 7729); (7730, 7730, 7731); (7732, 7732, 7733);
   (7734, 7734, 7735); (7736, 7736, 7737); (7738, 7738, 7739);
   (7740, 7740, 7741); (7742, 7742, 7743); (7744, 7744, 7745);
   (7746, 7746, 7747); (7748, 7748, 7749); (7750, 7750, 7751);
   (7752, 7752, 7753); (7754, 7754, 7755); (7756, 7756, 7757);
   (7758, 7758, 7759); (7760, 7760, 7761); (7762, 7762, 7763);
   (7764, 7764, 7765); (7766, 7766, 7767); (7768, 7768, 7769);
   (7770, 7770, 7771); (7772, 7772, 7773); (7774, 7774, 7775);
   (7776, 7776, 7777); (7778, 7778, 7779); (7780, 7780, 7781);
   (7782, 7782, 7783); (7784, 7784, 7785); (7786, 7786, 7787);
   (7788, 7788, 7789); (7790, 7790, 7791); (7792, 7792, 7793);
   (7794, 7794, 7795); (7796, 7796, 7797); (7798, 7798, 7799);
   (7800, 7800, 7801); (7802, 7802, 7803); (7804, 7804, 7805);
   (7806, 7806, 7807); (7808, 7808, 7809); (7810, 7810, 7811);
   (7812, 7812, 7813); (7814, 7814, 7815); (7816, 7816, 7817);
   (7818, 7818, 7819); (7820, 7820, 7821); (7822, 7822, 7823);
   (7824, 7824, 7825); (7826, 7826, 7827); (7828, 7828, 7829);
   (7838, 7838, 223); (7840, 7840, 7841); (7842, 7842, 7843);
   (7844, 7844, 7845); (7846, 7846, 7847); (7848, 7848, 7849);
   (7850, 7850, 7851); (7852, 7852, 7853); (7854, 7854, 7855);
   (7856, 7856, 7857); (7858, 7858, 7859); (7860, 7860, 7861);
   (7862, 7862, 7863); (7864, 7864, 7865); (7866, 7866, 7867);
   (7868, 7868, 7869); (7870, 7870, 7871); (7872, 7872, 7873);
   (7874, 7874, 7875); (7876, 7876, 7877); (7878, 7878, 7879);
   (7880, 7880, 7881); (7882, 7882, 7883); (7884, 7884, 7885);
   (7886, 7886, 7887); (7888, 7888, 7889); (7890, 7890, 7891);
   (7892, 7892, 7893); (7894, 7894, 7895); (7896, 7896, 7897);
   (7898, 7898, 7899); (7900, 7900, 7901); (7902, 7902, 7903);
   (7904, 7904, 7905); (7906, 7906, 7907); (7908, 7908, 7909);
   (7910, 7910, 7911); (7912, 7912, 7913); (7914, 7914, 7915);
   (7916, 7916, 7917); (7918, 7918, 7919); (7920, 7920, 7921);
   (7922, 7922, 7923); (7924, 7924, 7925); (7926, 7926, 7927);
   (7928, 7928, 7929); (7930, 7930, 7931); (7932, 7932, 7933);
   (7934, 7934, 7935); (7944, 7951, 7936); (7960, 7965, 7952);
   (7976, 7983, 7968); (7992, 7999, 7984); (8008, 8013, 8000);
   (8025, 8025, 8017); (8027, 8027, 8019); (8029, 8029, 8021);
   (8031, 8031, 8023); (8040, 8047, 8032); (8072, 8079, 8064);
   (8088, 8095, 8080); (8104, 8111, 8096); (8120, 8121, 8112);
   (8122, 8123, 8048); (8124, 8124, 8115); (8136, 8139, 8050);
   (8140, 8140, 8131); (8152, 8153, 8144); (8154, 8155, 8054);
   (8168, 8169, 8160); (8170, 8171, 8058); (8172, 8172, 8165);
   (8184, 8185, 8056); (8186, 8187, 8060); (8188, 8188, 8179);
   (8486, 8486, 969); (8490, 8490, 107); (8491, 8491, 229);
   (8498, 8498, 8526); (8544, 8559, 8560); (8579, 8579, 8580);
   (9398, 9423, 9424); (11264, 11311, 11312); (11360, 11360, 11361);
   (11362, 11362, 619); (11363, 11363, 7549); (11364, 11364, 637);
   (11367, 11367, 11368); (11369, 11369, 11370); (11371, 11371, 11372);
   (11373, 11373, 593); (11374, 11374, 625); (11375, 11375, 592);
   (11376, 11376, 594); (11378, 11378, 11379); (11381, 11381, 11382);
   (11390, 11391, 575); (11392, 11392, 11393); (11394, 11394, 11395);
   (11396, 11396, 11397); (11398, 11398, 11399); (11400, 11400, 11401);
   (11402, 11402, 11403); (11404, 11404, 11405); (11406, 11406, 11407);
   (11408, 11408, 11409); (11410, 11410, 11411); (11412, 11412, 11413);
   (11414, 11414, 11415); (11416, 11416, 11417); (11418, 11418, 11419);
   (11420, 11420, 11421); (11422, 11422, 11423); (11424, 11424, 11425);
   (11426, 11426, 11427); (11428, 11428, 11429); (11430, 11430, 11431);
   (11432, 11432, 11433); (11434, 11434, 11435); (11436, 11436, 11437);
   (11438, 11438, 11439); (11440, 11440, 11441); (11442, 11442, 11443);
   (11444, 11444, 11445); (11446, 11446, 11447); (11448, 11448, 11449);
   (11450, 11450, 11451); (11452, 11452, 11453); (11454, 11454, 11455);
   (11456, 11456, 11457); (11458, 11458, 11459); (11460, 11460, 11461);
   (11462, 11462, 11463); (11464, 11464, 11465); (11466, 11466, 11467);
   (11468, 11468, 11469); (11470, 11470, 11471); (11472, 11472, 11473);
   (11474, 11474, 11475); (11476, 11476, 11477); (11478, 11478, 11479);
   (11480, 11480, 11481); (11482, 11482, 11483); (11484, 11484, 11485);
   (11486, 11486, 11487); (11488, 11488, 11489); (11490, 11490, 11491);
   (11499, 11499, 11500); (11501, 11501, 11502); (11506, 11506, 11507);
   (42560, 42560, 42561); (42562, 42562, 42563); (42564, 42564, 42565);
   (42566, 42566, 42567); (42568, 42568, 42569); (42570, 42570, 42571);
   (42572, 42572, 42573); (42574, 42574, 42575); (42576, 42576, 42577);
   (42578, 42578, 42579); (42580, 42580, 42581); (42582, 42582, 42583);
   (42584, 42584, 42585); (42586, 42586, 42587); (42588, 42588, 42589);
   (42590, 42590, 42591); (42592, 42592, 42593); (42594, 42594, 42595);
   (42596, 42596, 42597); (42598, 42598, 42599); (42600, 42600, 42601);
   (42602, 42602, 42603); (42604, 42604, 42605); (42624, 42624, 42625);
   (42626, 42626, 42627); (42628, 42628, 42629); (42630, 42630, 42631);
   (42632, 42632, 42633); (42634, 42634, 42635); (42636, 42636, 42637);
   (42638, 42638, 42639); (42640, 42640, 42641); (42642, 42642, 42643);
   (42644, 42644, 42645); (42646, 42646, 42647); (42648, 42648, 42649);
   (42650, 42650, 42651); (42786, 42786, 42787); (42788, 42788, 42789);
   (42790, 42790, 42791); (42792, 42792, 42793); (42794, 42794, 42795);
   (42796, 42796, 42797); (42798, 42798, 42799); (42802, 42802, 42803);
   (42804, 42804, 42805); (42806, 42806, 42807); (42808, 42808, 42809);
   (42810, 42810, 42811); (42812, 42812, 42813); (42814, 42814, 42815);
   (42816, 42816, 42817); (42818, 42818, 42819); (42820, 42820, 42821);
   (42822, 42822, 42823); (42824, 42824, 42825); (42826, 42826, 42827);
   (42828, 42828, 42829); (42830, 42830, 42831); (42832, 42832, 42833);
   (42834, 42834, 42835); (42836, 42836, 42837); (42838, 42838, 42839);
   (42840, 42840, 42841); (42842, 42842, 42843); (42844, 42844, 42845);
   (42846, 42846, 42847); (42848, 42848, 42849); (42850, 42850, 42851);
   (42852, 42852, 42853); (42854, 42854, 42855); (42856, 42856, 42857);
   (42858, 42858, 42859); (42860, 42860, 42861); (42862, 42862, 42863);
   (42873, 42873, 42874); (42875, 42875, 42876); (42877, 42877, 7545);
   (42878, 42878, 42879); (42880, 42880, 42881); (42882, 42882, 42883);
   (42884, 42884, 42885); (42886, 42886, 42887); (42891, 42891, 42892);
   (42893, 42893, 613); (42896, 42896, 42897); (42898, 42898, 42899);
   (42902, 42902, 42903); (42904, 42904, 42905); (42906, 42906, 42907);
   (42908, 42908, 42909); (42910, 42910, 42911); (42912, 42912, 42913);
   (42914, 42914, 42915); (42916, 42916, 42917); (42918, 42918, 42919);
   (42920, 42920, 42921); (42922, 42922, 614); (42923, 42923, 604);
   (42924, 42924, 609); (42925, 42925, 620); (42926, 42926, 618);
   (42928, 42928, 670); (42929, 42929, 647); (42930, 42930, 669);
   (42931, 42931, 43859); (42932, 42932, 42933); (42934, 42934, 42935);
   (42936, 42936, 42937); (42938, 42938, 42939); (42940, 42940, 42941);
   (42942, 42942, 42943); (42944, 42944, 42945); (42946, 42946, 42947);
   (42948, 42948, 42900); (42949, 42949, 642); (42950, 42950, 7566);
   (42951, 42951, 42952); (42953, 42953, 42954); (42960, 42960, 42961);
   (42966, 42966, 42967); (42968, 42968, 42969); (42997, 42997, 42998);
   (65313, 65338, 65345); (66560, 66599, 66600); (66736, 66771, 66776);
   (66928, 66938, 66967); (66940, 66954, 66979); (66956, 66962, 66995);
   (66964, 66965, 67003); (68736, 68786, 68800); (71840, 71871, 71872);
   (93760, 93791, 93792); (125184, 125217, 125218)
  ]%N.

(** The lower-case mappings to several code points. *)
Definition lower_special_t : list (N * list N) :=
  [
   (304, [105; 775])
  ]%N.

(** The title-case mappings to one code point, as [lower_t]. *)
Definition title_t : list (N * N * N) :=
  [
   (97, 122, 65); (181, 181, 924); (224, 246, 192); (248, 254, 216);
   (255, 255, 376); (257, 257, 256); (259, 259, 258); (261, 261, 260);
   (263, 263, 262); (265, 265, 264); (267, 267, 266); (269, 269, 268);
   (271, 271, 270); (273, 273, 272); (275, 275, 274); (277, 277, 276);
   (279, 279, 278); (281, 281, 280); (283, 283, 282); (285, 285, 284);
   (287, 287, 286); (289, 289, 288); (291, 291, 290); (293, 293, 292);
   (295, 295, 294); (297, 297, 296); (299, 299, 298); (301, 301, 300);
   (303, 303, 302); (305, 305, 73); (307, 307, 306); (309, 309, 308);
   (311, 311, 310); (314, 314, 313); (316, 316, 315); (318, 318, 317);
   (320, 320, 319); (322, 322, 321); (324, 324, 323); (326, 326, 325);
   (328, 328, 327); (331, 331, 330); (333, 333, 332); (335, 335, 334);
   (337, 337, 336); (339, 339, 338); (341, 341, 340); (343, 343, 342);
   (345, 345, 344); (347, 347, 346); (349, 349, 348); (351, 351, 350);
   (353, 353, 352); (355, 355, 354); (357, 357, 356); (359, 359, 358);
   (361, 361, 360); (363, 363, 362); (365, 365, 364); (367, 367, 366);
   (369, 369, 368); (371, 371, 370); (373, 373, 372); (375, 375, 374);
   (378, 378, 377); (380, 380, 379); (382, 382, 381); (383, 383, 83);
   (384, 384, 579); (387, 387, 386); (389, 389, 388); (392, 392, 391);
   (396, 396, 395); (402, 402, 401); (405, 405, 502); (409, 409, 408);
   (410, 410, 573); (414, 414, 544); (417, 417, 416); (419, 419, 418);
   (421, 421, 420); (424, 424, 423); (429, 429, 428); (432, 432, 431);
   (436, 436, 435); (438, 438, 437); (441, 441, 440); (445, 445, 444);
   (447, 447, 503); (452, 452, 453); (454, 454, 453); (455, 455, 456);
   (457, 457, 456); (458, 458, 459); (460, 460, 459); (462, 462, 461);
   (464, 464, 463); (466, 466, 465); (468, 468, 467); (470, 470, 469);
   (472, 472, 471); (474, 474, 473); (476, 476, 475); (477, 477, 398);
   (479, 479, 478); (481, 481, 480); (483, 483, 482); (485, 485, 484);
   (487, 487, 486); (489, 489, 488); (491, 491, 490); (493, 493, 492);
   (495, 495, 494); (497, 497, 498); (499, 499, 498); (501, 501, 500);
   (505, 505, 504); (507, 507, 506); (509, 509, 508); (511, 511, 510);
   (513, 513, 512); (515, 515, 514); (517, 517, 516); (519, 519, 518);
   (521, 521, 520); (523, 523, 522); (525, 525, 524); (527, 527, 526);
   (529, 529, 528); (531, 531, 530); (533, 533, 532); (535, 535, 534);
   (537, 537, 536); (539, 539, 538); (541, 541, 540); (543, 543, 542);
   (547, 547, 546); (549, 549, 548); (551, 551, 550); (553, 553, 552);
   (555, 555, 554); (557, 557, 556); (559, 559, 558); (561, 561, 560);
   (563, 563, 562); (572, 572, 571); (575, 576, 11390); (578, 578, 577);
   (583, 583, 582); (585, 585, 584); (587, 587, 586); (589, 589, 588);
   (591, 591, 590); (592, 592, 11375); (593, 593, 11373);
   (594, 594, 11376); (595, 595, 385); (596, 596, 390); (598, 599, 393);
   (601, 601, 399); (603, 603, 400); (604, 604, 42923); (608, 608, 403);
   (609, 609, 42924); (611, 611, 404); (613, 613, 42893);
   (614, 614, 42922); (616, 616, 407); (617, 617, 406); (618, 618, 42926);
   (619, 619, 11362); (620, 620, 42925); (623, 623, 412);
   (625, 625, 11374); (626, 626, 413); (629, 629, 415); (637, 637, 11364);
   (640, 640, 422); (642, 642, 42949); (643, 643, 425); (647, 647, 42929);
   (648, 648, 430); (649, 649, 580); (650, 651, 433); (652, 652, 581);
   (658, 658, 439); (669, 669, 42930); (670, 670, 42928); (837, 837, 921);
   (881, 881, 880); (883, 883, 882); (887, 887, 886); (891, 893, 1021);
   (940, 940, 902); (941, 943, 904); (945, 961, 913); (962, 962, 931);
   (963, 971, 931); (972, 972, 908); (973, 974, 910); (976, 976, 914);
   (977, 977, 920); (981, 981, 934); (982, 982, 928); (983, 983, 975);
   (985, 985, 984); (987, 987, 986); (989, 989, 988); (991, 991, 990);
   (993, 993, 992); (995, 995, 994); (997, 997, 996); (999, 999, 998);
   (1001, 1001, 1000); (1003, 1003, 1002); (1005, 1005, 1004);
   (1007, 1007, 1006); (1008, 1008, 922); (1009, 1009, 929);
   (1010, 1010, 1017); (1011, 1011, 895); (1013, 1013, 917);
   (1016, 1016, 1015); (1019, 1019, 1018); (1072, 1103, 1040);
   (1104, 1119, 1024); (1121, 1121, 1120); (1123, 1123, 1122);
   (1125, 1125, 1124); (1127, 1127, 1126); (1129, 1129, 1128);
   (1131, 1131, 1130); (1133, 1133, 1132); (1135, 1135, 1134);
   (1137, 1137, 1136); (1139, 1139, 1138); (1141, 1141, 1140);
   (1143, 1143, 1142); (1145, 1145, 1144); (1147, 1147, 1146);
   (1149, 1149, 1148); (1151, 1151, 1150); (1153, 1153, 1152);
   (1163, 1163, 1162); (1165, 1165, 1164); (1167, 1167, 1166);
   (1169, 1169, 1168); (1171, 1171, 1170); (1173, 1173, 1172);
   (1175, 1175, 1174); (1177, 1177, 1176); (1179, 1179, 1178);
   (1181, 1181, 1180); (1183, 1183, 1182); (1185, 1185, 1184);
   (1187, 1187, 1186); (1189, 1189, 1188); (1191, 1191, 1190);
   (1193, 1193, 1192); (1195, 1195, 1194); (1197, 1197, 1196);
   (1199, 1199, 1198); (1201, 1201, 1200); (1203, 1203, 1202);
   (1205, 1205, 1204); (1207, 1207, 1206); (1209, 1209, 1208);
   (1211, 1211, 1210); (1213, 1213, 1212); (1215, 1215, 1214);
   (1218, 1218, 1217); (1220, 1220, 1219); (1222, 1222, 1221);
   (1224, 1224, 1223); (1226, 1226, 1225); (1228, 1228, 1227);
   (1230, 1230, 1229); (1231, 1231, 1216); (1233, 1233, 1232);
   (1235, 1235, 1234); (1237, 1237, 1236); (1239, 1239, 1238);
   (1241, 1241, 1240); (1243, 1243, 1242); (1245, 1245, 1244);
   (1247, 1247, 1246); (1249, 1249, 1248); (1251, 1251, 1250);
   (1253, 1253, 1252); (1255, 1255, 1254); (1257, 1257, 1256);
   (1259, 1259, 1258); (1261, 1261, 1260); (1263, 1263, 1262);
   (1265, 1265, 1264); (1267, 1267, 1266); (1269, 1269, 1268);
   (1271, 1271, 1270); (1273, 1273, 1272); (1275, 1275, 1274);
   (1277, 1277, 1276); (1279, 1279, 1278); (1281, 1281, 1280);
   (1283, 1283, 1282); (1285, 1285, 1284); (1287, 1287, 1286);
   (1289, 1289, 1288); (1291, 1291, 1290); (1293, 1293, 1292);
   (1295, 1295, 1294); (1297, 1297, 1296); (1299, 1299, 1298);
   (1301, 1301, 1300); (1303, 1303, 1302); (1305, 1305, 1304);
   (1307, 1307, 1306); (1309, 1309, 1308); (1311, 1311, 1310);
   (1313, 1313, 1312); (1315, 1315, 1314); (1317, 1317, 1316);
   (1319, 1319, 1318); (1321, 1321, 1320); (1323, 1323, 1322);
   (1325, 1325, 1324); (1327, 1327, 1326); (1377, 1414, 1329);
   (5112, 5117, 5104); (7296, 7296, 1042); (7297, 7297, 1044);
   (7298, 7298, 1054); (7299, 7300, 1057); (7301, 7301, 1058);
   (7302, 7302, 1066); (7303, 7303, 1122); (7304, 7304, 42570);
   (7545, 7545, 42877); (7549, 7549, 11363); (7566, 7566, 42950);
   (7681, 7681, 7680); (7683, 7683, 7682); (7685, 7685, 7684);
   (7687, 7687, 7686); (7689, 7689, 7688); (7691, 7691, 7690);
   (7693, 7693, 7692); (7695, 7695, 7694); (7697, 7697, 7696);
   (7699, 7699, 7698); (7701, 7701, 7700); (7703, 7703, 7702);
   (7705, 7705, 7704); (7707, 7707, 7706); (7709, 7709, 7708);
   (7711, 7711, 7710); (7713, 7713, 7712); (7715, 7715, 7714);
   (7717, 7717, 7716); (7719, 7719, 7718); (7721, 7721, 7720);
   (7723, 7723, 7722); (7725, 7725, 7724); (7727, 7727, 7726);
   (7729, 7729, 7728); (7731, 7731, 7730); (7733, 7733, 7732);
   (7735, 7735, 7734); (7737, 7737, 7736); (7739, 7739, 7738);
   (7741, 7741, 7740); (7743, 7743, 7742); (7745, 7745, 7744);
   (7747, 7747, 7746); (7749, 7749, 7748); (7751, 7751, 7750);
   (7753, 7753, 7752); (7755, 7755, 7754); (7757, 7757, 7756);
   (7759, 7759, 7758); (7761, 7761, 7760); (7763, 7763, 7762);
   (7765, 7765, 7764); (7767, 7767, 7766); (7769, 7769, 7768);
   (7771, 7771, 7770); (7773, 7773, 7772); (7775, 7775, 7774);
   (7777, 7777, 7776); (7779, 7779, 7778); (7781, 7781, 7780);
   (7783, 7783, 7782); (7785, 7785, 7784); (7787, 7787, 7786);
   (7789, 7789, 7788); (7791, 7791, 7790); (7793, 7793, 7792);
   (7795, 7795, 7794); (7797, 7797, 7796); (7799, 7799, 7798);
   (7801, 7801, 7800); (7803, 7803, 7802); (7805, 7805, 7804);
   (7807, 7807, 7806); (7809, 7809, 7808); (7811, 7811, 7810);
   (7813, 7813, 7812); (7815, 7815, 7814); (7817, 7817, 7816);
   (7819, 7819, 7818); (7821, 7821, 7820); (7823, 7823, 7822);
   (7825, 7825, 7824); (7827, 7827, 7826); (7829, 7829, 7828);
   (7835, 7835, 7776); (7841, 7841, 7840); (7843, 7843, 7842);
   (7845, 7845, 7844); (7847, 7847, 7846); (7849, 7849, 7848);
   (7851, 7851, 7850); (7853, 7853, 7852); (7855, 7855, 7854);
   (7857, 7857, 7856); (7859, 7859, 7858); (7861, 7861, 7860);
   (7863, 7863, 7862); (7865, 7865, 7864); (7867, 7867, 7866);
   (7869, 7869, 7868); (7871, 7871, 7870); (7873, 7873, 7872);
   (7875, 7875, 7874); (7877, 7877, 7876); (7879, 7879, 7878);
   (7881, 7881, 7880); (7883, 7883, 7882); (7885, 7885, 7884);
   (7887, 7887, 7886); (7889, 7889, 7888); (7891, 7891, 7890);
   (7893, 7893, 7892); (7895, 7895, 7894); (7897, 7897, 7896);
   (7899, 7899, 7898); (7901, 7901, 7900); (7903, 7903, 7902);
   (7905, 7905, 7904); (7907, 7907, 7906); (7909, 7909, 7908);
   (7911, 7911, 7910); (7913, 7913, 7912); (7915, 7915, 7914);
   (7917, 7917, 7916); (7919, 7919, 7918); (7921, 7921, 7920);
   (7923, 7923, 7922); (7925, 7925, 7924); (7927, 7927, 7926);
   (7929, 7929, 7928); (7931, 7931, 7930); (7933, 7933, 7932);
   (7935, 7935, 7934); (7936, 7943, 7944); (7952, 7957, 7960);
   (7968, 7975, 7976); (7984, 7991, 7992); (8000, 8005, 8008);
   (8017, 8017, 8025); (8019, 8019, 8027); (8021, 8021, 8029);
   (8023, 8023, 8031); (8032, 8039, 8040); (8048, 8049, 8122);
   (8050, 8053, 8136); (8054, 8055, 8154); (8056, 8057, 8184);
   (8058, 8059, 8170); (8060, 8061, 8186); (8064, 8071, 8072);
   (8080, 8087, 8088); (8096, 8103, 8104); (8112, 8113, 8120);
   (8115, 8115, 8124); (8126, 8126, 921); (8131, 8131, 8140);
   (8144, 8145, 8152); (8160, 8161, 8168); (8165, 8165, 8172);
   (8179, 8179, 8188); (8526, 8526, 8498); (8560, 8575, 8544);
   (8580, 8580, 8579); (9424, 9449, 9398); (11312, 11359, 11264);
   (11361, 11361, 11360); (11365, 11365, 570); (11366, 11366, 574);
   (11368, 11368, 11367); (11370, 11370, 11369); (11372, 11372, 11371);
   (11379, 11379, 11378); (11382, 11382, 11381); (11393, 11393, 11392);
   (11395, 11395, 11394); (11397, 11397, 11396); (11399, 11399, 11398);
   (11401, 11401, 11400); (11403, 11403, 11402); (11405, 11405, 11404);
   (11407, 11407, 11406); (11409, 11409, 11408); (11411, 11411, 11410);
   (11413, 11413, 11412); (11415, 11415, 11414); (11417, 11417, 11416);
   (11419, 11419, 11418); (11421, 11421, 11420); (11423, 11423, 11422);
   (11425, 11425, 11424); (11427, 11427, 11426); (11429, 11429, 11428);
   (11431, 11431, 11430); (11433, 11433, 11432); (11435, 11435, 11434);
   (11437, 11437, 11436); (11439, 11439, 11438); (11441, 11441, 11440);
   (11443, 11443, 11442); (11445, 11445, 11444); (11447, 11447, 11446);
   (11449, 11449, 11448); (11451, 11451, 11450); (11453, 11453, 11452);
   (11455, 11455, 11454); (11457, 11457, 11456); (11459, 11459, 11458);
   (11461, 11461, 11460); (11463, 11463, 11462); (11465, 11465, 11464);
   (11467, 11467, 11466); (11469, 11469, 11468); (11471, 11471, 11470);
   (11473, 11473, 11472); (11475, 11475, 11474); (11477, 11477, 11476);
   (11479, 11479, 11478); (11481, 11481, 11480); (11483, 11483, 11482);
   (11485, 11485, 11484); (11487, 11487, 11486); (11489, 11489, 11488);
   (11491, 11491, 11490); (11500, 11500, 11499); (11502, 11502, 11501);
   (11507, 11507, 11506); (11520, 11557, 4256); (11559, 11559, 4295);
   (11565, 11565, 4301); (42561, 42561, 42560); (42563, 42563, 42562);
   (42565, 42565, 42564); (42567, 42567, 42566); (42569, 42569, 42568);
   (42571, 42571, 42570); (42573, 42573, 42572); (42575, 42575, 42574);
   (42577, 42577, 42576); (42579, 42579, 42578); (42581, 42581, 42580);
   (42583, 42583, 42582); (42585, 42585, 42584); (42587, 42587, 42586);
   (42589, 42589, 42588); (42591, 42591, 42590); (42593, 42593, 42592);
   (42595, 42595, 42594); (42597, 42597, 42596); (42599, 42599, 42598);
   (42601, 42601, 42600); (42603, 42603, 42602); (42605, 42605, 42604);
   (42625, 42625, 42624); (42627, 42627, 42626); (42629, 42629, 42628);
   (42631, 42631, 42630); (42633, 42633, 42632); (42635, 42635, 42634);
   (42637, 42637, 42636); (42639, 42639, 42638); (42641, 42641, 42640);
   (42643, 42643, 42642); (42645, 42645, 42644); (42647, 42647, 42646);
   (42649, 42649, 42648); (42651, 42651, 42650); (42787, 42787, 42786);
   (42789, 42789, 42788); (42791, 42791, 42790); (42793, 42793, 42792);
   (42795, 42795, 42794); (42797, 42797, 42796); (42799, 42799, 42798);
   (42803, 42803, 42802); (42805, 42805, 42804); (42807, 42807, 42806);
   (42809, 42809, 42808); (42811, 42811, 42810); (42813, 42813, 42812);
   (42815, 42815, 42814); (42817, 42817, 42816); (42819, 42819, 42818);
   (42821, 42821, 42820); (42823, 42823, 42822); (42825, 42825, 42824);
   (42827, 42827, 42826); (42829, 42829, 42828); (42831, 42831, 42830);
   (42833, 42833, 42832); (42835, 42835, 42834); (42837, 42837, 42836);
   (42839, 42839, 42838); (42841, 42841, 42840); (42843, 42843, 42842);
   (42845, 42845, 42844); (42847, 42847, 42846); (42849, 42849, 42848);
   (42851, 42851, 42850); (42853, 42853, 42852); (42855, 42855, 42854);
   (42857, 42857, 42856); (42859, 42859, 42858); (42861, 42861, 42860);
   (42863, 42863, 42862); (42874, 42874, 42873); (42876, 42876, 42875);
   (42879, 42879, 42878); (42881, 42881, 42880); (42883, 42883, 42882);
   (42885, 42885, 42884); (42887, 42887, 42886); (42892, 42892, 42891);
   (42897, 42897, 42896); (42899, 42899, 42898); (42900, 42900, 42948);
   (42903, 42903, 42902); (42905, 42905, 42904); (42907, 42907, 42906);
   (42909, 42909, 42908); (42911, 42911, 42910); (42913, 42913, 42912);
   (42915, 42915, 42914); (42917, 42917, 42916); (42919, 42919, 42918);
   (42921, 42921, 42920); (42933, 42933, 42932); (42935, 42935, 42934);
   (42937, 42937, 42936); (42939, 42939, 42938); (42941, 42941, 42940);
   (42943, 42943, 42942); (42945, 42945, 42944); (42947, 42947, 42946);
   (42952, 42952, 42951); (42954, 42954, 42953); (42961, 42961, 42960);
   (42967, 42967, 42966); (42969, 42969, 42968); (42998, 42998, 42997);
   (43859, 43859, 42931); (43888, 43967, 5024); (65345, 65370, 65313);
   (66600, 66639, 66560); (66776, 66811, 66736); (66967, 66977, 66928);
   (66979, 66993, 66940); (66995, 67001, 66956); (67003, 67004, 66964);
   (68800, 68850, 68736); (71872, 71903, 71840); (93792, 93823, 93760);
   (125218, 125251, 125184)
  ]%N.

(** The title-case mappings to several code points. *)
Definition title_special_t : list (N * list N) :=
  [
   (223, [83; 115]); (329, [700; 78]); (496, [74; 780]);
   (912, [921; 776; 769]); (944, [933; 776; 769]); (1415, [1333; 1410]);
   (7830, [72; 817]); (7831, [84; 776]); (7832, [87; 778]);
   (7833, [89; 778]); (7834, [65; 702]); (8016, [933; 787]);
   (8018, [933; 787; 768]); (8020, [933; 787; 769]);
   (8022, [933; 787; 834]); (8114, [8122; 837]); (8116, [902; 837]);
   (8118, [913; 834]); (8119, [913; 834; 837]); (8130, [8138; 837]);
   (8132, [905; 837]); (8134, [919; 834]); (8135, [919; 834; 837]);
   (8146, [921; 776; 768]); (8147, [921; 776; 769]); (8150, [921; 834]);
   (8151, [921; 776; 834]); (8162, [933; 776; 768]);
   (8163, [933; 776; 769]); (8164, [929; 787]); (8166, [933; 834]);
   (8167, [933; 776; 834]); (8178, [8186; 837]); (8180, [911; 837]);
   (8182, [937; 834]); (8183, [937; 834; 837]); (64256, [70; 102]);
   (64257, [70; 105]); (64258, [70; 108]); (64259, [70; 102; 105]);
   (64260, [70; 102; 108]); (64261, [83; 116]); (64262, [83; 116]);
   (64275, [1348; 1398]); (64276, [1348; 1381]); (64277, [1348; 1387]);
   (64278, [1358; 1398]); (64279, [1348; 1389])
  ]%N.

Definition in_ranges (t : list (N * N)) (c : N) : bool :=
  existsb (fun r => (fst r <=? c) && (c <=? snd r))%N t.

(** [str.isspace] on one character *)
Definition isspace (c : N) : bool := in_ranges whitespace_t c.
Definition is_cased (c : N) : bool := in_ranges cased_t c.
Definition is_case_ignorable (c : N) : bool := in_ranges case_ignorable_t c.

(** Look [c] up in a table of ranges mapped in order. *)
Definition mapped_in (t : list (N * N * N)) (c : N) : option N :=
  match find (fun r => (fst (fst r) <=? c) && (c <=? snd (fst r)))%N t with
  | Some r => Some (c - fst (fst r) + snd r)%N
  | None => None
  end.

Definition special_in (t : list (N * list N)) (c : N) : option (list N) :=
  match find (fun r => (fst r =? c)%N) t with
  | Some r => Some (snd r)
  | None => None
  end.

(** The full lower-case and title-case mapping of one character. *)
Definition to_lower_full (c : N) : list N :=
  match special_in lower_special_t c with
  | Some m => m
  | None => match mapped_in lower_t c with
            | Some d => [d]
            | None => [c]
            end
  end.

Definition to_title_full (c : N) : list N :=
  match special_in title_special_t c with
  | Some m => m
  | None => match mapped_in title_t c with
            | Some d => [d]
            | None => [c]
            end
  end.

(** The first character that is not case-ignorable, if any. *)
Fixpoint skip_ignorable (s : list N) : option N :=
  match s with
  | [] => None
  | c :: r => if is_case_ignorable c then skip_ignorable r else Some c
  end.

(** A capital sigma (U+03A3) is lowered to the final sigma (U+03C2) when a
    cased character precedes it and none follows it, case-ignorable
    characters apart, and to U+03C3 otherwise.  [prev] holds the characters
    before the sigma, the nearest first. *)
Definition handle_capital_sigma (prev rest : list N) : N :=
  let final_sigma :=
    match skip_ignorable prev with
    | Some c =>
        is_cased c
        && match skip_ignorable rest with
           | Some d => negb (is_cased d)
           | None => true
           end
    | None => false
    end in
  if final_sigma then 962%N else 963%N.

Definition lower_ucs4 (prev : list N) (c : N) (rest : list N) : list N :=
  if (c =? 931)%N then [handle_capital_sigma prev rest] else to_lower_full c.

Fixpoint lower_from (prev s : list N) : list N :=
  match s with
  | [] => []
  | c :: r => lower_ucs4 prev c r ++ lower_from (c :: prev) r
  end.

(** [str.lower] *)
Definition lower (s : list N) : list N := lower_from [] s.

(** [str.capitalize]: the first character in title case, the others in
    lower case. *)
Definition capitalize (s : list N) : list N :=
  match s with
  | [] => []
  | c :: r => to_title_full c ++ lower_from [c] r
  end.

(** [str.lstrip], [str.rstrip], [str.strip] without argument *)
Fixpoint lstrip (s : list N) : list N :=
  match s with
  | [] => []
  | c :: r => if isspace c then lstrip r else s
  end.

Fixpoint rstrip (s : list N) : list N :=
  match s with
  | [] => []
  | c :: r =>
      match rstrip r with
      | [] => if isspace c then [] else [c]
      | r' => c :: r'
      end
  end.

Definition strip (s : list N) : list N := rstrip (lstrip s).

(** [str.split] without argument *)
Fixpoint split (s : list N) : list (list N) :=
  match s with
  | [] => []
  | c :: r =>
      if isspace c then split r
      else match r with
           | [] => [[c]]
           | c' :: _ =>
               if isspace c' then [c] :: split r
               else match split r with
                    | w :: ws => (c :: w) :: ws
                    | [] => [[c]]
                    end
           end
  end.

(** [' '.join(words)] *)
Fixpoint join_space (ws : list (list N)) : list N :=
  match ws with
  | [] => []
  | [w] => w
  | w :: rest => w ++ 32%N :: join_space rest
  end.

(** [string.capwords(s)] *)
Definition capwords (s : list N) : list N :=
  join_space (map capitalize (split s)).

(** *** UTF-8 *)

Definition continuation (b : N) : bool := ((128 <=? b) && (b <=? 191))%N.

(** The code points of a UTF-8 text; [None] when the bytes are not UTF-8. *)
Fixpoint decode (l : list N) : option (list N) :=
  match l with
  | [] => Some []
  | b0 :: r0 =>
      if (b0 <? 128)%N then option_map (cons b0) (decode r0)
      else if ((194 <=? b0) && (b0 <=? 223))%N then
        match r0 with
        | b1 :: r1 =>
            if continuation b1
            then option_map (cons ((b0 - 192) * 64 + (b1 - 128))%N) (decode r1)
            else None
        | _ => None
        end
      else if ((224 <=? b0) && (b0 <=? 239))%N then
        match r0 with
        | b1 :: b2 :: r2 =>
            let c := ((b0 - 224) * 4096 + (b1 - 128) * 64 + (b2 - 128))%N in
            if continuation b1 && continuation b2 && (2048 <=? c)%N
               && negb ((55296 <=? c) && (c <=? 57343))%N
            then option_map (cons c) (decode r2)
            else None
        | _ => None
        end
      else if ((240 <=? b0) && (b0 <=? 244))%N then
        match r0 with
        | b1 :: b2 :: b3 :: r3 =>
            let c := ((b0 - 240) * 262144 + (b1 - 128) * 4096
                      + (b2 - 128) * 64 + (b3 - 128))%N in
            if continuation b1 && continuation b2 && continuation b3
               && (65536 <=? c)%N && (c <=? 1114111)%N
            then option_map (cons c) (decode r3)
            else None
        | _ => None
        end
      else None
  end.

Definition encode_char (c : N) : list N :=
  if (c <? 128)%N then [c]
  else if (c <? 2048)%N then [192 + c / 64; 128 + c mod 64]%N
  else if (c <? 65536)%N then
    [224 + c / 4096; 128 + (c / 64) mod 64; 128 + c mod 64]%N
  else [240 + c / 262144; 128 + (c / 4096) mod 64;
        128 + (c / 64) mod 64; 128 + c mod 64]%N.

Definition encode (s : list N) : list N := flat_map encode_char s.

(** A text cell as bytes, and back. *)
Definition bytes (s : string) : list N :=
  map N_of_ascii (list_ascii_of_string s).

Definition of_bytes (l : list N) : string :=
  string_of_list_ascii (map ascii_of_N l).

End Unicode.

(* ================================================================== *)
(** ** The string methods on ASCII text *)

(** On a text of ASCII characters the methods of [Unicode] work byte by
    byte: these are their restrictions to such text, which the properties
    of ASCII labels are stated with. *)
Module PyAscii.

(** The ASCII white space: TAB, LF, VT, FF, CR, FS, GS, RS, US and the
    space. *)
Definition isspace (c : ascii) : bool :=
  let n := nat_of_ascii c in
  ((9 <=? n) && (n <=? 13) || (28 <=? n) && (n <=? 32))%nat.

Definition isupper (c : ascii) : bool :=
  let n := nat_of_ascii c in ((65 <=? n) && (n <=? 90))%nat.

Definition islower (c : ascii) : bool :=
  let n := nat_of_ascii c in ((97 <=? n) && (n <=? 122))%nat.

Definition lower_char (c : ascii) : ascii :=
  if isupper c then ascii_of_nat (nat_of_ascii c + 32) else c.

Definition upper_char (c : ascii) : ascii :=
  if islower c then ascii_of_nat (nat_of_ascii c - 32) else c.

(** [str.lower] on ASCII text *)
Fixpoint lower (s : string) : string :=
  match s with
  | EmptyString => EmptyString
  | String c r => String (lower_char c) (lower r)
  end.

(** [str.lstrip], [str.rstrip], [str.strip] on ASCII text *)
Fixpoint lstrip (s : string) : string :=
  match s with
  | EmptyString => EmptyString
  | String c r => if isspace c then lstrip r else s
  end.

Fixpoint rstrip (s : string) : string :=
  match s with
  | EmptyString => EmptyString
  | String c r =>
      match rstrip r with
      | EmptyString => if isspace c then EmptyString else String c EmptyString
      | r' => String c r'
      end
  end.

Definition strip (s : string) : string := rstrip (lstrip s).

(** [str.split] on ASCII text: the maximal runs of non-space characters,
    in order. *)
Fixpoint split (s : string) : list string :=
  match s with
  | EmptyString => []
  | String c r =>
      if isspace c then split r
      else match r with
           | EmptyString => [String c EmptyString]
           | String c' _ =>
               if isspace c' then String c EmptyString :: split r
               else match split r with
                    | w :: ws => String c w :: ws
                    | [] => [String c EmptyString]
                    end
           end
  end.

(** [str.capitalize] on ASCII text: first character upper-cased, the rest
    lower-cased. *)
Definition capitalize (s : string) : string :=
  match s with
  | EmptyString => EmptyString
  | String c r => String (upper_char c) (lower r)
  end.

(** [string.capwords(s)] on ASCII text *)
Definition capwords (s : string) : string :=
  String.concat " " (map capitalize (split s)).

(** [.strip()], [.lower()], then [capwords], on ASCII text *)
Definition normalizar (s : string) : string :=
  capwords (lower (strip s)).

End PyAscii.

(* ================================================================== *)
(** ** Python built-ins used by the scripts *)

Module Py.

(** [sorted]: an insertion sort for the order [leb].  It is used on keys that
    are equal when they compare equal, and where pandas leaves the order of
    ties open; [Pd.sort_stable] is the sort that keeps ties in place. *)
Section Sorted.
Context {A : Type} (leb : A -> A -> bool).

Fixpoint insert (x : A) (l : list A) : list A :=
  match l with
  | [] => [x]
  | y :: r => if leb y x then y :: insert x r else x :: l
  end.

Fixpoint sorted (l : list A) : list A :=
  match l with
  | [] => []
  | x :: r => insert x (sorted r)
  end.

(** [l] starts with a least element for [leb]. *)
Definition head_least (l : list A) : Prop :=
  match l with
  | [] => True
  | m :: _ => forall x, In x l -> leb m x = true
  end.
End Sorted.

(** [a / b] on numbers; [None] stands for [ZeroDivisionError]. *)
Definition truediv (a b : Q) : option Q :=
  if Qeq_bool b 0 then None else Some (a / b).

End Py.

(* ================================================================== *)
(** ** pandas operations used by the scripts *)

Module Pd.

(** A float result: [NaN] or a number. *)
Inductive numero : Type :=
| NaN : numero
| Num : Q -> numero.

(** [numero * k] *)
Definition nmul (x : numero) (k : Q) : numero :=
  match x with
  | NaN => NaN
  | Num q => Num (q * k)
  end.

(** [Series.dropna] *)
Fixpoint dropna {A : Type} (l : list (option A)) : list A :=
  match l with
  | [] => []
  | Some a :: r => a :: dropna r
  | None :: r => dropna r
  end.

Section Keyed.
Context {K : Type} (eqb : K -> K -> bool).

(** [Series.isin(values)], for one cell. *)
Definition isin (x : K) (values : list K) : bool :=
  existsb (eqb x) values.

(** [Series.unique]: the distinct values in order of first appearance. *)
Fixpoint unique (l : list K) : list K :=
  match l with
  | [] => []
  | x :: r => x :: filter (fun y => negb (eqb y x)) (unique r)
  end.

(** [Series.nunique] *)
Definition nunique (l : list K) : nat := List.length (unique l).

(** [pd.merge(left, right, on=key, how='left')]: every left row, in
    order, paired with each right row of equal key (in the order of
    [right]); a left row without a match is kept once, with the right
    side missing. *)
Definition merge_left {L R : Type} (kl : L -> K) (kr : R -> K)
    (left : list L) (right : list R) : list (L * option R) :=
  flat_map (fun l =>
    match filter (fun r => eqb (kr r) (kl l)) right with
    | [] => [(l, None)]
    | ms => map (fun r => (l, Some r)) ms
    end) left.

(** [left.merge(right, on=key)], whose default is [how='inner']: only
    the pairs of rows of equal key. *)
Definition merge_inner {L R : Type} (kl : L -> K) (kr : R -> K)
    (left : list L) (right : list R) : list (L * R) :=
  flat_map (fun l =>
    map (fun r => (l, r)) (filter (fun r => eqb (kr r) (kl l)) right)) left.

(** [df.groupby(key)] with the defaults [sort=True]: one group per
    distinct key, the groups in increasing key order, each group
    holding its rows in their original order. *)
Definition groupby {R : Type} (leb : K -> K -> bool) (key : R -> K)
    (df : list R) : list (K * list R) :=
  map (fun k => (k, filter (fun r => eqb (key r) k) df))
      (Py.sorted leb (unique (map key df))).
End Keyed.

(** [Series.sum], in exact arithmetic.  pandas adds the [float64] cells of
    the column, in an order of its own, and rounds; no property below
    equates two sums that are taken in different orders. *)
Definition sum (l : list Q) : Q := fold_right Qplus 0 l.

(** [Series.count] on a column without missing cells, and [len] *)
Definition count {A : Type} (l : list A) : Z := Z.of_nat (List.length l).

(** [Series.mean]: NaN on an empty series. *)
Definition mean (l : list Q) : numero :=
  match l with
  | [] => NaN
  | _ => Num (sum l / inject_Z (count l))
  end.

(** A boolean series read as numbers, as [mean] does. *)
Definition of_bool (b : bool) : Q := if b then 1 else 0.

(** The number of times [s] occurs in a column. *)
Definition veces (s : string) (col : list string) : nat :=
  List.length (filter (String.eqb s) col).

(** [Series.value_counts]: the number of rows per distinct value, the
    most frequent first. *)
Definition value_counts (l : list string) : list (string * nat) :=
  Py.sorted (fun a b => (snd b <=? snd a)%nat)
    (map (fun k => (k, veces k l)) (unique String.eqb l)).

(** [groupby(key).size()] *)
Definition size_by (l : list string) : list (string * nat) :=
  map (fun g => (fst g, List.length (snd g)))
      (groupby String.eqb String.leb (fun k => k) l).

(** [Series.mode] with the default [dropna=True]: the values that occur
    most often among the present ones, in increasing order. *)
Definition mode (l : list (option string)) : list string :=
  let vals := dropna l in
  let mx := fold_right Nat.max 0%nat (map (fun v => veces v vals) vals) in
  Py.sorted String.leb
    (filter (fun v => (veces v vals =? mx)%nat) (unique String.eqb vals)).


(** A stable insertion sort: [x] goes before the first element it is not
    after, so elements that compare equal keep their order. *)
Fixpoint insert_first {A : Type} (leb : A -> A -> bool) (x : A) (l : list A)
    : list A :=
  match l with
  | [] => [x]
  | y :: r => if leb x y then x :: l else y :: insert_first leb x r
  end.

Fixpoint sort_stable {A : Type} (leb : A -> A -> bool) (l : list A) : list A :=
  match l with
  | [] => []
  | x :: r => insert_first leb x (sort_stable leb r)
  end.

(** [df.groupby(key)] on a column with missing cells: the default
    [dropna=True] leaves the rows without a key out of every group. *)
Definition groupby_na {R : Type} (key : R -> option string) (df : list R)
    : list (string * list R) :=
  map (fun k =>
         (k, filter (fun r => match key r with
                              | Some k' => String.eqb k' k
                              | None => false
                              end) df))
      (Py.sorted String.leb (unique String.eqb (dropna (map key df)))).

(** [Series.nlargest(n)] with its default [keep='first']: the [n] largest
    values, largest first, the first occurrences winning the ties. *)
Definition nlargest (n : nat) (s : list (string * Z)) : list (string * Z) :=
  firstn n (sort_stable (fun a b => (snd b <=? snd a)%Z) s).

End Pd.

(* ================================================================== *)
(** ** Dates and the three input tables *)

(** A parsed [fecha]: calendar date and the seconds elapsed in that day. *)
Record Timestamp : Type := {
  anio : Z;
  mes : Z;
  dia : Z;
  segundos : Z
}.

(** [datetime.date] as (year, month, day). *)
Definition date : Type := (Z * Z * Z)%type.

(** [Timestamp.date()] and [Series.dt.date] *)
Definition ts_date (t : Timestamp) : date := (anio t, mes t, dia t).

(** [pd.to_datetime(d)] of a date: midnight of that day. *)
Definition to_datetime (d : date) : Timestamp :=
  let '(y, m, d') := d in {| anio := y; mes := m; dia := d'; segundos := 0 |}.

(** [a <= b] on dates *)
Definition date_leb (a b : date) : bool :=
  let '(y1, m1, d1) := a in
  let '(y2, m2, d2) := b in
  (y1 <? y2)%Z
  || (y1 =? y2)%Z && ((m1 <? m2)%Z || (m1 =? m2)%Z && (d1 <=? d2)%Z).

Definition date_eqb (a b : date) : bool := date_leb a b && date_leb b a.

(** [a <= b] on timestamps *)
Definition ts_leb (a b : Timestamp) : bool :=
  if date_eqb (ts_date a) (ts_date b)
  then (segundos a <=? segundos b)%Z
  else date_leb (ts_date a) (ts_date b).

(** [Series.min] and [Series.max] of a timestamp column; [None] on an
    empty column (pandas answers NaT). *)
Definition ts_min (l : list Timestamp) : option Timestamp :=
  match l with
  | [] => None
  | t :: r => Some (fold_left (fun acc x => if ts_leb x acc then x else acc) r t)
  end.

Definition ts_max (l : list Timestamp) : option Timestamp :=
  match l with
  | [] => None
  | t :: r => Some (fold_left (fun acc x => if ts_leb acc x then x else acc) r t)
  end.

(** Rows of [df_transacciones.csv], [df_productos.csv], [df_clientes.csv].
    The free-text columns may have empty cells. *)
Record Transaccion : Type := {
  tr_transaccion_id : string;
  tr_fecha : Timestamp;
  tr_cliente_id : string;
  tr_producto_id : string;
  tr_cantidad : Z;
  tr_total : Q;
  tr_metodo_pago : option string
}.

Record Producto : Type := {
  pr_producto_id : string;
  pr_nombre : string;
  pr_categoria : option string;
  pr_stock : Z
}.

Record Cliente : Type := {
  cl_cliente_id : string;
  cl_nombre : string;
  cl_apellido : string;
  cl_email : string;
  cl_ciudad : string;
  cl_latitud : Q;
  cl_longitud : Q;
  cl_segmento : option string
}.

(** [a > b] on numbers *)
Definition Qgtb (a b : Q) : bool := negb (Qle_bool a b).

(* ================================================================== *)
(** ** dashboard.py *)

Module Dashboard.
Import Pd.

(** [obtener_color] *)
Definition obtener_color (ventas : Q) : string :=
  if Qgtb ventas 1000000 then "#ff0000"
  else if Qgtb ventas 500000 then "#ff6600"
  else if Qgtb ventas 100000 then "#ffcc00"
  else "#33cc33".

(** A row of [datos_comb]: the transaction, its product and its customer,
    a side being [None] (all its columns NaN) when no row matched. *)
Definition FilaCruda : Type := (Transaccion * option Producto * option Cliente)%type.

Definition tx (r : FilaCruda) : Transaccion := fst (fst r).
Definition prod (r : FilaCruda) : option Producto := snd (fst r).
Definition cli (r : FilaCruda) : option Cliente := snd r.

(** [load_data]: the two [pd.merge(..., how='left')] calls. *)
Definition load_data (transacciones : list Transaccion)
    (productos : list Producto) (clientes : list Cliente)
    : list FilaCruda * list Cliente :=
  let datos_comb :=
    merge_left String.eqb tr_producto_id pr_producto_id
               transacciones productos in
  let datos_comb :=
    merge_left String.eqb (fun r => tr_cliente_id (fst r)) cl_cliente_id
               datos_comb clientes in
  (datos_comb, clientes).

(** The columns [categoria], [segmento], [metodo_pago] of [datos_comb]. *)
Definition col_categoria (r : FilaCruda) : option string :=
  match prod r with Some p => pr_categoria p | None => None end.
Definition col_segmento (r : FilaCruda) : option string :=
  match cli r with Some c => cl_segmento c | None => None end.
Definition col_metodo_pago (r : FilaCruda) : option string :=
  tr_metodo_pago (tx r).

(** [.str.strip().str.lower().apply(capwords)] on a present cell, with
    [capwords(s)] being [' '.join(map(str.capitalize, s.split()))].  A cell
    read from the file is UTF-8; other bytes are left as they are. *)
Definition normalizar (s : string) : string :=
  match Unicode.decode (Unicode.bytes s) with
  | Some u =>
      Unicode.of_bytes
        (Unicode.encode
           (Unicode.capwords (Unicode.lower (Unicode.strip u))))
  | None => s
  end.

(** A row of [df] after the three normalising assignments: the three
    columns then hold strings. *)
Record Fila : Type := {
  cruda : FilaCruda;
  categoria : string;
  segmento : string;
  metodo_pago : string
}.

Definition fecha (f : Fila) : Timestamp := tr_fecha (tx (cruda f)).
Definition total (f : Fila) : Q := tr_total (tx (cruda f)).
Definition cliente_id (f : Fila) : string := tr_cliente_id (tx (cruda f)).
Definition transaccion_id (f : Fila) : string := tr_transaccion_id (tx (cruda f)).

(** The three assignments on one row.  [.str.strip()] and [.str.lower()]
    leave a missing cell missing, and [capwords] applied to it raises
    [AttributeError]: that is [None] here. *)
Definition normalizar_fila (r : FilaCruda) : option Fila :=
  match col_categoria r, col_segmento r, col_metodo_pago r with
  | Some c, Some s, Some m =>
      Some {| cruda := r; categoria := normalizar c;
              segmento := normalizar s; metodo_pago := normalizar m |}
  | _, _, _ => None
  end.

Fixpoint normalizar_df (df : list FilaCruda) : option (list Fila) :=
  match df with
  | [] => Some []
  | r :: rest =>
      match normalizar_fila r, normalizar_df rest with
      | Some f, Some fs => Some (f :: fs)
      | _, _ => None
      end
  end.

(** The sidebar: what the widgets offer and select by default. *)
Definition fecha_min (df : list Fila) : option date :=
  option_map ts_date (ts_min (map fecha df)).
Definition fecha_max (df : list Fila) : option date :=
  option_map ts_date (ts_max (map fecha df)).

Definition categorias_disponibles (df : list Fila) : list string :=
  Py.sorted String.leb (unique String.eqb (map categoria df)).
Definition segmentos (df : list Fila) : list string :=
  Py.sorted String.leb (unique String.eqb (map segmento df)).
(** [.dropna()] finds nothing to drop in a column of strings. *)
Definition metodos_disponibles (df : list Fila) : list string :=
  Py.sorted String.leb
    (unique String.eqb (dropna (map (fun f => Some (metodo_pago f)) df))).

Record Filtros : Type := {
  fechas_seleccionadas : date * date;
  categorias_seleccionadas : list string;
  segmentos_seleccionados : list string;
  metodo_pago_seleccionado : list string
}.

(** [condicion_filtro], for one row *)
Definition condicion_filtro (sel : Filtros) (f : Fila) : bool :=
  date_leb (fst (fechas_seleccionadas sel)) (ts_date (fecha f))
  && date_leb (ts_date (fecha f)) (snd (fechas_seleccionadas sel))
  && isin String.eqb (categoria f) (categorias_seleccionadas sel)
  && isin String.eqb (segmento f) (segmentos_seleccionados sel)
  && isin String.eqb (metodo_pago f) (metodo_pago_seleccionado sel).

(** [df_filtrado = df[condicion_filtro].copy()] *)
Definition df_filtrado (sel : Filtros) (df : list Fila) : list Fila :=
  filter (condicion_filtro sel) df.

(** *** Key metrics *)

Definition ventas_totales (v : list Fila) : Q := sum (map total v).

(** Month number of a timestamp, counted from year 0.  With [mes] between
    1 and 12 it grows with the date, so the earliest row has the least
    month number and the latest row the greatest. *)
Definition mes_idx (t : Timestamp) : Z := anio t * 12 + (mes t - 1).

(** [lo, lo+1, ..., hi] *)
Definition rango (lo hi : Z) : list Z :=
  map (fun k => (lo + Z.of_nat k)%Z) (seq 0 (Z.to_nat (hi - lo + 1))).

(** The rows of month [m] in a view. *)
Definition del_mes (m : Z) (v : list Fila) : list Fila :=
  filter (fun f => (mes_idx (fecha f) =? m)%Z) v.

(** [groupby(pd.Grouper(key='fecha', freq='ME'))]: monthly bins from the
    month of the earliest row to the month of the latest one, each with
    the rows that fall in it; no bin on an empty frame. *)
Definition grouper_ME (v : list Fila) : list (Z * list Fila) :=
  match map (fun f => mes_idx (fecha f)) v with
  | [] => []
  | m :: ms =>
      map (fun i => (i, del_mes i v))
          (rango (fold_right Z.min m ms) (fold_right Z.max m ms))
  end.

Definition ventas_mensuales (v : list Fila) : numero :=
  mean (map (fun g => sum (map total (snd g))) (grouper_ME v)).

Definition clientes_unicos (v : list Fila) : nat :=
  nunique String.eqb (map cliente_id v).

Definition compras_por_cliente (v : list Fila) : list (string * nat) :=
  value_counts (map cliente_id v).

Definition tasa_retencion (v : list Fila) : numero :=
  nmul (mean (map (fun p => of_bool (1 <? snd p)%nat) (compras_por_cliente v)))
       100.

(** *** Monthly trend *)

Record DatoMensual : Type := {
  dm_mes : Z;                    (* the bin, labelled by its month *)
  dm_total : Q;
  numero_transacciones : Z
}.

Definition datos_mensuales (v : list Fila) : list DatoMensual :=
  map (fun g => {| dm_mes := fst g;
                   dm_total := sum (map total (snd g));
                   numero_transacciones := count (map transaccion_id (snd g)) |})
      (grouper_ME v).

(** *** Sales by category *)

Definition ventas_por_categoria (v : list Fila) : list (string * Q) :=
  map (fun g => (fst g, sum (map total (snd g))))
      (groupby String.eqb String.leb categoria v).

(** *** Map: per-location rollup *)

Definition df_clientes_filtrado (df_clientes : list Cliente) (v : list Fila)
    : list Cliente :=
  filter (fun c => isin String.eqb (cl_cliente_id c)
                        (unique String.eqb (map cliente_id v)))
         df_clientes.

Record VentaCliente : Type := {
  vc_cliente_id : string;
  vc_ventas_totales : Q;
  vc_num_transacciones : Z
}.

Definition ventas_por_ubicacion (v : list Fila) : list VentaCliente :=
  map (fun g => {| vc_cliente_id := fst g;
                   vc_ventas_totales := sum (map total (snd g));
                   vc_num_transacciones := count (map transaccion_id (snd g)) |})
      (groupby String.eqb String.leb cliente_id v).

(** A row of [df_clientes_geo]: a customer and, when it has one, its
    sales row. *)
Definition FilaGeo : Type := (Cliente * option VentaCliente)%type.

Definition df_clientes_geo (df_clientes : list Cliente) (v : list Fila)
    : list FilaGeo :=
  merge_left String.eqb cl_cliente_id vc_cliente_id
             (df_clientes_filtrado df_clientes v) (ventas_por_ubicacion v).

(** The grouping key [['latitud', 'longitud', 'ciudad']]. *)
Definition Coord : Type := (Q * Q * string)%type.

Definition coord (r : FilaGeo) : Coord :=
  (cl_latitud (fst r), cl_longitud (fst r), cl_ciudad (fst r)).

Definition coord_eqb (a b : Coord) : bool :=
  let '(la, lo, c) := a in
  let '(la', lo', c') := b in
  Qeq_bool la la' && Qeq_bool lo lo' && String.eqb c c'.

Definition coord_leb (a b : Coord) : bool :=
  let '(la, lo, c) := a in
  let '(la', lo', c') := b in
  match Qcompare la la' with
  | Lt => true
  | Gt => false
  | Eq => match Qcompare lo lo' with
          | Lt => true
          | Gt => false
          | Eq => String.leb c c'
          end
  end.

(** [lambda x: x.mode()[0] if not x.mode().empty else 'N/A'] *)
Definition segmento_principal_de (x : list (option string)) : string :=
  match mode x with
  | [] => "N/A"
  | m :: _ => m
  end.

(** A row of [coordenadas_unicas]; [u_ventas_totales] is its column
    [ventas_totales]. *)
Record Ubicacion : Type := {
  latitud : Q;
  longitud : Q;
  ciudad : string;
  conteo_clientes : Z;
  u_ventas_totales : Q;
  num_transacciones : Z;
  segmento_principal : string
}.

(** The aggregation of one group of [df_clientes_geo]; the two sums skip
    the missing cells. *)
Definition agg_ubicacion (g : Coord * list FilaGeo) : Ubicacion :=
  let '(la, lo, c) := fst g in
  {| latitud := la; longitud := lo; ciudad := c;
     conteo_clientes := count (map (fun r => cl_cliente_id (fst r)) (snd g));
     u_ventas_totales :=
       sum (dropna (map (fun r => option_map vc_ventas_totales (snd r)) (snd g)));
     num_transacciones :=
       fold_right Z.add 0%Z
         (dropna (map (fun r => option_map vc_num_transacciones (snd r)) (snd g)));
     segmento_principal :=
       segmento_principal_de (map (fun r => cl_segmento (fst r)) (snd g)) |}.

Definition coordenadas_unicas (geo : list FilaGeo) : list Ubicacion :=
  map agg_ubicacion (groupby coord_eqb coord_leb coord geo).

(** [avg_venta] of the marker loop; [None] would be a division by zero. *)
Definition avg_venta (row : Ubicacion) : option Q :=
  if (num_transacciones row >? 0)%Z
  then Py.truediv (u_ventas_totales row) (inject_Z (num_transacciones row))
  else Some 0.

(** The rows of [df_clientes_geo] grouped into the location row [u]. *)
Definition grupo_de (u : Ubicacion) (geo : list FilaGeo) : list FilaGeo :=
  filter (fun r => coord_eqb (coord r) (latitud u, longitud u, ciudad u)) geo.


(** *** The other charts and the data explorer *)

Definition ventas_pago (v : list Fila) : list (string * Q) :=
  map (fun g => (fst g, sum (map total (snd g))))
      (groupby String.eqb String.leb metodo_pago v).

Definition ventas_por_segmento (v : list Fila) : list (string * Q) :=
  map (fun g => (fst g, sum (map total (snd g))))
      (groupby String.eqb String.leb segmento v).

(** [ventas_por_segmento.sort_values('total', ascending=False)]; pandas
    does not fix the order of equal totals, here they keep their order. *)
Definition ventas_por_segmento_ordenado (v : list Fila) : list (string * Q) :=
  sort_stable (fun a b => Qle_bool (snd b) (snd a)) (ventas_por_segmento v).

(** The columns [nombre_x] (the product name after the merges) and
    [cantidad]. *)
Definition nombre_x (f : Fila) : option string :=
  option_map pr_nombre (prod (cruda f)).
Definition cantidad (f : Fila) : Z := tr_cantidad (tx (cruda f)).

(** [groupby('nombre_x')['cantidad'].sum()] *)
Definition cantidad_por_producto (v : list Fila) : list (string * Z) :=
  map (fun g => (fst g, fold_right Z.add 0%Z (map cantidad (snd g))))
      (groupby_na nombre_x v).

Definition top_productos (v : list Fila) : list (string * Z) :=
  nlargest 10 (cantidad_por_producto v).

(** [df_vis]: the view with the columns shown, sorted by
    [sort_values('fecha', ascending=False)], the latest rows first; rows of
    one timestamp keep their order here. *)
Definition df_vis (v : list Fila) : list Fila :=
  sort_stable (fun a b => ts_leb (fecha b) (fecha a)) v.

(** The row of [ventas_por_ubicacion] for customer [k]. *)
Definition ventas_de (v : list Fila) (k : string) : VentaCliente :=
  {| vc_cliente_id := k;
     vc_ventas_totales :=
       sum (map total (filter (fun r => String.eqb (cliente_id r) k) v));
     vc_num_transacciones :=
       count (map transaccion_id
                  (filter (fun r => String.eqb (cliente_id r) k) v)) |}.

End Dashboard.

(* ================================================================== *)
(** ** tra.py, where it differs *)

Module Tra.
Import Pd.

(** A row of [df]: both sides are present, the joins being inner ones. *)
Definition Fila : Type := (Transaccion * Cliente * Producto)%type.

(** [cargar_datos]: [merge] twice with its default [how='inner']. *)
Definition cargar_datos (clientes : list Cliente) (productos : list Producto)
    (transacciones : list Transaccion) : list Fila :=
  merge_inner String.eqb (fun r => tr_producto_id (fst r)) pr_producto_id
    (merge_inner String.eqb tr_cliente_id cl_cliente_id transacciones clientes)
    productos.

Definition fecha (f : Fila) : Timestamp := tr_fecha (fst (fst f)).
Definition categoria (f : Fila) : option string := pr_categoria (snd f).
Definition cliente_id (f : Fila) : string := tr_cliente_id (fst (fst f)).

Definition option_eqb (a b : option string) : bool :=
  match a, b with
  | Some x, Some y => String.eqb x y
  | None, None => true
  | _, _ => false
  end.

(** [df_filtrado]: the date widget hands back dates, which
    [pd.to_datetime] turns into midnights. *)
Definition df_filtrado (fecha_range : date * date)
    (categorias : list (option string)) (df : list Fila) : list Fila :=
  filter (fun f =>
            ts_leb (to_datetime (fst fecha_range)) (fecha f)
            && ts_leb (fecha f) (to_datetime (snd fecha_range))
            && isin option_eqb (categoria f) categorias) df.

(** [retencion] *)
Definition clientes_frecuencia (v : list Fila) : list (string * nat) :=
  size_by (map cliente_id v).

Definition retencion (v : list Fila) : numero :=
  mean (map (fun p => of_bool (1 <? snd p)%nat) (clientes_frecuencia v)).


(** The sidebar defaults: the date widget starts at the dates of the
    earliest and latest row, the category list at every value present. *)
Definition fecha_range_inicial (df : list Fila) : option (date * date) :=
  match ts_min (map fecha df), ts_max (map fecha df) with
  | Some a, Some b => Some (ts_date a, ts_date b)
  | _, _ => None
  end.

Definition categorias (df : list Fila) : list (option string) :=
  unique option_eqb (map categoria df).

End Tra.

(* ================================================================== *)
(** ** Sample tables *)

Module Ejemplo.

Definition ts (y m d : Z) : Timestamp :=
  {| anio := y; mes := m; dia := d; segundos := 0 |}.

Definition transaccion (tid : string) (f : Timestamp) (c p : string)
    (n : Z) (t : Q) (mp : string) : Transaccion :=
  {| tr_transaccion_id := tid; tr_fecha := f; tr_cliente_id := c;
     tr_producto_id := p; tr_cantidad := n; tr_total := t;
     tr_metodo_pago := Some mp |}.

Definition productos : list Producto :=
  [ {| pr_producto_id := "P1"; pr_nombre := "Laptop";
       pr_categoria := Some " electronics "; pr_stock := 10 |};
    {| pr_producto_id := "P2"; pr_nombre := "Silla";
       pr_categoria := Some "HOGAR"; pr_stock := 4 |} ].

Definition clientes : list Cliente :=
  [ {| cl_cliente_id := "C1"; cl_nombre := "Ana"; cl_apellido := "Rojas";
       cl_email := "ana@example.org"; cl_ciudad := "Tunja";
       cl_latitud := 5.5; cl_longitud := -73.4;
       cl_segmento := Some "premium" |};
    {| cl_cliente_id := "C2"; cl_nombre := "Luis"; cl_apellido := "Paz";
       cl_email := "luis@example.org"; cl_ciudad := "Tunja";
       cl_latitud := 5.5; cl_longitud := -73.4;
       cl_segmento := Some "regular" |} ].

(** Three sales, in January and in March 2024; the last one names a
    product and a customer that the other tables do not have. *)
Definition transacciones : list Transaccion :=
  [ transaccion "1" (ts 2024 1 5) "C1" "P1" 1 1200000 "cash";
    transaccion "2" (ts 2024 3 9) "C2" "P2" 2 300000 " CARD";
    transaccion "3" (ts 2024 3 20) "C9" "P9" 1 50000 "cash" ].

(** The first two sales: every key has its match. *)
Definition transacciones_ok : list Transaccion :=
  firstn 2 transacciones.

(** The normalised frame of [transacciones_ok]. *)
Definition df : list Dashboard.Fila :=
  match Dashboard.normalizar_df
          (fst (Dashboard.load_data transacciones_ok productos clientes)) with
  | Some d => d
  | None => []
  end.

(** A selection with every date, segment and method but no category. *)
Definition sin_categorias : Dashboard.Filtros :=
  {| Dashboard.fechas_seleccionadas := ((2024, 1, 1), (2024, 12, 31))%Z;
     Dashboard.categorias_seleccionadas := [];
     Dashboard.segmentos_seleccionados := ["Premium"; "Regular"];
     Dashboard.metodo_pago_seleccionado := ["Card"; "Cash"] |}.

(** The customers of the sample view with their sales, and the only
    location they share. *)
Definition geo : list Dashboard.FilaGeo :=
  Dashboard.df_clientes_geo clientes df.

Definition ubicacion : Dashboard.Ubicacion :=
  Dashboard.agg_ubicacion ((5.5, -73.4, "Tunja"), geo).

(** A row of [tra.py]'s frame, sold at noon. *)
Definition fila_tra : Tra.Fila :=
  ({| tr_transaccion_id := "7";
      tr_fecha := {| anio := 2024; mes := 1; dia := 5; segundos := 43200 |};
      tr_cliente_id := "C1"; tr_producto_id := "P2"; tr_cantidad := 1;
      tr_total := 10; tr_metodo_pago := Some "cash" |},
   {| cl_cliente_id := "C1"; cl_nombre := "Ana"; cl_apellido := "Rojas";
      cl_email := "ana@example.org"; cl_ciudad := "Tunja";
      cl_latitud := 5.5; cl_longitud := -73.4;
      cl_segmento := Some "premium" |},
   {| pr_producto_id := "P2"; pr_nombre := "Silla";
      pr_categoria := Some "Hogar"; pr_stock := 4 |}).

Definition n_apostrofo : string := Unicode.of_bytes [197; 137]%N.

(** ["ELECTRÓNICA"] and ["Electrónica"], as UTF-8. *)
Definition electronica_mayus : string :=
  Unicode.of_bytes [69; 76; 69; 67; 84; 82; 195; 147; 78; 73; 67; 65]%N.
Definition electronica_titulo : string :=
  Unicode.of_bytes [69; 108; 101; 99; 116; 114; 195; 179; 110; 105; 99; 97]%N.

End Ejemplo.

(* ================================================================== *)
(** ** Labels that differ in case or surrounding white space *)

(** Two characters that are equal or are the two cases of one ASCII
    letter. *)
Definition misma_letra (c d : ascii) : Prop :=
  c = d
  \/ (PyAscii.isupper c = true /\ d = PyAscii.lower_char c)
  \/ (PyAscii.isupper d = true /\ c = PyAscii.lower_char d).

Inductive igual_salvo_caja : string -> string -> Prop :=
| isc_nil : igual_salvo_caja EmptyString EmptyString
| isc_cons (c d : ascii) (s t : string) :
    misma_letra c d -> igual_salvo_caja s t ->
    igual_salvo_caja (String c s) (String d t).



(** A text of ASCII characters only. *)
Fixpoint es_ascii (s : string) : bool :=
  match s with
  | EmptyString => true
  | String c r => (N_of_ascii c <? 128)%N && es_ascii r
  end.



(** A word: a string that is not empty and has no white space. *)
Fixpoint sin_espacios (w : string) : bool :=
  match w with
  | EmptyString => true
  | String c r => negb (PyAscii.isspace c) && sin_espacios r
  end.

Definition palabra (w : string) : Prop :=
  w <> EmptyString /\ sin_espacios w = true.

(** A text that starts like a word. *)
Definition empieza_palabra (s : string) : Prop :=
  match s with
  | EmptyString => False
  | String c _ => PyAscii.isspace c = false
  end.

(* ================================================================== *)
(** * Properties *)

Import Pd Dashboard.

(** ** Comparisons on numbers *)

Lemma Qgtb_lt (a b : Q) : Qgtb a b = true <-> b < a.
Proof.
  unfold Qgtb. rewrite negb_true_iff.
  split; intro H.
  - apply Qnot_le_lt. intro Hle. apply Qle_bool_iff in Hle. congruence.
  - destruct (Qle_bool a b) eqn:E; [|reflexivity].
    apply Qle_bool_iff in E. exfalso. apply (Qlt_not_le _ _ H E).
Qed.

Lemma Qgtb_le (a b : Q) : Qgtb a b = false <-> a <= b.
Proof.
  unfold Qgtb. rewrite negb_false_iff. apply Qle_bool_iff.
Qed.

(** ** The colour ladder *)

(** C1: [obtener_color] answers red exactly above 1,000,000, orange exactly
    in (500,000, 1,000,000], yellow exactly in (100,000, 500,000] and green
    exactly at or below 100,000; the bounds themselves fall in the lower
    tier (1,000,000 is orange, 100,000 is green). *)
Theorem obtener_color_tiers (v : Q) :
  (obtener_color v = "#ff0000" <-> 1000000 < v) /\
  (obtener_color v = "#ff6600" <-> 500000 < v /\ v <= 1000000) /\
  (obtener_color v = "#ffcc00" <-> 100000 < v /\ v <= 500000) /\
  (obtener_color v = "#33cc33" <-> v <= 100000) /\
  obtener_color 1000001 = "#ff0000" /\
  obtener_color 1000000 = "#ff6600" /\
  obtener_color 100001 = "#ffcc00" /\
  obtener_color 100000 = "#33cc33".
Proof.
  unfold obtener_color.
  destruct (Qgtb v 1000000) eqn:E1;
    [apply Qgtb_lt in E1 | apply Qgtb_le in E1];
  (destruct (Qgtb v 500000) eqn:E2;
    [apply Qgtb_lt in E2 | apply Qgtb_le in E2]);
  (destruct (Qgtb v 100000) eqn:E3;
    [apply Qgtb_lt in E3 | apply Qgtb_le in E3]);
  repeat split; intros; try discriminate; try reflexivity; try lra.
Qed.
(** ** Left joins on a unique key *)

Section MergeUnique.
Context {L R : Type} (kl : L -> string) (kr : R -> string).

Lemma filter_key_absent (x : string) (right : list R) :
  ~ In x (map kr right) ->
  filter (fun r => String.eqb (kr r) x) right = [].
Proof.
  induction right as [|r right IH]; simpl; intros Hn; [reflexivity|].
  destruct (String.eqb_spec (kr r) x) as [E|E].
  - exfalso. apply Hn. now left.
  - apply IH. intro Hin. apply Hn. now right.
Qed.

Lemma filter_key_unique (x : string) (right : list R) :
  NoDup (map kr right) ->
  filter (fun r => String.eqb (kr r) x) right
  = match find (fun r => String.eqb (kr r) x) right with
    | Some r => [r]
    | None => []
    end.
Proof.
  induction right as [|r right IH]; simpl; intros Hnd; [reflexivity|].
  inversion Hnd as [|? ? Hnotin Hnd']; subst.
  destruct (String.eqb_spec (kr r) x) as [E|E].
  - subst x. now rewrite (filter_key_absent _ _ Hnotin).
  - now apply IH.
Qed.

Lemma merge_left_unique (left : list L) (right : list R) :
  NoDup (map kr right) ->
  merge_left String.eqb kl kr left right
  = map (fun l => (l, find (fun r => String.eqb (kr r) (kl l)) right)) left.
Proof.
  intros Hnd. unfold merge_left.
  induction left as [|l left IH]; cbn [flat_map]; [reflexivity|].
  rewrite IH, (filter_key_unique _ _ Hnd).
  cbn [map]. destruct (find _ right); reflexivity.
Qed.

Lemma find_key_absent (x : string) (right : list R) :
  (forall r, In r right -> kr r <> x) ->
  find (fun r => String.eqb (kr r) x) right = None.
Proof.
  intros H. destruct (find _ right) as [r|] eqn:E; [|reflexivity].
  apply find_some in E. destruct E as [Hin Heq].
  apply String.eqb_eq in Heq. now apply H in Hin.
Qed.

Lemma find_key_present (x : string) (right : list R) (r : R) :
  NoDup (map kr right) -> In r right -> kr r = x ->
  find (fun r => String.eqb (kr r) x) right = Some r.
Proof.
  induction right as [|r' right IH]; simpl; intros Hnd Hin Hk; [easy|].
  inversion Hnd as [|? ? Hnotin Hnd']; subst.
  destruct Hin as [->|Hin].
  - now rewrite String.eqb_refl.
  - destruct (String.eqb_spec (kr r') (kr r)) as [E|E]; [|now apply IH].
    exfalso. apply Hnotin. rewrite E. now apply in_map.
Qed.
End MergeUnique.

Lemma load_data_unique (ts : list Transaccion) (ps : list Producto)
    (cs : list Cliente) :
  NoDup (map pr_producto_id ps) ->
  NoDup (map cl_cliente_id cs) ->
  fst (load_data ts ps cs)
  = map (fun t =>
           (t,
            find (fun p => String.eqb (pr_producto_id p) (tr_producto_id t)) ps,
            find (fun c => String.eqb (cl_cliente_id c) (tr_cliente_id t)) cs))
        ts.
Proof.
  intros Hp Hc. unfold load_data. simpl.
  rewrite (merge_left_unique _ _ _ _ Hc), (merge_left_unique _ _ _ _ Hp).
  rewrite map_map. reflexivity.
Qed.

(** X20: with [producto_id] unique in the products and [cliente_id] unique in
    the customers, [load_data] returns exactly the transactions, one row
    each and in their order; a row whose product (customer) key has no match
    is kept, with its product (customer) side missing, and a row whose key
    has a match carries that product (customer). *)
Theorem load_data_one_row_per_transaction (ts : list Transaccion)
    (ps : list Producto) (cs : list Cliente) :
  NoDup (map pr_producto_id ps) ->
  NoDup (map cl_cliente_id cs) ->
  let df := fst (load_data ts ps cs) in
  List.length df = List.length ts /\
  map tx df = ts /\
  (forall r, In r df ->
     (forall p, In p ps -> pr_producto_id p <> tr_producto_id (tx r)) ->
     prod r = None /\ col_categoria r = None) /\
  (forall r, In r df ->
     (forall c, In c cs -> cl_cliente_id c <> tr_cliente_id (tx r)) ->
     cli r = None /\ col_segmento r = None) /\
  (forall r p, In r df -> In p ps ->
     pr_producto_id p = tr_producto_id (tx r) -> prod r = Some p) /\
  (forall r c, In r df -> In c cs ->
     cl_cliente_id c = tr_cliente_id (tx r) -> cli r = Some c).
Proof.
  intros Hp Hc df. subst df. rewrite (load_data_unique _ _ _ Hp Hc).
  split; [now rewrite length_map|].
  split; [rewrite map_map; unfold tx; simpl; apply map_id|].
  repeat split.
  - apply in_map_iff in H. destruct H as [t [<- _]]. unfold prod, tx in *.
    simpl in *. now apply find_key_absent.
  - apply in_map_iff in H. destruct H as [t [<- _]].
    unfold col_categoria, prod, tx in *. simpl in *.
    now rewrite find_key_absent.
  - apply in_map_iff in H. destruct H as [t [<- _]]. unfold cli, tx in *.
    simpl in *. now apply find_key_absent.
  - apply in_map_iff in H. destruct H as [t [<- _]].
    unfold col_segmento, cli, tx in *. simpl in *.
    now rewrite find_key_absent.
  - intros r p Hr Hin Hk. apply in_map_iff in Hr. destruct Hr as [t [<- _]].
    unfold prod, tx in *. simpl in *.
    now apply find_key_present.
  - intros r c Hr Hin Hk. apply in_map_iff in Hr. destruct Hr as [t [<- _]].
    unfold cli, tx in *. simpl in *.
    now apply find_key_present.
Qed.

Lemma load_data_one_row_per_transaction_witness :
  NoDup (map pr_producto_id Ejemplo.productos) /\
  NoDup (map cl_cliente_id Ejemplo.clientes) /\
  List.length
    (fst (load_data Ejemplo.transacciones Ejemplo.productos Ejemplo.clientes))
  = 3%nat.
Proof.
  assert (Hp : NoDup (map pr_producto_id Ejemplo.productos)).
  { repeat constructor; simpl; intuition discriminate. }
  assert (Hc : NoDup (map cl_cliente_id Ejemplo.clientes)).
  { repeat constructor; simpl; intuition discriminate. }
  split; [exact Hp|]. split; [exact Hc|].
  exact (proj1 (load_data_one_row_per_transaction
                  Ejemplo.transacciones Ejemplo.productos Ejemplo.clientes
                  Hp Hc)).
Defined.

(** The third sample sale has no product and no customer: [load_data] keeps
    it with both sides missing. *)
Example load_data_keeps_unmatched :
  map (fun r => (tr_transaccion_id (tx r), prod r, cli r))
      (skipn 2 (fst (load_data Ejemplo.transacciones Ejemplo.productos
                               Ejemplo.clientes)))
  = [("3", None, None)].
Proof. reflexivity. Qed.

(** C2: the joins of [tra.py] are inner joins and lose a transaction.  The
    sample has three sales and tables with unique keys; the third sale names
    a customer and a product that are in no table.  [cargar_datos] returns
    two rows, those of the first two sales, where [load_data] returns
    three. *)
Example cargar_datos_drops_unmatched :
  map tr_transaccion_id Ejemplo.transacciones = ["1"; "2"; "3"] /\
  map (fun t => (isin String.eqb (tr_cliente_id t)
                   (map cl_cliente_id Ejemplo.clientes),
                 isin String.eqb (tr_producto_id t)
                   (map pr_producto_id Ejemplo.productos)))
      Ejemplo.transacciones
  = [(true, true); (true, true); (false, false)] /\
  map (fun f => tr_transaccion_id (fst (fst f)))
      (Tra.cargar_datos Ejemplo.clientes Ejemplo.productos
                        Ejemplo.transacciones)
  = ["1"; "2"] /\
  map (fun r => tr_transaccion_id (tx r))
      (fst (load_data Ejemplo.transacciones Ejemplo.productos
                      Ejemplo.clientes))
  = ["1"; "2"; "3"].
Proof. repeat split; reflexivity. Qed.

(** ** The filter *)

Lemma isin_nil {K : Type} (eqb : K -> K -> bool) (x : K) :
  isin eqb x [] = false.
Proof. reflexivity. Qed.

Lemma filter_all_false {A : Type} (p : A -> bool) (l : list A) :
  (forall x, In x l -> p x = false) -> filter p l = [].
Proof.
  induction l as [|a l IH]; intros H; simpl; [reflexivity|].
  rewrite (H a (or_introl eq_refl)). apply IH. intros x Hx. apply H. now right.
Qed.

Lemma filter_all_true {A : Type} (p : A -> bool) (l : list A) :
  (forall x, In x l -> p x = true) -> filter p l = l.
Proof.
  induction l as [|a l IH]; intros H; simpl; [reflexivity|].
  rewrite (H a (or_introl eq_refl)). f_equal. apply IH.
  intros x Hx. apply H. now right.
Qed.

(** C6: when the selection of categories, of segments or of payment methods
    is empty, the filter keeps no row. *)
Theorem empty_selection_matches_nothing (sel : Filtros) (df : list Fila) :
  categorias_seleccionadas sel = [] \/
  segmentos_seleccionados sel = [] \/
  metodo_pago_seleccionado sel = [] ->
  df_filtrado sel df = [].
Proof.
  intros H. unfold df_filtrado. apply filter_all_false. intros f _.
  unfold condicion_filtro.
  destruct H as [H | [H | H]]; rewrite H, isin_nil;
    rewrite ?andb_false_r; reflexivity.
Qed.

Lemma empty_selection_matches_nothing_witness :
  df_filtrado {| fechas_seleccionadas := ((2024, 1, 1), (2024, 12, 31))%Z;
                 categorias_seleccionadas := [];
                 segmentos_seleccionados := ["Premium"; "Regular"];
                 metodo_pago_seleccionado := ["Card"; "Cash"] |}
              Ejemplo.df = [].
Proof.
  apply empty_selection_matches_nothing. left. reflexivity.
Defined.

(** ** The average ticket *)

(** C9: [avg_venta] of a location row is its sales divided by its number of
    transactions when that number is positive and is 0 when that number is
    zero; the division never has a zero divisor. *)
Theorem avg_venta_guarded (row : Ubicacion) :
  ((0 < num_transacciones row)%Z ->
     avg_venta row
     = Some (u_ventas_totales row / inject_Z (num_transacciones row))) /\
  (num_transacciones row = 0%Z -> avg_venta row = Some 0) /\
  avg_venta row <> None.
Proof.
  unfold avg_venta, Py.truediv.
  destruct (num_transacciones row >? 0)%Z eqn:E.
  - apply Z.gtb_lt in E.
    assert (Hz : Qeq_bool (inject_Z (num_transacciones row)) 0 = false).
    { destruct (Qeq_bool _ 0) eqn:Q0; [|reflexivity].
      apply Qeq_bool_iff in Q0. unfold Qeq in Q0. simpl in Q0. lia. }
    rewrite Hz. repeat split; intros; try lia; try discriminate.
  - assert (~ (0 < num_transacciones row)%Z).
    { intro Hpos. apply Z.gtb_lt in Hpos. congruence. }
    repeat split; intros; try lia; try discriminate; reflexivity.
Qed.

(** *** Order on dates and timestamps *)

Lemma date_leb_iff (a b : date) :
  date_leb a b = true <->
  let '(y1, m1, d1) := a in
  let '(y2, m2, d2) := b in
  (y1 < y2 \/ y1 = y2 /\ (m1 < m2 \/ m1 = m2 /\ d1 <= d2))%Z.
Proof.
  destruct a as [[y1 m1] d1], b as [[y2 m2] d2]. unfold date_leb.
  rewrite !orb_true_iff, !andb_true_iff, !orb_true_iff, !andb_true_iff.
  rewrite !Z.ltb_lt, !Z.eqb_eq, Z.leb_le. reflexivity.
Qed.

Lemma date_eqb_iff (a b : date) : date_eqb a b = true <-> a = b.
Proof.
  unfold date_eqb. rewrite andb_true_iff, !date_leb_iff.
  destruct a as [[y1 m1] d1], b as [[y2 m2] d2].
  split.
  - intros [H1 H2]. repeat f_equal; lia.
  - intros E. inversion E; subst. lia.
Qed.

Lemma ts_leb_date (a b : Timestamp) :
  ts_leb a b = true -> date_leb (ts_date a) (ts_date b) = true.
Proof.
  unfold ts_leb. destruct (date_eqb (ts_date a) (ts_date b)) eqn:E.
  - intros _. unfold date_eqb in E. now apply andb_true_iff in E.
  - trivial.
Qed.

Lemma ts_leb_refl (a : Timestamp) : ts_leb a a = true.
Proof.
  unfold ts_leb.
  rewrite (proj2 (date_eqb_iff (ts_date a) (ts_date a)) eq_refl).
  apply Z.leb_refl.
Qed.

Lemma ts_leb_total (a b : Timestamp) : ts_leb a b = false -> ts_leb b a = true.
Proof.
  unfold ts_leb.
  destruct (date_eqb (ts_date a) (ts_date b)) eqn:E.
  - apply date_eqb_iff in E. rewrite <- E.
    rewrite (proj2 (date_eqb_iff (ts_date a) (ts_date a)) eq_refl).
    rewrite Z.leb_gt, Z.leb_le. lia.
  - intros Hab.
    destruct (date_eqb (ts_date b) (ts_date a)) eqn:E'.
    + apply date_eqb_iff in E'. rewrite E' in E.
      rewrite (proj2 (date_eqb_iff (ts_date a) (ts_date a)) eq_refl) in E.
      discriminate.
    + apply date_leb_iff. apply not_true_iff_false in Hab.
      rewrite date_leb_iff in Hab.
      destruct (ts_date a) as [[y1 m1] d1], (ts_date b) as [[y2 m2] d2]. lia.
Qed.

Lemma ts_leb_trans (a b c : Timestamp) :
  ts_leb a b = true -> ts_leb b c = true -> ts_leb a c = true.
Proof.
  unfold ts_leb.
  destruct (date_eqb (ts_date a) (ts_date b)) eqn:Eab.
  - apply date_eqb_iff in Eab. rewrite Eab.
    destruct (date_eqb (ts_date b) (ts_date c)); trivial.
    rewrite !Z.leb_le. lia.
  - destruct (date_eqb (ts_date b) (ts_date c)) eqn:Ebc.
    + apply date_eqb_iff in Ebc. rewrite <- Ebc, Eab. trivial.
    + intros H1 H2.
      assert (Hac : date_leb (ts_date a) (ts_date c) = true).
      { rewrite date_leb_iff in *.
        destruct (ts_date a) as [[y1 m1] d1], (ts_date b) as [[y2 m2] d2],
                 (ts_date c) as [[y3 m3] d3]. lia. }
      destruct (date_eqb (ts_date a) (ts_date c)) eqn:Eac; [|exact Hac].
      exfalso. apply date_eqb_iff in Eac. rewrite Eac in *.
      assert (E : date_eqb (ts_date c) (ts_date b) = true).
      { unfold date_eqb. now rewrite H1, H2. }
      apply date_eqb_iff in E. rewrite E in Ebc.
      rewrite (proj2 (date_eqb_iff _ _) eq_refl) in Ebc. discriminate.
Qed.

Lemma fold_min_le (r : list Timestamp) (acc : Timestamp) :
  let m := fold_left (fun acc x => if ts_leb x acc then x else acc) r acc in
  ts_leb m acc = true /\ forall x, In x r -> ts_leb m x = true.
Proof.
  revert acc. induction r as [|y r IH]; intros acc; simpl.
  - split; [apply ts_leb_refl | easy].
  - destruct (ts_leb y acc) eqn:E.
    + destruct (IH y) as [H1 H2]. split.
      * eapply ts_leb_trans; eauto.
      * intros x [<-|Hx]; auto.
    + destruct (IH acc) as [H1 H2]. split; [exact H1|].
      intros x [<-|Hx]; auto.
      eapply ts_leb_trans; [exact H1|]. now apply ts_leb_total.
Qed.

Lemma fold_max_ge (r : list Timestamp) (acc : Timestamp) :
  let m := fold_left (fun acc x => if ts_leb acc x then x else acc) r acc in
  ts_leb acc m = true /\ forall x, In x r -> ts_leb x m = true.
Proof.
  revert acc. induction r as [|y r IH]; intros acc; simpl.
  - split; [apply ts_leb_refl | easy].
  - destruct (ts_leb acc y) eqn:E.
    + destruct (IH y) as [H1 H2]. split.
      * eapply ts_leb_trans; eauto.
      * intros x [<-|Hx]; auto.
    + destruct (IH acc) as [H1 H2]. split; [exact H1|].
      intros x [<-|Hx]; auto.
      eapply ts_leb_trans; [|exact H1]. now apply ts_leb_total.
Qed.

Lemma ts_min_le (l : list Timestamp) (m x : Timestamp) :
  ts_min l = Some m -> In x l -> ts_leb m x = true.
Proof.
  destruct l as [|t r]; simpl; [discriminate|].
  intros [= <-] Hin. destruct (fold_min_le r t) as [H1 H2].
  destruct Hin as [<-|Hin]; auto.
Qed.

Lemma ts_max_ge (l : list Timestamp) (m x : Timestamp) :
  ts_max l = Some m -> In x l -> ts_leb x m = true.
Proof.
  destruct l as [|t r]; simpl; [discriminate|].
  intros [= <-] Hin. destruct (fold_max_ge r t) as [H1 H2].
  destruct Hin as [<-|Hin]; auto.
Qed.

(** *** [sorted] and [unique] keep the values *)

Section SortedFacts.
Context {A : Type} (leb : A -> A -> bool).

Lemma insert_perm (x : A) (l : list A) :
  Permutation (Py.insert leb x l) (x :: l).
Proof.
  induction l as [|y l IH]; simpl; [reflexivity|].
  destruct (leb y x); [|reflexivity].
  rewrite IH. apply perm_swap.
Qed.

Lemma sorted_perm (l : list A) : Permutation (Py.sorted leb l) l.
Proof.
  induction l as [|x l IH]; simpl; [reflexivity|].
  rewrite insert_perm. now constructor.
Qed.

Lemma sorted_In (x : A) (l : list A) : In x (Py.sorted leb l) <-> In x l.
Proof.
  split; apply Permutation_in;
    [apply sorted_perm | symmetry; apply sorted_perm].
Qed.

Lemma sorted_NoDup (l : list A) : NoDup l -> NoDup (Py.sorted leb l).
Proof.
  apply Permutation_NoDup. symmetry. apply sorted_perm.
Qed.
End SortedFacts.

Section UniqueFacts.
Context {K : Type} (eqb : K -> K -> bool).
Hypothesis eqb_eq : forall a b, eqb a b = true <-> a = b.

Lemma unique_In (x : K) (l : list K) : In x (unique eqb l) <-> In x l.
Proof.
  induction l as [|y l IH]; simpl; [reflexivity|].
  rewrite filter_In, IH, negb_true_iff.
  split.
  - intros [H | [H _]]; auto.
  - intros [H | H]; auto.
    destruct (eqb x y) eqn:E; [left; symmetry; now apply eqb_eq | auto].
Qed.

Lemma unique_NoDup (l : list K) : NoDup (unique eqb l).
Proof.
  induction l as [|y l IH]; simpl; constructor.
  - rewrite filter_In, negb_true_iff. intros [_ H].
    rewrite (proj2 (eqb_eq y y) eq_refl) in H. discriminate.
  - now apply NoDup_filter.
Qed.

Lemma isin_In (x : K) (l : list K) : isin eqb x l = true <-> In x l.
Proof.
  unfold isin. rewrite existsb_exists. split.
  - intros [y [Hy E]]. apply eqb_eq in E. now subst.
  - intros H. exists x. split; [exact H | now apply eqb_eq].
Qed.
End UniqueFacts.

Lemma dropna_Some {A B : Type} (f : A -> B) (l : list A) :
  dropna (map (fun a => Some (f a)) l) = map f l.
Proof.
  induction l as [|a l IH]; simpl; [reflexivity | now rewrite IH].
Qed.

(** X21: in [dashboard.py], with the date range set to the earliest and
    latest date of the frame and the three selections set to all the values
    the widgets offer, the filter returns the frame as it is. *)
Theorem full_selection_keeps_all (df : list Fila) (d0 d1 : date) :
  (df <> [] -> fecha_min df = Some d0 /\ fecha_max df = Some d1) ->
  df_filtrado {| fechas_seleccionadas := (d0, d1);
                 categorias_seleccionadas := categorias_disponibles df;
                 segmentos_seleccionados := segmentos df;
                 metodo_pago_seleccionado := metodos_disponibles df |} df
  = df.
Proof.
  intros Hd. unfold df_filtrado. apply filter_all_true. intros f Hf.
  destruct Hd as [Hmin Hmax]; [intros ->; easy|].
  unfold fecha_min, fecha_max in *.
  destruct (ts_min (map fecha df)) as [tmin|] eqn:Emin; [|discriminate].
  destruct (ts_max (map fecha df)) as [tmax|] eqn:Emax; [|discriminate].
  simpl in Hmin, Hmax. injection Hmin as <-. injection Hmax as <-.
  unfold condicion_filtro.
  cbn [fechas_seleccionadas categorias_seleccionadas segmentos_seleccionados
       metodo_pago_seleccionado fst snd].
  rewrite (ts_leb_date _ _ (ts_min_le _ _ _ Emin (in_map fecha _ _ Hf))).
  rewrite (ts_leb_date _ _ (ts_max_ge _ _ _ Emax (in_map fecha _ _ Hf))).
  cbn [andb]. rewrite !andb_true_iff. repeat split.
  - apply (isin_In _ String.eqb_eq). unfold categorias_disponibles.
    apply sorted_In, (unique_In _ String.eqb_eq). now apply in_map.
  - apply (isin_In _ String.eqb_eq). unfold segmentos.
    apply sorted_In, (unique_In _ String.eqb_eq). now apply in_map.
  - apply (isin_In _ String.eqb_eq). unfold metodos_disponibles.
    rewrite dropna_Some.
    apply sorted_In, (unique_In _ String.eqb_eq). now apply in_map.
Qed.

Lemma full_selection_keeps_all_witness :
  df_filtrado {| fechas_seleccionadas := ((2024, 1, 5), (2024, 3, 9))%Z;
                 categorias_seleccionadas := categorias_disponibles Ejemplo.df;
                 segmentos_seleccionados := segmentos Ejemplo.df;
                 metodo_pago_seleccionado := metodos_disponibles Ejemplo.df |}
              Ejemplo.df
  = Ejemplo.df.
Proof.
  apply full_selection_keeps_all. intros _. split; reflexivity.
Defined.

(** ** Sums and groups *)

Lemma sum_cons (q : Q) (l : list Q) : sum (q :: l) = q + sum l.
Proof. reflexivity. Qed.

Lemma groupby_keys {R : Type} (key : R -> string) (df : list R) :
  let ks := map fst (groupby String.eqb String.leb key df) in
  NoDup ks /\ forall r, In r df -> In (key r) ks.
Proof.
  unfold groupby. rewrite map_map. cbn [fst]. rewrite map_id. split.
  - apply sorted_NoDup, (unique_NoDup _ String.eqb_eq).
  - intros r Hr. apply sorted_In, (unique_In _ String.eqb_eq).
    now apply in_map.
Qed.


(** ** The monthly series *)

Lemma fold_min_spec (m : Z) (ms : list Z) :
  let lo := fold_right Z.min m ms in
  In lo (m :: ms) /\ forall x, In x (m :: ms) -> (lo <= x)%Z.
Proof.
  induction ms as [|y ms IH]; cbn [fold_right].
  - split; [now left | intros x [<-|[]]; lia].
  - destruct IH as [Hin Hle]. split.
    + destruct (Z.min_spec y (fold_right Z.min m ms)) as [[_ ->]|[_ ->]].
      * right. now left.
      * destruct Hin as [E|Hin]; [now left | right; now right].
    + intros x [<-|[<-|Hx]].
      * specialize (Hle _ (or_introl eq_refl)). lia.
      * lia.
      * specialize (Hle x (or_intror Hx)). lia.
Qed.

Lemma fold_max_spec (m : Z) (ms : list Z) :
  let hi := fold_right Z.max m ms in
  In hi (m :: ms) /\ forall x, In x (m :: ms) -> (x <= hi)%Z.
Proof.
  induction ms as [|y ms IH]; cbn [fold_right].
  - split; [now left | intros x [<-|[]]; lia].
  - destruct IH as [Hin Hle]. split.
    + destruct (Z.max_spec y (fold_right Z.max m ms)) as [[_ ->]|[_ ->]].
      * destruct Hin as [E|Hin]; [now left | right; now right].
      * right. now left.
    + intros x [<-|[<-|Hx]].
      * specialize (Hle _ (or_introl eq_refl)). lia.
      * lia.
      * specialize (Hle x (or_intror Hx)). lia.
Qed.

Lemma rango_In (lo hi m : Z) : In m (rango lo hi) <-> (lo <= m <= hi)%Z.
Proof.
  unfold rango. rewrite in_map_iff. split.
  - intros [k [<- Hk]]. apply in_seq in Hk. lia.
  - intros H. exists (Z.to_nat (m - lo)). split; [lia|].
    apply in_seq. lia.
Qed.

Lemma rango_increasing (lo hi : Z) : StronglySorted Z.lt (rango lo hi).
Proof.
  unfold rango. generalize (Z.to_nat (hi - lo + 1)) as n. generalize 0%nat as a.
  intros a n. revert a. induction n as [|n IH]; intros a; cbn [seq map].
  - constructor.
  - constructor; [apply IH|].
    apply Forall_forall. intros x Hx. apply in_map_iff in Hx.
    destruct Hx as [k [<- Hk]]. apply in_seq in Hk. lia.
Qed.

Lemma grouper_ME_months (v : list Fila) (m : Z) :
  In m (map fst (grouper_ME v)) <->
  exists f g, In f v /\ In g v /\
              (mes_idx (fecha f) <= m <= mes_idx (fecha g))%Z.
Proof.
  unfold grouper_ME.
  destruct v as [|f0 v]; cbn [map].
  - split; [intros [] | intros [f [g [[] _]]]].
  - rewrite map_map. cbn [fst]. rewrite map_id, rango_In.
    set (idx := fun f => mes_idx (fecha f)).
    destruct (fold_min_spec (idx f0) (map idx v)) as [Hlo Hlo'].
    destruct (fold_max_spec (idx f0) (map idx v)) as [Hhi Hhi'].
    change (idx f0 :: map idx v) with (map idx (f0 :: v)) in *.
    split.
    + intros [H1 H2].
      apply in_map_iff in Hlo. destruct Hlo as [f [Ef Hf]].
      apply in_map_iff in Hhi. destruct Hhi as [g [Eg Hg]].
      exists f, g. unfold idx in *. repeat split; try assumption; lia.
    + intros [f [g [Hf [Hg [H1 H2]]]]].
      specialize (Hlo' _ (in_map idx _ _ Hf)).
      specialize (Hhi' _ (in_map idx _ _ Hg)). unfold idx in *. lia.
Qed.

Lemma grouper_ME_increasing (v : list Fila) :
  StronglySorted Z.lt (map fst (grouper_ME v)).
Proof.
  unfold grouper_ME. destruct v as [|f0 v]; cbn [map]; [constructor|].
  rewrite map_map. cbn [fst]. rewrite map_id. apply rango_increasing.
Qed.

Lemma grouper_ME_group (v : list Fila) (g : Z * list Fila) :
  In g (grouper_ME v) ->
  snd g = del_mes (fst g) v.
Proof.
  unfold grouper_ME. destruct v as [|f0 v]; cbn [map]; [intros []|].
  intros Hg. apply in_map_iff in Hg. destruct Hg as [i [<- _]]. reflexivity.
Qed.

(** C7, as the code has it: [datos_mensuales] has one row for every
    calendar month from the month of the earliest transaction of the view to
    the month of its latest one, in chronological order and without
    repetition; each row holds the sum of [total] and the number of
    transactions of its month, so a month of that span without transactions
    is a row with sum 0 and count 0. *)
Theorem datos_mensuales_spans_months (v : list Fila) :
  let dm := datos_mensuales v in
  StronglySorted Z.lt (map dm_mes dm) /\
  (forall m, In m (map dm_mes dm) <->
     exists f g, In f v /\ In g v /\
                 (mes_idx (fecha f) <= m <= mes_idx (fecha g))%Z) /\
  (forall d, In d dm ->
     dm_total d = sum (map total (del_mes (dm_mes d) v)) /\
     numero_transacciones d = Z.of_nat (List.length (del_mes (dm_mes d) v))) /\
  (forall d, In d dm -> del_mes (dm_mes d) v = [] ->
     dm_total d = 0 /\ numero_transacciones d = 0%Z).
Proof.
  intros dm. subst dm. unfold datos_mensuales.
  assert (Hrow : forall d,
    In d (map (fun g => {| dm_mes := fst g;
                           dm_total := sum (map total (snd g));
                           numero_transacciones :=
                             count (map transaccion_id (snd g)) |})
              (grouper_ME v)) ->
    dm_total d = sum (map total (del_mes (dm_mes d) v)) /\
    numero_transacciones d = Z.of_nat (List.length (del_mes (dm_mes d) v))).
  { intros d Hd. apply in_map_iff in Hd. destruct Hd as [g [<- Hg]].
    cbn [dm_mes dm_total numero_transacciones].
    rewrite (grouper_ME_group _ _ Hg). unfold count.
    now rewrite length_map. }
  rewrite map_map. cbn [dm_mes].
  split; [apply grouper_ME_increasing|].
  split; [apply grouper_ME_months|].
  split; [exact Hrow|].
  intros d Hd He. destruct (Hrow d Hd) as [-> ->]. rewrite He. split; reflexivity.
Qed.

(** The sample view has sales in January and in March 2024 only, and its
    monthly series has a row for February: not every row is a month with a
    transaction. *)
Lemma datos_mensuales_has_empty_month :
  ~ (forall d, In d (datos_mensuales Ejemplo.df) ->
       exists f, In f Ejemplo.df /\ mes_idx (fecha f) = dm_mes d).
Proof.
  intros H.
  destruct (H {| dm_mes := 24289; dm_total := 0; numero_transacciones := 0 |})
    as [f [Hf Hm]].
  - right. left. reflexivity.
  - destruct Hf as [<-|[<-|[]]]; discriminate Hm.
Qed.

(** ** Aggregates of an empty view *)

Lemma insert_not_nil {A : Type} (leb : A -> A -> bool) (x : A) (l : list A) :
  Py.insert leb x l <> [].
Proof. destruct l as [|y l]; simpl; [|destruct (leb y x)]; discriminate. Qed.

Lemma sorted_nil_iff {A : Type} (leb : A -> A -> bool) (l : list A) :
  Py.sorted leb l = [] <-> l = [].
Proof.
  destruct l as [|x l]; simpl; [tauto|].
  split; [intros H; now apply insert_not_nil in H | discriminate].
Qed.

Lemma value_counts_nil_iff (l : list string) :
  value_counts l = [] <-> l = [].
Proof.
  unfold value_counts. rewrite sorted_nil_iff.
  destruct l; simpl; [tauto | split; discriminate].
Qed.

Lemma mean_NaN_iff (l : list Q) : mean l = NaN <-> l = [].
Proof. destruct l; simpl; split; try discriminate; reflexivity. Qed.

Lemma tasa_retencion_NaN_iff (v : list Fila) :
  tasa_retencion v = NaN <-> v = [].
Proof.
  unfold tasa_retencion, compras_por_cliente.
  destruct (mean _) eqn:E; simpl.
  - apply mean_NaN_iff in E. apply map_eq_nil in E.
    apply value_counts_nil_iff in E. apply map_eq_nil in E. tauto.
  - split; [discriminate|]. intros ->. discriminate E.
Qed.

(** The selection with no category: it matches no row. *)
Lemma sin_categorias_vacia :
  df_filtrado Ejemplo.sin_categorias Ejemplo.df = [].
Proof. reflexivity. Qed.

(** On the empty view that this selection gives, the retention rate is not
    a number. *)
Lemma tasa_retencion_undefined_on_empty :
  ~ exists q, tasa_retencion (df_filtrado Ejemplo.sin_categorias Ejemplo.df)
              = Num q.
Proof. intros [q H]. discriminate H. Qed.

(** C4, as the code has it: on an empty view no aggregate fails, but the
    retention rate (in both scripts) and the mean of the monthly sales are
    NaN, not 0; the total sales and the number of customers are 0 and the
    grouped tables are empty.  The retention rate is NaN only there: on a
    view with at least one row it is a number. *)
Theorem empty_view_aggregates :
  tasa_retencion [] = NaN /\
  Tra.retencion [] = NaN /\
  ventas_mensuales [] = NaN /\
  ventas_totales [] = 0 /\
  clientes_unicos [] = 0%nat /\
  datos_mensuales [] = [] /\
  ventas_por_categoria [] = [] /\
  (forall cs, coordenadas_unicas (df_clientes_geo cs []) = []) /\
  (forall v, tasa_retencion v = NaN <-> v = []) /\
  (forall v, v <> [] -> exists q, tasa_retencion v = Num q).
Proof.
  repeat split; try reflexivity.
  - intros cs. unfold df_clientes_geo, df_clientes_filtrado. cbn [map unique].
    rewrite filter_all_false by reflexivity. reflexivity.
  - apply tasa_retencion_NaN_iff.
  - apply tasa_retencion_NaN_iff.
  - intros v Hv. destruct (tasa_retencion v) as [|q] eqn:E.
    + now apply tasa_retencion_NaN_iff in E.
    + now exists q.
Qed.

(** ** The principal segment of a location *)

Lemma string_compare_trans_le (a b c : string) :
  String.compare a b <> Gt -> String.compare b c <> Gt ->
  String.compare a c <> Gt.
Proof.
  revert b c. induction a as [|x a IH]; intros [|y b] [|z c]; simpl;
    try congruence.
  unfold Ascii.compare.
  destruct (N.compare_spec (N_of_ascii x) (N_of_ascii y)) as [E1|E1|E1];
  destruct (N.compare_spec (N_of_ascii y) (N_of_ascii z)) as [E2|E2|E2];
  destruct (N.compare_spec (N_of_ascii x) (N_of_ascii z)) as [E3|E3|E3];
    try congruence; try lia.
  apply IH.
Qed.

Lemma string_leb_trans (a b c : string) :
  String.leb a b = true -> String.leb b c = true -> String.leb a c = true.
Proof.
  unfold String.leb. intros H1 H2.
  pose proof (string_compare_trans_le a b c) as H.
  destruct (String.compare a b), (String.compare b c), (String.compare a c);
    try reflexivity; try discriminate; exfalso; apply H; congruence.
Qed.

Lemma string_leb_refl (a : string) : String.leb a a = true.
Proof. destruct (String.leb_total a a); assumption. Qed.

Section SortedHead.
Context {A : Type} (leb : A -> A -> bool).
Hypothesis leb_total : forall a b, leb a b = true \/ leb b a = true.
Hypothesis leb_trans :
  forall a b c, leb a b = true -> leb b c = true -> leb a c = true.

Lemma leb_refl_of_total (a : A) : leb a a = true.
Proof. destruct (leb_total a a); assumption. Qed.

Lemma insert_head_least (x : A) (l : list A) :
  Py.head_least leb l -> Py.head_least leb (Py.insert leb x l).
Proof.
  destruct l as [|y l]; simpl.
  - intros _ z [<-|[]]. apply leb_refl_of_total.
  - intros H. destruct (leb y x) eqn:E; simpl.
    + intros z [<-|Hz].
      * apply H. now left.
      * apply (Permutation_in _ (insert_perm leb x l)) in Hz.
        destruct Hz as [<-|Hz]; [exact E | apply H; now right].
    + assert (Hxy : leb x y = true).
      { destruct (leb_total x y) as [Hxy|Hyx]; [exact Hxy | congruence]. }
      intros z [<-|Hz].
      * apply leb_refl_of_total.
      * eapply leb_trans; [exact Hxy | now apply H].
Qed.

Lemma sorted_head_least (l : list A) :
  Py.head_least leb (Py.sorted leb l).
Proof.
  induction l as [|x l IH]; simpl; [exact I | now apply insert_head_least].
Qed.
End SortedHead.

Lemma fold_max_ge_all (f : string -> nat) (l : list string) (x : string) :
  In x l -> (f x <= fold_right Nat.max 0 (map f l))%nat.
Proof.
  induction l as [|y l IH]; simpl; [easy|].
  intros [<-|Hx]; [lia | specialize (IH Hx); lia].
Qed.

Lemma fold_max_attained (f : string -> nat) (l : list string) :
  l <> [] -> exists x, In x l /\ f x = fold_right Nat.max 0%nat (map f l).
Proof.
  induction l as [|y l IH]; [easy|]. intros _. simpl.
  destruct l as [|z l].
  - exists y. simpl. split; [now left | lia].
  - destruct IH as [x [Hx Ex]]; [discriminate|].
    destruct (Nat.max_spec (f y) (fold_right Nat.max 0%nat (map f (z :: l))))
      as [[_ E]|[_ E]]; rewrite E.
    + exists x. split; [now right | exact Ex].
    + exists y. split; [now left | reflexivity].
Qed.

Lemma veces_absent (s : string) (l : list string) :
  ~ In s l -> veces s l = 0%nat.
Proof.
  intros H. unfold veces. rewrite filter_all_false; [reflexivity|].
  intros x Hx. destruct (String.eqb_spec s x); [subst; contradiction | reflexivity].
Qed.

(** The aggregation [segmento_principal_de], for any group of cells. *)
Lemma segmento_principal_de_spec (x : list (option string)) :
  let segs := dropna x in
  (segs = [] -> segmento_principal_de x = "N/A") /\
  (segs <> [] ->
     In (segmento_principal_de x) segs /\
     (forall t, (veces t segs <= veces (segmento_principal_de x) segs)%nat) /\
     (forall t, veces t segs = veces (segmento_principal_de x) segs ->
                In t segs ->
                String.leb (segmento_principal_de x) t = true)).
Proof.
  intros segs. unfold segmento_principal_de, mode. fold segs.
  set (mx := fold_right Nat.max 0%nat (map (fun v => veces v segs) segs)).
  set (cands := filter (fun v => (veces v segs =? mx)%nat)
                       (unique String.eqb segs)).
  split.
  - intros E. subst cands mx. rewrite E. reflexivity.
  - intros Hne.
    destruct (fold_max_attained (fun v => veces v segs) segs Hne)
      as [w [Hw Ew]]. fold mx in Ew.
    assert (Hwc : In w cands).
    { apply filter_In. split.
      - now apply (unique_In _ String.eqb_eq).
      - now apply Nat.eqb_eq. }
    pose proof (sorted_head_least String.leb String.leb_total
                  string_leb_trans cands) as Hhead.
    destruct (Py.sorted String.leb cands) as [|m rest] eqn:Es.
    { apply sorted_nil_iff in Es. rewrite Es in Hwc. destruct Hwc. }
    assert (Hm : In m cands).
    { apply (sorted_In String.leb). rewrite Es. now left. }
    apply filter_In in Hm. destruct Hm as [Hm1 Hm2].
    apply (proj1 (unique_In _ String.eqb_eq _ _)) in Hm1.
    apply Nat.eqb_eq in Hm2.
    split; [exact Hm1|]. split.
    + intros t. rewrite Hm2.
      destruct (in_dec string_dec t segs) as [Ht|Ht].
      * apply (fold_max_ge_all (fun v => veces v segs) _ _ Ht).
      * rewrite (veces_absent _ _ Ht). lia.
    + intros t Et Ht. unfold Py.head_least in Hhead. apply Hhead.
      rewrite <- Es. apply sorted_In. apply filter_In. split.
      * now apply (unique_In _ String.eqb_eq).
      * apply Nat.eqb_eq. congruence.
Qed.

Lemma coordenadas_unicas_row (geo : list FilaGeo) (u : Ubicacion) :
  In u (coordenadas_unicas geo) ->
  segmento_principal u
  = segmento_principal_de
      (map (fun r => cl_segmento (fst r)) (grupo_de u geo)).
Proof.
  unfold coordenadas_unicas, groupby. rewrite map_map. intros Hu.
  apply in_map_iff in Hu. destruct Hu as [[[la lo] c] [<- _]].
  reflexivity.
Qed.

(** C10: in the rollup, the principal segment of a location is ["N/A"] when
    no customer of the group has a segment; otherwise it is a segment of the
    group that no other occurs more often than, and among the segments that
    occur as often it is the first in lexicographic order. *)
Theorem segmento_principal_most_frequent (geo : list FilaGeo) (u : Ubicacion) :
  In u (coordenadas_unicas geo) ->
  let segs := dropna (map (fun r => cl_segmento (fst r)) (grupo_de u geo)) in
  (segs = [] -> segmento_principal u = "N/A") /\
  (segs <> [] ->
     In (segmento_principal u) segs /\
     (forall t, (veces t segs <= veces (segmento_principal u) segs)%nat) /\
     (forall t, veces t segs = veces (segmento_principal u) segs ->
                In t segs ->
                String.leb (segmento_principal u) t = true)).
Proof.
  intros Hu. rewrite (coordenadas_unicas_row _ _ Hu).
  apply segmento_principal_de_spec.
Qed.

Lemma segmento_principal_most_frequent_witness :
  In Ejemplo.ubicacion (coordenadas_unicas Ejemplo.geo) /\
  String.leb (segmento_principal Ejemplo.ubicacion) "regular" = true.
Proof.
  assert (Hu : In Ejemplo.ubicacion (coordenadas_unicas Ejemplo.geo)).
  { left. reflexivity. }
  split; [exact Hu|].
  destruct (segmento_principal_most_frequent Ejemplo.geo Ejemplo.ubicacion Hu)
    as [_ H].
  destruct H as [_ [_ H]]; [discriminate|].
  apply H; [reflexivity | right; left; reflexivity].
Defined.

(** In the sample both segments of Tunja occur once, and the first in
    lexicographic order is taken. *)
Example segmento_principal_tie :
  map segmento_principal (coordenadas_unicas Ejemplo.geo) = ["premium"].
Proof. reflexivity. Qed.

(** ** Trimming and lower-casing ASCII text *)

Lemma lower_char_idem (c : ascii) :
  PyAscii.lower_char (PyAscii.lower_char c) = PyAscii.lower_char c.
Proof. destruct c as [[] [] [] [] [] [] [] []]; reflexivity. Qed.

Lemma isspace_lower_char (c : ascii) :
  PyAscii.isspace (PyAscii.lower_char c) = PyAscii.isspace c.
Proof. destruct c as [[] [] [] [] [] [] [] []]; reflexivity. Qed.












Lemma igual_salvo_caja_refl (s : string) : igual_salvo_caja s s.
Proof.
  induction s as [|c s IH]; constructor; [now left | exact IH].
Qed.

(** *** When the normalising assignments go through *)

Lemma normalizar_fila_Some (r : FilaCruda) (f : Fila) :
  normalizar_fila r = Some f ->
  cruda f = r /\
  col_categoria r <> None /\ col_segmento r <> None /\
  col_metodo_pago r <> None.
Proof.
  unfold normalizar_fila.
  destruct (col_categoria r), (col_segmento r), (col_metodo_pago r);
    try discriminate.
  intros [= <-]. repeat split; discriminate.
Qed.

Lemma normalizar_df_Some (raw : list FilaCruda) (df : list Fila) :
  normalizar_df raw = Some df ->
  map cruda df = raw /\
  forall r, In r raw ->
    col_categoria r <> None /\ col_segmento r <> None /\
    col_metodo_pago r <> None.
Proof.
  revert df. induction raw as [|r raw IH]; simpl; intros df.
  - intros [= <-]. split; [reflexivity | intros ? []].
  - destruct (normalizar_fila r) as [f|] eqn:Ef; [|discriminate].
    destruct (normalizar_df raw) as [fs|]; [|discriminate].
    intros [= <-]. destruct (IH fs eq_refl) as [IH1 IH2].
    destruct (normalizar_fila_Some _ _ Ef) as [Hc Hp].
    split; [simpl; now rewrite Hc, IH1|].
    intros r' [<-|Hr']; [exact Hp | now apply IH2].
Qed.

Lemma normalizar_df_None (raw : list FilaCruda) (r : FilaCruda) :
  In r raw ->
  col_categoria r = None \/ col_segmento r = None \/ col_metodo_pago r = None ->
  normalizar_df raw = None.
Proof.
  intros Hr Hn. destruct (normalizar_df raw) as [df|] eqn:E; [|reflexivity].
  destruct (normalizar_df_Some _ _ E) as [_ H].
  destruct (H r Hr) as [H1 [H2 H3]]. tauto.
Qed.

(** With the sale whose keys have no match, the joined frame has a missing
    category and the assignments stop there. *)
Example normalizar_df_unmatched :
  normalizar_df
    (fst (load_data Ejemplo.transacciones Ejemplo.productos Ejemplo.clientes))
  = None.
Proof. reflexivity. Qed.

(** ** tra.py *)

(** C3: the filter of [tra.py] drops a row under the selection the sidebar
    starts with.  The frame is one sale at noon of 5 January 2024: the date
    widget starts at that day for both ends and the category list at the
    one category present, the sale is compared with the midnight that
    opens the day, and the filtered frame is empty. *)
Example tra_full_range_drops_last_day :
  Tra.fecha_range_inicial [Ejemplo.fila_tra]
  = Some ((2024, 1, 5), (2024, 1, 5))%Z /\
  Tra.categorias [Ejemplo.fila_tra] = [Some "Hogar"] /\
  segundos (Tra.fecha Ejemplo.fila_tra) = 43200%Z /\
  Tra.df_filtrado ((2024, 1, 5), (2024, 1, 5))%Z
    (Tra.categorias [Ejemplo.fila_tra]) [Ejemplo.fila_tra]
  = [].
Proof. repeat split; reflexivity. Qed.

(* ================================================================== *)
(** * Further properties of the scripts *)

(** ** Sorting *)

Section SortFacts.
Context {A : Type} (leb : A -> A -> bool).
Hypothesis leb_total : forall a b, leb a b = true \/ leb b a = true.
Hypothesis leb_trans :
  forall a b c, leb a b = true -> leb b c = true -> leb a c = true.

Let le (a b : A) : Prop := leb a b = true.

Lemma insert_sorted (x : A) (l : list A) :
  StronglySorted le l -> StronglySorted le (Py.insert leb x l).
Proof.
  induction 1 as [|y l Hs IH Hy]; simpl.
  - repeat constructor.
  - destruct (leb y x) eqn:E.
    + constructor; [exact IH|].
      apply Forall_forall. intros z Hz.
      apply (Permutation_in _ (insert_perm leb x l)) in Hz.
      destruct Hz as [<-|Hz]; [exact E|].
      rewrite Forall_forall in Hy. now apply Hy.
    + assert (Hxy : le x y).
      { destruct (leb_total x y) as [H|H]; [exact H | congruence]. }
      constructor; [now constructor|].
      constructor; [exact Hxy|].
      apply Forall_forall. intros z Hz. rewrite Forall_forall in Hy.
      eapply leb_trans; [exact Hxy | now apply Hy].
Qed.

Lemma sorted_sorted (l : list A) : StronglySorted le (Py.sorted leb l).
Proof.
  induction l as [|x l IH]; simpl; [constructor | now apply insert_sorted].
Qed.

Lemma insert_first_perm (x : A) (l : list A) :
  Permutation (insert_first leb x l) (x :: l).
Proof.
  induction l as [|y l IH]; simpl; [reflexivity|].
  destruct (leb x y); [reflexivity|].
  rewrite IH. apply perm_swap.
Qed.

Lemma sort_stable_perm (l : list A) : Permutation (sort_stable leb l) l.
Proof.
  induction l as [|x l IH]; simpl; [reflexivity|].
  rewrite insert_first_perm. now constructor.
Qed.

Lemma insert_first_sorted (x : A) (l : list A) :
  StronglySorted le l -> StronglySorted le (insert_first leb x l).
Proof.
  induction 1 as [|y l Hs IH Hy]; simpl.
  - repeat constructor.
  - destruct (leb x y) eqn:E.
    + constructor; [now constructor|].
      constructor; [exact E|].
      apply Forall_forall. intros z Hz. rewrite Forall_forall in Hy.
      eapply leb_trans; [exact E | now apply Hy].
    + assert (Hyx : le y x).
      { destruct (leb_total y x) as [H|H]; [exact H | congruence]. }
      constructor; [exact IH|].
      apply Forall_forall. intros z Hz.
      apply (Permutation_in _ (insert_first_perm x l)) in Hz.
      destruct Hz as [<-|Hz]; [exact Hyx|].
      rewrite Forall_forall in Hy. now apply Hy.
Qed.

Lemma sort_stable_sorted (l : list A) : StronglySorted le (sort_stable leb l).
Proof.
  induction l as [|x l IH]; simpl; [constructor | now apply insert_first_sorted].
Qed.
End SortFacts.

Lemma in_firstn {A : Type} (x : A) (n : nat) (l : list A) :
  In x (firstn n l) -> In x l.
Proof.
  intros H. rewrite <- (firstn_skipn n l). apply in_or_app. now left.
Qed.

Lemma in_skipn {A : Type} (x : A) (n : nat) (l : list A) :
  In x (skipn n l) -> In x l.
Proof.
  intros H. rewrite <- (firstn_skipn n l). apply in_or_app. now right.
Qed.

Lemma firstn_sorted {A : Type} (R : A -> A -> Prop) (n : nat) (l : list A) :
  StronglySorted R l -> StronglySorted R (firstn n l).
Proof.
  intros H. revert n. induction H as [|x l Hs IH Hx]; intros [|n]; simpl;
    try constructor.
  - apply IH.
  - rewrite Forall_forall in *. intros y Hy. apply Hx.
    now apply (in_firstn _ n).
Qed.

Lemma sorted_split {A : Type} (R : A -> A -> Prop) (n : nat) (l : list A) :
  StronglySorted R l ->
  forall x y, In x (firstn n l) -> In y (skipn n l) -> R x y.
Proof.
  intros H. revert n. induction H as [|a l Hs IH Ha]; intros n x y.
  - rewrite firstn_nil. intros [].
  - destruct n as [|n]; simpl; [intros []|].
    intros [<-|Hx] Hy.
    + rewrite Forall_forall in Ha. apply Ha. now apply (in_skipn _ n).
    + now apply (IH n).
Qed.

Lemma sorted_weaken {A : Type} (R R' : A -> A -> Prop) (l : list A) :
  (forall a b, R a b -> R' a b) ->
  StronglySorted R l -> StronglySorted R' l.
Proof.
  intros HR. induction 1 as [|x l Hs IH Hx]; constructor; [exact IH|].
  rewrite Forall_forall in *. intros y Hy. apply HR. now apply Hx.
Qed.

(** ** Sums over groups, for any key *)

Lemma filter_length_perm {A : Type} (p : A -> bool) (l l' : list A) :
  Permutation l l' ->
  List.length (filter p l) = List.length (filter p l').
Proof.
  induction 1 as [|x l l' _ IH|x y l|l l' l'' _ IH1 _ IH2]; simpl.
  - reflexivity.
  - destruct (p x); simpl; now rewrite IH.
  - destruct (p x), (p y); reflexivity.
  - now rewrite IH1.
Qed.

Lemma list_sum_cons (a : nat) (l : list nat) :
  list_sum (a :: l) = (a + list_sum l)%nat.
Proof. reflexivity. Qed.

Section GroupSumsAny.
Context {K R : Type} (eqb : K -> K -> bool) (key : R -> K).

(** [ks] has exactly one key for [x]. *)
Let una (ks : list K) (x : K) : Prop :=
  List.length (filter (eqb x) ks) = 1%nat.

Lemma length_by_groups_cons (ks : list K) (r : R) (df : list R) :
  list_sum (map (fun k => List.length (filter (fun r => eqb (key r) k) (r :: df)))
                ks)
  = (List.length (filter (eqb (key r)) ks)
     + list_sum (map (fun k => List.length (filter (fun r => eqb (key r) k) df))
                     ks))%nat.
Proof.
  induction ks as [|k ks IH]; cbn [map]; [reflexivity|].
  rewrite !list_sum_cons, IH. cbn [filter].
  destruct (eqb (key r) k); cbn [List.length]; lia.
Qed.

Lemma length_by_groups_any (ks : list K) (df : list R) :
  (forall r, In r df -> una ks (key r)) ->
  list_sum (map (fun k => List.length (filter (fun r => eqb (key r) k) df)) ks)
  = List.length df.
Proof.
  induction df as [|r df IH]; intros Hcov.
  - cbn [filter List.length]. clear. induction ks; simpl; auto.
  - rewrite length_by_groups_cons, IH
      by (intros r' Hr'; apply Hcov; now right).
    specialize (Hcov r (or_introl eq_refl)). unfold una in Hcov.
    rewrite Hcov. reflexivity.
Qed.
End GroupSumsAny.

Lemma una_NoDup {K : Type} (eqb : K -> K -> bool)
    (eqb_eq : forall a b, eqb a b = true <-> a = b) (ks : list K) (x : K) :
  NoDup ks -> In x ks -> List.length (filter (eqb x) ks) = 1%nat.
Proof.
  induction ks as [|k ks IH]; intros Hnd Hin; [easy|].
  inversion Hnd as [|? ? Hnotin Hnd']; subst. cbn [filter].
  destruct (eqb x k) eqn:E.
  - apply eqb_eq in E. subst k. cbn [List.length]. f_equal.
    rewrite filter_all_false; [reflexivity|].
    intros y Hy. destruct (eqb x y) eqn:E'; [|reflexivity].
    apply eqb_eq in E'. subst y. contradiction.
  - destruct Hin as [->|Hin]; [|now apply IH].
    rewrite (proj2 (eqb_eq x x) eq_refl) in E. discriminate.
Qed.

Lemma Zsum_of_nat {A : Type} (f : A -> nat) (l : list A) :
  fold_right Z.add 0%Z (map (fun a => Z.of_nat (f a)) l)
  = Z.of_nat (list_sum (map f l)).
Proof.
  induction l as [|a l IH]; simpl; [reflexivity|]. rewrite IH. lia.
Qed.

(** ** The filter, once more *)

Lemma filter_idem {A : Type} (p : A -> bool) (l : list A) :
  filter p (filter p l) = filter p l.
Proof.
  apply filter_all_true. intros x Hx. now apply filter_In in Hx.
Qed.

Lemma filter_comm {A : Type} (p q : A -> bool) (l : list A) :
  filter p (filter q l) = filter q (filter p l).
Proof.
  induction l as [|a l IH]; simpl; [reflexivity|].
  destruct (p a) eqn:Ep, (q a) eqn:Eq; simpl; rewrite ?Ep, ?Eq, IH; reflexivity.
Qed.

(** X1: filtering a filtered view again with the same selection changes
    nothing, two selections can be applied in either order, and the view
    holds exactly the rows of the frame whose date lies in the selected
    range (both ends included) and whose category, segment and payment
    method are among the selected ones. *)
Theorem df_filtrado_idempotent (sel : Filtros) (df : list Fila) :
  df_filtrado sel (df_filtrado sel df) = df_filtrado sel df /\
  (forall sel', df_filtrado sel (df_filtrado sel' df)
                = df_filtrado sel' (df_filtrado sel df)) /\
  (forall f, In f (df_filtrado sel df) <->
     In f df /\
     date_leb (fst (fechas_seleccionadas sel)) (ts_date (fecha f)) = true /\
     date_leb (ts_date (fecha f)) (snd (fechas_seleccionadas sel)) = true /\
     In (categoria f) (categorias_seleccionadas sel) /\
     In (segmento f) (segmentos_seleccionados sel) /\
     In (metodo_pago f) (metodo_pago_seleccionado sel)).
Proof.
  unfold df_filtrado. split; [apply filter_idem|].
  split; [intros sel'; apply filter_comm|].
  intros f. rewrite filter_In. unfold condicion_filtro.
  rewrite !andb_true_iff, !(isin_In _ String.eqb_eq). tauto.
Qed.

(** ** What the sidebar offers *)

Lemma opciones_spec (col : list string) :
  let opts := Py.sorted String.leb (unique String.eqb col) in
  StronglySorted (fun a b => String.leb a b = true) opts /\
  NoDup opts /\
  forall x, In x opts <-> In x col.
Proof.
  intros opts. subst opts. split; [|split].
  - apply sorted_sorted; [apply String.leb_total | apply string_leb_trans].
  - apply sorted_NoDup, (unique_NoDup _ String.eqb_eq).
  - intros x. rewrite sorted_In. apply (unique_In _ String.eqb_eq).
Qed.

Lemma opciones_col (df : list Fila) (col : Fila -> string) :
  let opts := Py.sorted String.leb (unique String.eqb (map col df)) in
  StronglySorted (fun a b => String.leb a b = true) opts /\
  NoDup opts /\
  forall x, In x opts <-> exists f, In f df /\ col f = x.
Proof.
  destruct (opciones_spec (map col df)) as [Hs [Hn Hi]].
  split; [exact Hs|]. split; [exact Hn|].
  intros x. rewrite Hi, in_map_iff. split; intros [f [H1 H2]]; exists f; tauto.
Qed.

(** X2: each of the three option lists of the sidebar (categories,
    segments, payment methods) is in increasing order, has no repeated
    value and holds exactly the values that occur in its column. *)
Theorem sidebar_options_sorted_complete (df : list Fila) :
  let ok (opts : list string) (col : Fila -> string) :=
    StronglySorted (fun a b => String.leb a b = true) opts /\
    NoDup opts /\
    forall x, In x opts <-> exists f, In f df /\ col f = x in
  ok (categorias_disponibles df) categoria /\
  ok (segmentos df) segmento /\
  ok (metodos_disponibles df) metodo_pago.
Proof.
  unfold categorias_disponibles, segmentos, metodos_disponibles.
  rewrite dropna_Some.
  split; [|split]; apply opciones_col.
Qed.

(** ** Totals by payment method, by segment and by customer *)


Lemma Qle_bool_total (a b : Q) : Qle_bool a b = true \/ Qle_bool b a = true.
Proof.
  rewrite !Qle_bool_iff. destruct (Qlt_le_dec a b) as [H|H]; [left|right].
  - now apply Qlt_le_weak.
  - exact H.
Qed.

Lemma Qle_bool_trans (a b c : Q) :
  Qle_bool a b = true -> Qle_bool b c = true -> Qle_bool a c = true.
Proof. rewrite !Qle_bool_iff. apply Qle_trans. Qed.

(** X4: the bar chart of segments gets the per-segment totals reordered,
    none lost or added, with the largest total first. *)
Theorem ventas_por_segmento_ordenado_desc (v : list Fila) :
  Permutation (ventas_por_segmento_ordenado v) (ventas_por_segmento v) /\
  StronglySorted (fun a b => snd b <= snd a) (ventas_por_segmento_ordenado v).
Proof.
  unfold ventas_por_segmento_ordenado. split; [apply sort_stable_perm|].
  pose proof (sort_stable_sorted (fun a b : string * Q => Qle_bool (snd b) (snd a)))
    as H.
  eapply sorted_weaken; [|apply H].
  - intros a b Hab. now apply Qle_bool_iff.
  - intros a b. apply Qle_bool_total.
  - intros a b c H1 H2. eapply Qle_bool_trans; eassumption.
Qed.

(** ** Customers of a view *)

Lemma list_sum_perm (l l' : list nat) :
  Permutation l l' -> list_sum l = list_sum l'.
Proof.
  induction 1 as [|x l l' _ IH|x y l|l l' l'' _ IH1 _ IH2];
    rewrite ?list_sum_cons; lia.
Qed.

Lemma groupby_string_keys {R : Type} (key : R -> string) (df : list R)
    (g : string * list R) :
  In g (groupby String.eqb String.leb key df) ->
  snd g = filter (fun r => String.eqb (key r) (fst g)) df /\
  exists r, In r df /\ key r = fst g.
Proof.
  unfold groupby. intros Hg. apply in_map_iff in Hg.
  destruct Hg as [k [<- Hk]]. split; [reflexivity|].
  apply sorted_In, (unique_In _ String.eqb_eq), in_map_iff in Hk.
  destruct Hk as [r [E Hr]]. now exists r.
Qed.

Lemma groupby_length {R : Type} (key : R -> string) (df : list R) :
  List.length (groupby String.eqb String.leb key df)
  = nunique String.eqb (map key df).
Proof.
  unfold groupby, nunique. rewrite length_map.
  apply Permutation_length, sorted_perm.
Qed.

Lemma groupby_counts {R : Type} (key : R -> string) (df : list R) :
  list_sum (map (fun g => List.length (snd g))
                (groupby String.eqb String.leb key df))
  = List.length df.
Proof.
  destruct (groupby_keys key df) as [Hnd Hcov].
  unfold groupby in *. rewrite !map_map in *. cbn [fst snd] in *.
  rewrite map_id in *.
  apply (length_by_groups_any String.eqb key).
  intros r Hr. apply (una_NoDup _ String.eqb_eq); auto.
Qed.

(** X5: [ventas_por_ubicacion] has one row per customer of the view, each
    with at least one transaction, and the transaction counts of its rows
    add up to the number of rows of the view. *)
Theorem ventas_por_ubicacion_conserves (v : list Fila) :
  let t := ventas_por_ubicacion v in
  NoDup (map vc_cliente_id t) /\
  (forall x, In x (map vc_cliente_id t) <-> In x (map cliente_id v)) /\
  List.length t = clientes_unicos v /\
  (forall r, In r t -> (1 <= vc_num_transacciones r)%Z) /\
  fold_right Z.add 0%Z (map vc_num_transacciones t)
  = Z.of_nat (List.length v).
Proof.
  intros t. subst t. unfold ventas_por_ubicacion.
  rewrite !map_map. cbn [vc_cliente_id vc_num_transacciones].
  destruct (groupby_keys cliente_id v) as [Hnd Hcov].
  split; [exact Hnd|].
  split.
  { intros x. split; intros Hx.
    - apply in_map_iff in Hx. destruct Hx as [g [<- Hg]].
      destruct (groupby_string_keys _ _ _ Hg) as [_ [r [Hr <-]]].
      now apply in_map.
    - apply in_map_iff in Hx. destruct Hx as [f [<- Hf]]. now apply Hcov. }
  split.
  { rewrite length_map. apply groupby_length. }
  split.
  { intros r Hr. apply in_map_iff in Hr. destruct Hr as [g [<- Hg]].
    cbn [vc_num_transacciones]. unfold count. rewrite length_map.
    destruct (groupby_string_keys _ _ _ Hg) as [E [f [Hf Ef]]].
    assert (Hin : In f (snd g)).
    { rewrite E. apply filter_In. split; [exact Hf | now apply String.eqb_eq]. }
    destruct (snd g); [destruct Hin | simpl; lia]. }
  unfold count.
  rewrite <- (groupby_counts cliente_id v).
  rewrite <- (Zsum_of_nat (fun g : string * list Fila => List.length (snd g))).
  f_equal. apply map_ext. intros g. now rewrite length_map.
Qed.

Lemma compras_por_cliente_perm (v : list Fila) :
  Permutation (compras_por_cliente v)
    (map (fun k => (k, veces k (map cliente_id v)))
         (unique String.eqb (map cliente_id v))).
Proof. apply sorted_perm. Qed.

Lemma veces_sum (l : list string) :
  list_sum (map (fun k => veces k l) (unique String.eqb l)) = List.length l.
Proof.
  unfold veces.
  apply (length_by_groups_any (fun x k => String.eqb k x) (fun k => k)
           (unique String.eqb l) l).
  intros r Hr.
  apply (una_NoDup (fun x k => String.eqb k x)).
  - intros a b. rewrite String.eqb_eq. split; congruence.
  - apply (unique_NoDup _ String.eqb_eq).
  - now apply (unique_In _ String.eqb_eq).
Qed.

Lemma compras_por_cliente_entry (v : list Fila) (p : string * nat) :
  In p (compras_por_cliente v) ->
  In (fst p) (map cliente_id v) /\
  snd p = veces (fst p) (map cliente_id v).
Proof.
  intros Hin. apply (Permutation_in _ (compras_por_cliente_perm v)) in Hin.
  apply in_map_iff in Hin. destruct Hin as [k [<- Hk]]. cbn [fst snd].
  split; [|reflexivity].
  exact (proj1 (unique_In _ String.eqb_eq k _) Hk).
Qed.

(** X6: [compras_por_cliente] lists every customer of the view once, with
    the number of its transactions (at least one), the customers with more
    transactions first; the numbers add up to the number of rows of the
    view. *)
Theorem compras_por_cliente_counts (v : list Fila) :
  let c := compras_por_cliente v in
  NoDup (map fst c) /\
  (forall x, In x (map fst c) <-> In x (map cliente_id v)) /\
  (forall p, In p c ->
     snd p = veces (fst p) (map cliente_id v) /\ (1 <= snd p)%nat) /\
  StronglySorted (fun a b => (snd b <= snd a)%nat) c /\
  list_sum (map snd c) = List.length v /\
  List.length c = clientes_unicos v.
Proof.
  intros c. subst c.
  pose proof (compras_por_cliente_perm v) as Hp.
  set (ids := map cliente_id v) in *.
  assert (Hfst : Permutation (map fst (compras_por_cliente v))
                             (unique String.eqb ids)).
  { rewrite Hp, map_map. cbn [fst]. now rewrite map_id. }
  split.
  { eapply Permutation_NoDup; [symmetry; exact Hfst|].
    apply (unique_NoDup _ String.eqb_eq). }
  split.
  { intros x. rewrite <- (unique_In _ String.eqb_eq x ids).
    split; apply Permutation_in; [exact Hfst | symmetry; exact Hfst]. }
  split.
  { intros p Hin. apply (Permutation_in _ Hp) in Hin.
    apply in_map_iff in Hin. destruct Hin as [k [<- Hk]]. cbn [fst snd].
    split; [reflexivity|].
    apply (proj1 (unique_In _ String.eqb_eq _ _)) in Hk. unfold veces.
    assert (Hin : In k (filter (String.eqb k) ids)).
    { apply filter_In. split; [exact Hk | apply String.eqb_refl]. }
    destruct (filter (String.eqb k) ids); [destruct Hin | simpl; lia]. }
  split.
  { unfold compras_por_cliente, value_counts.
    pose proof (sorted_sorted (fun a b : string * nat => (snd b <=? snd a)%nat))
      as H.
    eapply sorted_weaken; [|apply H].
    - intros a b Hab. now apply Nat.leb_le.
    - intros a b. rewrite !Nat.leb_le. lia.
    - intros a b d. rewrite !Nat.leb_le. lia. }
  split.
  { rewrite (list_sum_perm _ _ (Permutation_map snd Hp)), map_map.
    cbn [snd]. rewrite veces_sum. unfold ids. apply length_map. }
  rewrite (Permutation_length Hp), length_map. reflexivity.
Qed.

(** ** The retention rate *)

Lemma inject_Z_succ (n : nat) :
  inject_Z (Z.of_nat (S n)) == 1 + inject_Z (Z.of_nat n).
Proof.
  rewrite Nat2Z.inj_succ. unfold Z.succ. rewrite inject_Z_plus. ring.
Qed.

Lemma sum_of_bool_bounds {A : Type} (f : A -> bool) (l : list A) :
  0 <= sum (map (fun a => of_bool (f a)) l)
  /\ sum (map (fun a => of_bool (f a)) l)
     <= inject_Z (Z.of_nat (List.length l)).
Proof.
  induction l as [|a l [IH1 IH2]]; cbn [map List.length].
  - change (sum []) with 0. change (inject_Z (Z.of_nat 0)) with 0.
    split; apply Qle_refl.
  - rewrite sum_cons, inject_Z_succ.
    destruct (f a);
      [change (of_bool true) with 1 | change (of_bool false) with 0];
      split; lra.
Qed.

Lemma sum_of_bool_zero {A : Type} (f : A -> bool) (l : list A) :
  (forall a, In a l -> f a = false) ->
  sum (map (fun a => of_bool (f a)) l) == 0.
Proof.
  induction l as [|a l IH]; intros H; cbn [map].
  - reflexivity.
  - rewrite sum_cons, (H a (or_introl eq_refl)), IH.
    + change (of_bool false) with 0. ring.
    + intros b Hb. apply H. now right.
Qed.

Lemma inject_Z_length_pos {A : Type} (l : list A) :
  l <> [] -> 0 < inject_Z (Z.of_nat (List.length l)).
Proof.
  destruct l as [|a l]; [easy|]. intros _. cbn [List.length].
  rewrite inject_Z_succ.
  assert (0 <= inject_Z (Z.of_nat (List.length l))).
  { change 0 with (inject_Z 0). rewrite <- Zle_Qle. lia. }
  lra.
Qed.

Lemma mean_nonempty (l : list Q) :
  l <> [] -> mean l = Num (sum l / inject_Z (Z.of_nat (List.length l))).
Proof. destruct l; [easy | reflexivity]. Qed.

Lemma tasa_retencion_value (v : list Fila) :
  v <> [] ->
  tasa_retencion v
  = Num (sum (map (fun p => of_bool (1 <? snd p)%nat) (compras_por_cliente v))
         / inject_Z (Z.of_nat (List.length (compras_por_cliente v)))
         * 100).
Proof.
  intros Hv. unfold tasa_retencion.
  rewrite mean_nonempty, length_map; [reflexivity|].
  intros E. apply map_eq_nil in E. unfold compras_por_cliente in E.
  apply value_counts_nil_iff, map_eq_nil in E. contradiction.
Qed.

(** X7: on a view with at least one row the retention rate is a number
    between 0 and 100. *)
Theorem tasa_retencion_range (v : list Fila) :
  v <> [] ->
  exists q, tasa_retencion v = Num q /\ 0 <= q /\ q <= 100.
Proof.
  intros Hv. rewrite (tasa_retencion_value v Hv).
  eexists. split; [reflexivity|].
  set (c := compras_por_cliente v).
  destruct (sum_of_bool_bounds (fun p : string * nat => (1 <? snd p)%nat) c)
    as [H0 H1].
  assert (Hn : 0 < inject_Z (Z.of_nat (List.length c))).
  { apply inject_Z_length_pos. unfold c, compras_por_cliente.
    intros E. apply value_counts_nil_iff, map_eq_nil in E. contradiction. }
  set (s := sum _) in *. set (n := inject_Z _) in *.
  assert (Hlo : 0 <= s / n).
  { apply Qle_shift_div_l; [exact Hn | lra]. }
  assert (Hhi : s / n <= 1).
  { apply Qle_shift_div_r; [exact Hn | lra]. }
  split; lra.
Qed.

Lemma tasa_retencion_range_witness :
  exists q, tasa_retencion Ejemplo.df = Num q /\ 0 <= q /\ q <= 100.
Proof.
  apply tasa_retencion_range. discriminate.
Defined.

(** X8: when no customer has more than one transaction in the view (and the
    view has a row), the retention rate is 0. *)
Theorem tasa_retencion_single_purchases (v : list Fila) :
  v <> [] ->
  NoDup (map cliente_id v) ->
  exists q, tasa_retencion v = Num q /\ q == 0.
Proof.
  intros Hv Hnd. rewrite (tasa_retencion_value v Hv).
  eexists. split; [reflexivity|].
  rewrite sum_of_bool_zero; [unfold Qdiv; ring|].
  intros p Hp.
  destruct (compras_por_cliente_entry v p Hp) as [Hin E].
  rewrite E. unfold veces.
  now rewrite (una_NoDup _ String.eqb_eq _ _ Hnd Hin).
Qed.

Lemma tasa_retencion_single_purchases_witness :
  exists q, tasa_retencion Ejemplo.df = Num q /\ q == 0.
Proof.
  apply tasa_retencion_single_purchases; [discriminate|].
  repeat constructor; simpl; intuition discriminate.
Defined.

(** ** Monthly totals *)

Lemma sorted_lt_NoDup (l : list Z) : StronglySorted Z.lt l -> NoDup l.
Proof.
  induction 1 as [|x l Hs IH Hx]; constructor; [|exact IH].
  intros Hin. rewrite Forall_forall in Hx. specialize (Hx x Hin). lia.
Qed.

Lemma grouper_ME_shape (v : list Fila) :
  grouper_ME v = map (fun i => (i, del_mes i v)) (map fst (grouper_ME v)).
Proof.
  unfold grouper_ME. destruct (map (fun f => mes_idx (fecha f)) v); [reflexivity|].
  rewrite !map_map. reflexivity.
Qed.

Lemma grouper_ME_una (v : list Fila) (f : Fila) :
  In f v ->
  List.length (filter (Z.eqb (mes_idx (fecha f))) (map fst (grouper_ME v)))
  = 1%nat.
Proof.
  intros Hf. apply (una_NoDup _ Z.eqb_eq).
  - apply sorted_lt_NoDup, grouper_ME_increasing.
  - apply grouper_ME_months. exists f, f. repeat split; try assumption; lia.
Qed.

(** X9: the monthly series loses no transaction: the transaction counts of
    its rows add up to the number of rows of the view. *)
Theorem datos_mensuales_counts (v : list Fila) :
  fold_right Z.add 0%Z (map numero_transacciones (datos_mensuales v))
  = Z.of_nat (List.length v).
Proof.
  unfold datos_mensuales. rewrite !map_map.
  cbn [numero_transacciones]. unfold count.
  rewrite (map_ext _ (fun g : Z * list Fila => Z.of_nat (List.length (snd g))))
    by (intros g; now rewrite length_map).
  rewrite Zsum_of_nat. f_equal.
  rewrite grouper_ME_shape, map_map. cbn [snd]. unfold del_mes.
  apply (length_by_groups_any Z.eqb (fun f => mes_idx (fecha f))).
  intros f Hf. now apply grouper_ME_una.
Qed.

Lemma grouper_ME_length (v : list Fila) (f g : Fila) :
  In f v -> In g v ->
  (forall h, In h v ->
     (mes_idx (fecha f) <= mes_idx (fecha h) <= mes_idx (fecha g))%Z) ->
  Z.of_nat (List.length (grouper_ME v))
  = (mes_idx (fecha g) - mes_idx (fecha f) + 1)%Z.
Proof.
  intros Hf Hg Hb. unfold grouper_ME.
  destruct v as [|f0 v]; [destruct Hf|]. cbn [map].
  set (idx := fun f => mes_idx (fecha f)).
  destruct (fold_min_spec (idx f0) (map idx v)) as [Hlo Hlo'].
  destruct (fold_max_spec (idx f0) (map idx v)) as [Hhi Hhi'].
  change (idx f0 :: map idx v) with (map idx (f0 :: v)) in *.
  apply in_map_iff in Hlo. destruct Hlo as [a [Ea Ha]].
  apply in_map_iff in Hhi. destruct Hhi as [b [Eb Hb']].
  pose proof (Hlo' _ (in_map idx _ _ Hf)) as H1.
  pose proof (Hhi' _ (in_map idx _ _ Hg)) as H2.
  pose proof (Hb a Ha) as H3. pose proof (Hb b Hb') as H4.
  unfold idx in *.
  unfold rango. rewrite !length_map, length_seq. lia.
Qed.

(** X10: on a view with at least one row, the average monthly sales is a
    number: the mean of the series of monthly sums, which has one entry for
    every month from the month of the first sale to the month of the last
    one, the months without sales included. *)
Theorem ventas_mensuales_average (v : list Fila) :
  v <> [] ->
  let meses := map dm_total (datos_mensuales v) in
  ventas_mensuales v
  = Num (sum meses / inject_Z (Z.of_nat (List.length meses))) /\
  forall f g, In f v -> In g v ->
    (forall h, In h v ->
       (mes_idx (fecha f) <= mes_idx (fecha h) <= mes_idx (fecha g))%Z) ->
    Z.of_nat (List.length meses)
    = (mes_idx (fecha g) - mes_idx (fecha f) + 1)%Z.
Proof.
  intros Hv meses. subst meses. unfold ventas_mensuales, datos_mensuales.
  rewrite !map_map. cbn [dm_total]. split.
  - assert (Hne : grouper_ME v <> []).
    { destruct v as [|f v]; [easy|].
      intros E.
      pose proof (grouper_ME_length (f :: v)) as H.
      assert (Hex : exists a b, In a (f :: v) /\ In b (f :: v) /\
                forall h, In h (f :: v) ->
                  (mes_idx (fecha a) <= mes_idx (fecha h)
                   <= mes_idx (fecha b))%Z).
      { set (idx := fun f => mes_idx (fecha f)).
        destruct (fold_min_spec (idx f) (map idx v)) as [Hlo Hlo'].
        destruct (fold_max_spec (idx f) (map idx v)) as [Hhi Hhi'].
        change (idx f :: map idx v) with (map idx (f :: v)) in *.
        apply in_map_iff in Hlo. destruct Hlo as [a [Ea Ha]].
        apply in_map_iff in Hhi. destruct Hhi as [b [Eb Hb]].
        exists a, b. repeat split; try assumption.
        - fold (idx a) (idx h). rewrite Ea. apply Hlo'. now apply in_map.
        - fold (idx b) (idx h). rewrite Eb. apply Hhi'. now apply in_map. }
      destruct Hex as [a [b [Ha [Hb Hab]]]].
      specialize (H a b Ha Hb Hab). rewrite E in H. cbn [List.length] in H.
      specialize (Hab a Ha). lia. }
    apply mean_nonempty. intros E. apply map_eq_nil in E. contradiction.
  - intros f g Hf Hg Hb. rewrite length_map.
    now apply grouper_ME_length.
Qed.

Lemma ventas_mensuales_average_witness :
  ventas_mensuales Ejemplo.df
  = Num (sum (map dm_total (datos_mensuales Ejemplo.df))
         / inject_Z (Z.of_nat
                       (List.length (map dm_total (datos_mensuales Ejemplo.df))))).
Proof.
  apply (ventas_mensuales_average Ejemplo.df). discriminate.
Defined.

(** ** Top products and the data explorer *)

(** X11: [top_productos] has the ten best-selling product names of the
    view, or all of them when there are ten or fewer, never more rows than
    that; the best seller comes first, and no product left out sold more
    than one that is shown. *)
Theorem top_productos_ten_largest (v : list Fila) :
  let t := top_productos v in
  let todos := cantidad_por_producto v in
  List.length t = Nat.min 10 (List.length todos) /\
  ((List.length todos <= 10)%nat -> Permutation t todos) /\
  StronglySorted (fun a b => (snd b <= snd a)%Z) t /\
  (forall p, In p t -> In p todos) /\
  (forall p q, In p t -> In q todos -> ~ In q t -> (snd q <= snd p)%Z).
Proof.
  intros t todos. subst t. unfold top_productos, nlargest. fold todos.
  set (leb := fun a b : string * Z => (snd b <=? snd a)%Z).
  assert (Hperm : Permutation (sort_stable leb todos) todos)
    by apply sort_stable_perm.
  assert (Hsorted : StronglySorted (fun a b => (snd b <= snd a)%Z)
                                   (sort_stable leb todos)).
  { eapply sorted_weaken; [|apply (sort_stable_sorted leb)].
    - intros a b Hab. now apply Z.leb_le.
    - intros a b. unfold leb. rewrite !Z.leb_le. lia.
    - intros a b c. unfold leb. rewrite !Z.leb_le. lia. }
  split.
  { rewrite length_firstn, (Permutation_length Hperm). reflexivity. }
  split.
  { intros Hle. rewrite firstn_all2; [exact Hperm|].
    now rewrite (Permutation_length Hperm). }
  split; [now apply firstn_sorted|].
  split.
  { intros p Hp. apply (Permutation_in _ Hperm). now apply in_firstn in Hp. }
  intros p q Hp Hq Hnq.
  apply (sorted_split _ 10 _ Hsorted p q Hp).
  apply (Permutation_in _ (Permutation_sym Hperm)) in Hq.
  rewrite <- (firstn_skipn 10 (sort_stable leb todos)) in Hq.
  apply in_app_or in Hq. destruct Hq as [Hq|Hq]; [contradiction | exact Hq].
Qed.

Lemma ts_leb_total_or (a b : Timestamp) :
  ts_leb a b = true \/ ts_leb b a = true.
Proof.
  destruct (ts_leb a b) eqn:E; [now left | right; now apply ts_leb_total].
Qed.

(** X12: the data explorer shows the rows of the view, none lost or added,
    from the latest date to the earliest. *)
Theorem df_vis_latest_first (v : list Fila) :
  Permutation (df_vis v) v /\
  StronglySorted (fun a b => ts_leb (fecha b) (fecha a) = true) (df_vis v).
Proof.
  unfold df_vis. split; [apply sort_stable_perm|].
  apply (sort_stable_sorted (fun a b : Fila => ts_leb (fecha b) (fecha a))).
  - intros a b. destruct (ts_leb_total_or (fecha a) (fecha b)); tauto.
  - intros a b c H1 H2. eapply ts_leb_trans; eassumption.
Qed.

(** ** The joins without unique keys *)

Section MergeAny.
Context {L R : Type} (kl : L -> string) (kr : R -> string).

Lemma merge_left_In (left : list L) (right : list R) (l : L) (o : option R) :
  In (l, o) (merge_left String.eqb kl kr left right) <->
  In l left /\
  match o with
  | Some r => In r right /\ kr r = kl l
  | None => forall r, In r right -> kr r <> kl l
  end.
Proof.
  unfold merge_left. rewrite in_flat_map. split.
  - intros [l' [Hl' Hin]].
    destruct (filter (fun r => String.eqb (kr r) (kl l')) right) as [|m ms] eqn:E.
    + destruct Hin as [[= <- <-]|[]]. split; [exact Hl'|].
      intros r Hr Hk.
      assert (Hf : In r (filter (fun r => String.eqb (kr r) (kl l')) right)).
      { apply filter_In. split; [exact Hr | now apply String.eqb_eq]. }
      rewrite E in Hf. destruct Hf.
    + apply in_map_iff in Hin. destruct Hin as [r [[= <- <-] Hr]].
      rewrite <- E in Hr. apply filter_In in Hr. destruct Hr as [Hr Hk].
      apply String.eqb_eq in Hk. tauto.
  - intros [Hl Ho]. exists l. split; [exact Hl|].
    destruct o as [r|].
    + destruct Ho as [Hr Hk].
      assert (Hf : In r (filter (fun r => String.eqb (kr r) (kl l)) right)).
      { apply filter_In. split; [exact Hr | now apply String.eqb_eq]. }
      destruct (filter (fun r => String.eqb (kr r) (kl l)) right) as [|m ms];
        [destruct Hf|].
      exact (in_map (fun r0 => (l, Some r0)) _ _ Hf).
    + rewrite filter_all_false; [now left|].
      intros r Hr. apply String.eqb_neq. now apply Ho.
Qed.

Lemma merge_left_length (left : list L) (right : list R) :
  (List.length left
   <= List.length (merge_left String.eqb kl kr left right))%nat.
Proof.
  unfold merge_left. induction left as [|l left IH]; cbn [flat_map];
    [simpl; lia|].
  rewrite length_app. set (rest := flat_map _ left) in *.
  destruct (filter (fun r => String.eqb (kr r) (kl l)) right);
    cbn [List.length map]; lia.
Qed.

Lemma merge_inner_In (left : list L) (right : list R) (l : L) (r : R) :
  In (l, r) (merge_inner String.eqb kl kr left right) <->
  In l left /\ In r right /\ kr r = kl l.
Proof.
  unfold merge_inner. rewrite in_flat_map. split.
  - intros [l' [Hl' Hin]]. apply in_map_iff in Hin.
    destruct Hin as [r' [[= <- <-] Hr]]. apply filter_In in Hr.
    destruct Hr as [Hr Hk]. apply String.eqb_eq in Hk. tauto.
  - intros [Hl [Hr Hk]]. exists l. split; [exact Hl|].
    apply (in_map (fun r0 => (l, r0))), filter_In.
    split; [exact Hr | now apply String.eqb_eq].
Qed.

Lemma merge_inner_unique_fst (left : list L) (right : list R) :
  NoDup (map kr right) ->
  map fst (merge_inner String.eqb kl kr left right)
  = filter (fun l => existsb (fun r => String.eqb (kr r) (kl l)) right) left.
Proof.
  intros Hnd. unfold merge_inner.
  induction left as [|l left IH]; cbn [flat_map filter]; [reflexivity|].
  rewrite map_app, IH, (filter_key_unique kr (kl l) right Hnd).
  destruct (find (fun r => String.eqb (kr r) (kl l)) right) as [r|] eqn:E.
  - apply find_some in E. destruct E as [Hr Hk].
    replace (existsb (fun r => String.eqb (kr r) (kl l)) right) with true;
      [reflexivity|].
    symmetry. apply existsb_exists. now exists r.
  - replace (existsb (fun r => String.eqb (kr r) (kl l)) right) with false;
      [reflexivity|].
    symmetry. apply not_true_iff_false. intros Hex.
    apply existsb_exists in Hex. destruct Hex as [r [Hr Hk]].
    now apply (find_none _ _ E) in Hr; congruence.
Qed.
End MergeAny.

(** X13: whatever the keys of the products and customers, [load_data] drops
    no transaction and invents none: it has at least as many rows as there
    are transactions, every transaction is in some row, every row is a
    transaction with either a product of its key or, when no product has
    that key, none, and likewise for the customer. *)
Theorem load_data_never_drops (ts : list Transaccion) (ps : list Producto)
    (cs : list Cliente) :
  let df := fst (load_data ts ps cs) in
  (List.length ts <= List.length df)%nat /\
  (forall t, In t ts -> exists r, In r df /\ tx r = t) /\
  (forall r, In r df ->
     In (tx r) ts /\
     match prod r with
     | Some p => In p ps /\ pr_producto_id p = tr_producto_id (tx r)
     | None => forall p, In p ps -> pr_producto_id p <> tr_producto_id (tx r)
     end /\
     match cli r with
     | Some c => In c cs /\ cl_cliente_id c = tr_cliente_id (tx r)
     | None => forall c, In c cs -> cl_cliente_id c <> tr_cliente_id (tx r)
     end).
Proof.
  intros df. subst df. unfold load_data. cbn [fst].
  set (m1 := merge_left String.eqb tr_producto_id pr_producto_id ts ps).
  set (k2 := fun r : Transaccion * option Producto => tr_cliente_id (fst r)).
  assert (Hrow : forall r, In r (merge_left String.eqb k2 cl_cliente_id m1 cs) ->
    In (tx r) ts /\
    match prod r with
    | Some p => In p ps /\ pr_producto_id p = tr_producto_id (tx r)
    | None => forall p, In p ps -> pr_producto_id p <> tr_producto_id (tx r)
    end /\
    match cli r with
    | Some c => In c cs /\ cl_cliente_id c = tr_cliente_id (tx r)
    | None => forall c, In c cs -> cl_cliente_id c <> tr_cliente_id (tx r)
    end).
  { intros [[t op] oc] Hr. unfold tx, prod, cli. cbn [fst snd].
    apply merge_left_In in Hr. destruct Hr as [H1 H2].
    apply merge_left_In in H1. destruct H1 as [Ht Hp]. tauto. }
  split.
  { etransitivity; [apply (merge_left_length tr_producto_id pr_producto_id ts ps)|].
    apply merge_left_length. }
  split; [|exact Hrow].
  intros t Ht.
  assert (H1 : exists op, In (t, op) m1).
  { destruct (filter (fun p => String.eqb (pr_producto_id p) (tr_producto_id t)) ps)
      as [|p l] eqn:E.
    - exists None. apply merge_left_In. split; [exact Ht|].
      intros p Hp Hk.
      assert (Hf : In p (filter (fun p => String.eqb (pr_producto_id p)
                                                     (tr_producto_id t)) ps)).
      { apply filter_In. split; [exact Hp | now apply String.eqb_eq]. }
      rewrite E in Hf. destruct Hf.
    - exists (Some p). apply merge_left_In. split; [exact Ht|].
      assert (Hf : In p (filter (fun p => String.eqb (pr_producto_id p)
                                                     (tr_producto_id t)) ps)).
      { rewrite E. now left. }
      apply filter_In in Hf. destruct Hf as [Hp Hk].
      apply String.eqb_eq in Hk. tauto. }
  destruct H1 as [op H1].
  destruct (filter (fun c => String.eqb (cl_cliente_id c) (tr_cliente_id t)) cs)
    as [|c l] eqn:E.
  - exists (t, op, None). split; [|reflexivity].
    apply merge_left_In. split; [exact H1|].
    intros c Hc Hk.
    assert (Hf : In c (filter (fun c => String.eqb (cl_cliente_id c)
                                                   (tr_cliente_id t)) cs)).
    { apply filter_In. split; [exact Hc | now apply String.eqb_eq]. }
    rewrite E in Hf. destruct Hf.
  - exists (t, op, Some c). split; [|reflexivity].
    apply merge_left_In. split; [exact H1|].
    assert (Hf : In c (filter (fun c => String.eqb (cl_cliente_id c)
                                                   (tr_cliente_id t)) cs)).
    { rewrite E. now left. }
    apply filter_In in Hf. destruct Hf as [Hc Hk].
    apply String.eqb_eq in Hk. tauto.
Qed.

(** ** tra.py *)

Lemma map_filter_comm {A B : Type} (f : A -> B) (p : B -> bool) (l : list A) :
  map f (filter (fun a => p (f a)) l) = filter p (map f l).
Proof.
  induction l as [|a l IH]; simpl; [reflexivity|].
  destruct (p (f a)); simpl; now rewrite IH.
Qed.

Lemma filter_filter {A : Type} (p q : A -> bool) (l : list A) :
  filter p (filter q l) = filter (fun a => q a && p a) l.
Proof.
  induction l as [|a l IH]; simpl; [reflexivity|].
  destruct (q a); simpl; [destruct (p a)|]; now rewrite IH.
Qed.

(** X14: [cargar_datos] keeps a transaction only with a customer and a
    product of its keys: every row joins a transaction to a customer and a
    product that carry its keys, and every such triple is a row.  When
    customer and product keys are unique, the rows are exactly the
    transactions that have both a customer and a product, once each and in
    their order; the others are dropped. *)
Theorem cargar_datos_inner (cs : list Cliente) (ps : list Producto)
    (ts : list Transaccion) :
  (forall t c p, In (t, c, p) (Tra.cargar_datos cs ps ts) <->
     In t ts /\ In c cs /\ In p ps /\
     cl_cliente_id c = tr_cliente_id t /\
     pr_producto_id p = tr_producto_id t) /\
  (NoDup (map cl_cliente_id cs) -> NoDup (map pr_producto_id ps) ->
   map (fun f => fst (fst f)) (Tra.cargar_datos cs ps ts)
   = filter (fun t =>
               existsb (fun c => String.eqb (cl_cliente_id c) (tr_cliente_id t)) cs
               && existsb (fun p => String.eqb (pr_producto_id p)
                                               (tr_producto_id t)) ps)
            ts).
Proof.
  unfold Tra.cargar_datos. split.
  - intros t c p. rewrite merge_inner_In, merge_inner_In. cbn [fst]. tauto.
  - intros Hc Hp. rewrite <- map_map.
    rewrite (merge_inner_unique_fst _ pr_producto_id _ _ Hp).
    rewrite (map_filter_comm fst
               (fun t => existsb (fun p => String.eqb (pr_producto_id p)
                                                      (tr_producto_id t)) ps)).
    rewrite (merge_inner_unique_fst _ cl_cliente_id _ _ Hc).
    apply filter_filter.
Qed.

Lemma cargar_datos_inner_witness :
  map (fun f => tr_transaccion_id (fst (fst f)))
      (Tra.cargar_datos Ejemplo.clientes Ejemplo.productos
                        Ejemplo.transacciones)
  = ["1"; "2"].
Proof.
  rewrite <- (map_map (fun f => fst (fst f)) tr_transaccion_id).
  rewrite (proj2 (cargar_datos_inner Ejemplo.clientes Ejemplo.productos
                                     Ejemplo.transacciones)).
  - reflexivity.
  - repeat constructor; simpl; intuition discriminate.
  - repeat constructor; simpl; intuition discriminate.
Defined.

Lemma fold_min_In (r : list Timestamp) (acc : Timestamp) :
  In (fold_left (fun acc x => if ts_leb x acc then x else acc) r acc)
     (acc :: r).
Proof.
  revert acc. induction r as [|y r IH]; intros acc; simpl; [now left|].
  destruct (ts_leb y acc); destruct (IH y) as [E|H]; destruct (IH acc) as [E'|H'];
    simpl in *; auto.
Qed.

Lemma fold_max_In (r : list Timestamp) (acc : Timestamp) :
  In (fold_left (fun acc x => if ts_leb acc x then x else acc) r acc)
     (acc :: r).
Proof.
  revert acc. induction r as [|y r IH]; intros acc; simpl; [now left|].
  destruct (ts_leb acc y); destruct (IH y) as [E|H]; destruct (IH acc) as [E'|H'];
    simpl in *; auto.
Qed.

Lemma ts_min_In (l : list Timestamp) (m : Timestamp) :
  ts_min l = Some m -> In m l.
Proof.
  destruct l as [|t r]; simpl; [discriminate|]. intros [= <-].
  apply fold_min_In.
Qed.

Lemma ts_max_In (l : list Timestamp) (m : Timestamp) :
  ts_max l = Some m -> In m l.
Proof.
  destruct l as [|t r]; simpl; [discriminate|]. intros [= <-].
  apply fold_max_In.
Qed.

Lemma to_datetime_date (t : Timestamp) :
  segundos t = 0%Z -> to_datetime (ts_date t) = t.
Proof. destruct t as [y m d s]. simpl. now intros ->. Qed.

Lemma option_eqb_eq (a b : option string) :
  Tra.option_eqb a b = true <-> a = b.
Proof.
  destruct a as [x|], b as [y|]; simpl; try (split; congruence).
  rewrite String.eqb_eq. split; congruence.
Qed.

(** X15: in [tra.py], when every [fecha] is a midnight (a date without a
    time of day), the initial selection of the sidebar, from the earliest
    to the latest date and with every category, keeps the whole frame. *)
Theorem tra_full_selection_midnights (df : list Tra.Fila)
    (rango_fechas : date * date) :
  (forall f, In f df -> segundos (Tra.fecha f) = 0%Z) ->
  Tra.fecha_range_inicial df = Some rango_fechas ->
  Tra.df_filtrado rango_fechas (Tra.categorias df) df = df.
Proof.
  intros Hmid Hr. unfold Tra.fecha_range_inicial in Hr.
  destruct (ts_min (map Tra.fecha df)) as [a|] eqn:Ea; [|discriminate].
  destruct (ts_max (map Tra.fecha df)) as [b|] eqn:Eb; [|discriminate].
  injection Hr as <-.
  assert (Ha : segundos a = 0%Z).
  { apply ts_min_In, in_map_iff in Ea. destruct Ea as [f [<- Hf]]. auto. }
  assert (Hb : segundos b = 0%Z).
  { apply ts_max_In, in_map_iff in Eb. destruct Eb as [f [<- Hf]]. auto. }
  unfold Tra.df_filtrado. apply filter_all_true. intros f Hf. cbn [fst snd].
  rewrite (to_datetime_date a Ha), (to_datetime_date b Hb).
  rewrite (ts_min_le _ _ _ Ea (in_map Tra.fecha _ _ Hf)).
  rewrite (ts_max_ge _ _ _ Eb (in_map Tra.fecha _ _ Hf)).
  cbn [andb]. apply (isin_In _ option_eqb_eq). unfold Tra.categorias.
  apply (unique_In _ option_eqb_eq). now apply in_map.
Qed.

Lemma tra_full_selection_midnights_witness :
  Tra.df_filtrado ((2024, 1, 5), (2024, 3, 9))%Z
    (Tra.categorias (Tra.cargar_datos Ejemplo.clientes Ejemplo.productos
                                      Ejemplo.transacciones))
    (Tra.cargar_datos Ejemplo.clientes Ejemplo.productos Ejemplo.transacciones)
  = Tra.cargar_datos Ejemplo.clientes Ejemplo.productos Ejemplo.transacciones.
Proof.
  apply tra_full_selection_midnights; [|reflexivity].
  intros f [<-|[<-|[]]]; reflexivity.
Defined.

(** ** The rollup by location *)

(** The sales row of customer [k] in a view. *)
Lemma ventas_por_ubicacion_shape (v : list Fila) :
  ventas_por_ubicacion v
  = map (ventas_de v)
        (Py.sorted String.leb (unique String.eqb (map cliente_id v))).
Proof.
  unfold ventas_por_ubicacion, groupby. rewrite map_map. reflexivity.
Qed.

Lemma ventas_por_ubicacion_ids (v : list Fila) :
  map vc_cliente_id (ventas_por_ubicacion v)
  = Py.sorted String.leb (unique String.eqb (map cliente_id v)).
Proof.
  rewrite ventas_por_ubicacion_shape, map_map. cbn [vc_cliente_id ventas_de].
  apply map_id.
Qed.

Lemma ventas_por_ubicacion_find (v : list Fila) (k : string) :
  In k (map cliente_id v) ->
  find (fun r => String.eqb (vc_cliente_id r) k) (ventas_por_ubicacion v)
  = Some (ventas_de v k).
Proof.
  intros Hk. apply (find_key_present vc_cliente_id).
  - rewrite ventas_por_ubicacion_ids.
    apply sorted_NoDup, (unique_NoDup _ String.eqb_eq).
  - rewrite ventas_por_ubicacion_shape. apply in_map.
    now apply sorted_In, (unique_In _ String.eqb_eq).
  - reflexivity.
Qed.

Lemma df_clientes_filtrado_In (cs : list Cliente) (v : list Fila) (c : Cliente) :
  In c (df_clientes_filtrado cs v) <->
  In c cs /\ In (cl_cliente_id c) (map cliente_id v).
Proof.
  unfold df_clientes_filtrado.
  rewrite filter_In, (isin_In _ String.eqb_eq), (unique_In _ String.eqb_eq).
  reflexivity.
Qed.

Lemma df_clientes_geo_shape (cs : list Cliente) (v : list Fila) :
  df_clientes_geo cs v
  = map (fun c => (c, Some (ventas_de v (cl_cliente_id c))))
        (df_clientes_filtrado cs v).
Proof.
  unfold df_clientes_geo. rewrite merge_left_unique.
  - apply map_ext_in. intros c Hc. f_equal.
    apply ventas_por_ubicacion_find. now apply df_clientes_filtrado_In in Hc.
  - rewrite ventas_por_ubicacion_ids.
    apply sorted_NoDup, (unique_NoDup _ String.eqb_eq).
Qed.

Lemma ventas_de_count (v : list Fila) (k : string) :
  In k (map cliente_id v) -> (1 <= vc_num_transacciones (ventas_de v k))%Z.
Proof.
  intros Hk. apply in_map_iff in Hk. destruct Hk as [f [E Hf]].
  cbn [ventas_de vc_num_transacciones]. unfold count. rewrite length_map.
  assert (Hin : In f (filter (fun r => String.eqb (cliente_id r) k) v)).
  { apply filter_In. split; [exact Hf | now apply String.eqb_eq]. }
  destruct (filter _ v); [destruct Hin | simpl; lia].
Qed.

Lemma unique_incl {K : Type} (eqb : K -> K -> bool) (l : list K) (x : K) :
  In x (unique eqb l) -> In x l.
Proof.
  induction l as [|y l IH]; simpl; [easy|].
  intros [->|H]; [now left|]. apply filter_In in H. right. now apply IH.
Qed.

Lemma coord_eqb_refl (k : Coord) : coord_eqb k k = true.
Proof.
  destruct k as [[la lo] c]. unfold coord_eqb.
  now rewrite !Qeq_bool_refl, String.eqb_refl.
Qed.

Lemma coord_group_nonempty (geo : list FilaGeo) (k : Coord) :
  In k (map coord geo) ->
  filter (fun r => coord_eqb (coord r) k) geo <> [].
Proof.
  intros Hk. apply in_map_iff in Hk. destruct Hk as [r [E Hr]].
  assert (Hin : In r (filter (fun r => coord_eqb (coord r) k) geo)).
  { apply filter_In. split; [exact Hr|]. rewrite E. apply coord_eqb_refl. }
  intros E'. rewrite E' in Hin. destruct Hin.
Qed.

Lemma coordenadas_unicas_group (geo : list FilaGeo) (u : Ubicacion) :
  In u (coordenadas_unicas geo) ->
  u = agg_ubicacion ((latitud u, longitud u, ciudad u), grupo_de u geo) /\
  grupo_de u geo <> [].
Proof.
  unfold coordenadas_unicas, groupby. rewrite map_map. intros Hu.
  apply in_map_iff in Hu. destruct Hu as [[[la lo] c] [<- Hk]].
  split; [reflexivity|].
  apply sorted_In, unique_incl in Hk.
  change (filter (fun r => coord_eqb (coord r) (la, lo, c)) geo <> []).
  now apply coord_group_nonempty.
Qed.

Lemma Zsum_dropna_ge {A : Type} (n : A -> option Z) (g : list A) :
  (forall r, In r g -> exists z, n r = Some z /\ (1 <= z)%Z) ->
  (Z.of_nat (List.length g) <= fold_right Z.add 0%Z (dropna (map n g)))%Z.
Proof.
  induction g as [|r g IH]; intros H; [simpl; lia|].
  destruct (H r (or_introl eq_refl)) as [z [E Hz]].
  cbn [map dropna]. rewrite E. cbn [fold_right List.length].
  assert (IH' := IH (fun r' Hr' => H r' (or_intror Hr'))). lia.
Qed.

Lemma avg_venta_positive (row : Ubicacion) :
  (0 < num_transacciones row)%Z ->
  avg_venta row
  = Some (u_ventas_totales row / inject_Z (num_transacciones row)).
Proof.
  intros Hpos. unfold avg_venta, Py.truediv.
  rewrite (proj2 (Z.gtb_lt _ _) Hpos).
  destruct (Qeq_bool (inject_Z (num_transacciones row)) 0) eqn:E;
    [|reflexivity].
  apply Qeq_bool_iff in E. unfold Qeq in E. simpl in E. lia.
Qed.

(** X16: in the rollup that the map is drawn from, every location has at
    least one customer and at least as many transactions as customers, so
    its average ticket is always the quotient of its sales by its
    transactions: the fallback 0 of [avg_venta] is never used there. *)
Theorem rollup_locations_have_sales (cs : list Cliente) (v : list Fila)
    (u : Ubicacion) :
  In u (coordenadas_unicas (df_clientes_geo cs v)) ->
  (1 <= conteo_clientes u)%Z /\
  (conteo_clientes u <= num_transacciones u)%Z /\
  avg_venta u
  = Some (u_ventas_totales u / inject_Z (num_transacciones u)).
Proof.
  intros Hu.
  destruct (coordenadas_unicas_group _ _ Hu) as [E Hne].
  set (g := grupo_de u (df_clientes_geo cs v)) in *.
  assert (Hc : conteo_clientes u = Z.of_nat (List.length g)).
  { rewrite E. cbn [agg_ubicacion fst snd conteo_clientes]. unfold count.
    now rewrite length_map. }
  assert (Hn : (Z.of_nat (List.length g) <= num_transacciones u)%Z).
  { rewrite E. cbn [agg_ubicacion fst snd num_transacciones].
    apply Zsum_dropna_ge. intros r Hr. unfold g, grupo_de in Hr.
    apply filter_In in Hr. destruct Hr as [Hr _].
    rewrite df_clientes_geo_shape in Hr. apply in_map_iff in Hr.
    destruct Hr as [c [<- Hc']]. cbn [snd option_map].
    eexists. split; [reflexivity|]. apply ventas_de_count.
    now apply df_clientes_filtrado_In in Hc'. }
  assert (Hg : (1 <= Z.of_nat (List.length g))%Z).
  { destruct g; [contradiction | simpl; lia]. }
  split; [lia|]. split; [lia|].
  apply avg_venta_positive. lia.
Qed.

Lemma rollup_locations_have_sales_witness :
  avg_venta Ejemplo.ubicacion
  = Some (u_ventas_totales Ejemplo.ubicacion
          / inject_Z (num_transacciones Ejemplo.ubicacion)).
Proof.
  apply (rollup_locations_have_sales Ejemplo.clientes Ejemplo.df).
  left. reflexivity.
Defined.

(** *** Nothing is lost between the view and the map *)

Section UniqueUpTo.
Context {K : Type} (eqb : K -> K -> bool).
Hypothesis eqb_refl : forall a, eqb a a = true.
Hypothesis eqb_sym : forall a b, eqb a b = eqb b a.
Hypothesis eqb_trans :
  forall a b c, eqb a b = true -> eqb b c = true -> eqb a c = true.

Lemma unique_una (l : list K) (x : K) :
  In x l -> List.length (filter (eqb x) (unique eqb l)) = 1%nat.
Proof.
  assert (H : forall l,
    List.length (filter (eqb x) (unique eqb l))
    = if existsb (eqb x) l then 1%nat else 0%nat).
  { clear l. induction l as [|a l IH]; cbn [unique filter existsb];
      [reflexivity|].
    destruct (eqb x a) eqn:E; cbn [orb List.length].
    - f_equal. rewrite filter_all_false; [reflexivity|].
      intros y Hy. apply filter_In in Hy. destruct Hy as [_ Hy].
      apply negb_true_iff in Hy.
      destruct (eqb x y) eqn:E'; [|reflexivity].
      rewrite eqb_sym in E'. rewrite (eqb_trans _ _ _ E' E) in Hy.
      discriminate.
    - rewrite <- IH. f_equal.
      rewrite filter_comm. apply filter_all_true.
      intros y Hy. apply filter_In in Hy. destruct Hy as [_ Hy].
      apply negb_true_iff. destruct (eqb y a) eqn:E'; [|reflexivity].
      rewrite (eqb_trans _ _ _ Hy E') in E. discriminate. }
  intros Hx. rewrite H.
  replace (existsb (eqb x) l) with true; [reflexivity|].
  symmetry. apply existsb_exists. exists x. split; [exact Hx | apply eqb_refl].
Qed.
End UniqueUpTo.

Lemma coord_eqb_sym (a b : Coord) : coord_eqb a b = coord_eqb b a.
Proof.
  destruct a as [[la lo] c], b as [[la' lo'] c']. unfold coord_eqb.
  now rewrite (Qeq_bool_comm la), (Qeq_bool_comm lo), (String.eqb_sym c).
Qed.

Lemma coord_eqb_trans (a b c : Coord) :
  coord_eqb a b = true -> coord_eqb b c = true -> coord_eqb a c = true.
Proof.
  destruct a as [[la lo] ca], b as [[la' lo'] cb], c as [[la'' lo''] cc].
  unfold coord_eqb. rewrite !andb_true_iff, !String.eqb_eq.
  intros [[H1 H2] ->] [[H3 H4] ->].
  repeat split; try reflexivity; eapply Qeq_bool_trans; eassumption.
Qed.

Lemma coord_keys_una (geo : list FilaGeo) (r : FilaGeo) :
  In r geo ->
  List.length (filter (coord_eqb (coord r))
                 (Py.sorted coord_leb (unique coord_eqb (map coord geo))))
  = 1%nat.
Proof.
  intros Hr.
  rewrite (filter_length_perm _ _ _ (sorted_perm coord_leb _)).
  apply (unique_una coord_eqb coord_eqb_refl coord_eqb_sym coord_eqb_trans).
  now apply in_map.
Qed.

Lemma Zsum_perm (l l' : list Z) :
  Permutation l l' -> fold_right Z.add 0%Z l = fold_right Z.add 0%Z l'.
Proof.
  induction 1 as [|x l l' _ IH|x y l|l l' l'' _ IH1 _ IH2]; simpl; lia.
Qed.

Lemma Zsum_cons (a : Z) (l : list Z) :
  fold_right Z.add 0%Z (a :: l) = (a + fold_right Z.add 0%Z l)%Z.
Proof. reflexivity. Qed.

Lemma Zsum_groups_cons {K R : Type} (eqb : K -> K -> bool) (key : R -> K)
    (val : R -> Z) (ks : list K) (r : R) (df : list R) :
  fold_right Z.add 0%Z
    (map (fun k => fold_right Z.add 0%Z
                     (map val (filter (fun r => eqb (key r) k) (r :: df)))) ks)
  = (Z.of_nat (List.length (filter (eqb (key r)) ks)) * val r
     + fold_right Z.add 0%Z
         (map (fun k => fold_right Z.add 0%Z
                          (map val (filter (fun r => eqb (key r) k) df))) ks))%Z.
Proof.
  induction ks as [|k ks IH]; cbn [map]; [reflexivity|].
  rewrite !Zsum_cons, IH. cbn [filter].
  destruct (eqb (key r) k); cbn [List.length map]; rewrite ?Zsum_cons; lia.
Qed.

Lemma Zsum_by_groups_any {K R : Type} (eqb : K -> K -> bool) (key : R -> K)
    (val : R -> Z) (ks : list K) (df : list R) :
  (forall r, In r df -> List.length (filter (eqb (key r)) ks) = 1%nat) ->
  fold_right Z.add 0%Z
    (map (fun k => fold_right Z.add 0%Z
                     (map val (filter (fun r => eqb (key r) k) df))) ks)
  = fold_right Z.add 0%Z (map val df).
Proof.
  induction df as [|r df IH]; intros Hcov.
  - cbn [filter map fold_right]. clear. induction ks; simpl; lia.
  - rewrite Zsum_groups_cons, IH by (intros r' Hr'; apply Hcov; now right).
    rewrite (Hcov r (or_introl eq_refl)). cbn [map]. rewrite Zsum_cons. lia.
Qed.

Lemma Zsum_dropna_opt {A B : Type} (f : B -> Z) (o : A -> option B)
    (g : list A) :
  fold_right Z.add 0%Z (dropna (map (fun r => option_map f (o r)) g))
  = fold_right Z.add 0%Z
      (map (fun r => match o r with Some x => f x | None => 0%Z end) g).
Proof.
  induction g as [|r g IH]; cbn [map dropna]; [reflexivity|].
  rewrite Zsum_cons. destruct (o r); cbn [option_map dropna].
  - rewrite Zsum_cons, IH. reflexivity.
  - rewrite IH. lia.
Qed.

Lemma nodup_ids_filter {Row Id : Type} (id : Row -> Id) (keep : Row -> bool)
    (rows : list Row) (Hnd : NoDup (map id rows)) :
  NoDup (map id (filter keep rows)).
Proof.
  induction rows as [|a rows IH]; simpl in *; [constructor|].
  inversion Hnd as [|? ? Hn Hnd']; subst.
  destruct (keep a); [|now apply IH]. simpl. constructor; [|now apply IH].
  intros Hin. apply Hn. apply in_map_iff in Hin.
  destruct Hin as [x [E Hx]]. apply filter_In in Hx.
  rewrite <- E. apply in_map. tauto.
Qed.

Lemma clientes_filtrado_ids (cs : list Cliente) (v : list Fila) :
  NoDup (map cl_cliente_id cs) ->
  (forall f, In f v -> In (cliente_id f) (map cl_cliente_id cs)) ->
  Permutation (map cl_cliente_id (df_clientes_filtrado cs v))
              (unique String.eqb (map cliente_id v)).
Proof.
  intros Hnd Hcov. apply NoDup_Permutation.
  - unfold df_clientes_filtrado. now apply nodup_ids_filter.
  - apply (unique_NoDup _ String.eqb_eq).
  - intros x. rewrite (unique_In _ String.eqb_eq), in_map_iff. split.
    + intros [c [<- Hc]]. now apply df_clientes_filtrado_In in Hc.
    + intros Hx. pose proof Hx as Hx'. apply in_map_iff in Hx'.
      destruct Hx' as [f [E Hf]]. specialize (Hcov f Hf). rewrite E in Hcov.
      apply in_map_iff in Hcov. destruct Hcov as [c [Ec Hc]].
      exists c. split; [exact Ec|]. apply df_clientes_filtrado_In.
      split; [exact Hc | now rewrite Ec].
Qed.

Lemma coordenadas_unicas_shape (geo : list FilaGeo) :
  coordenadas_unicas geo
  = map (fun k => agg_ubicacion
                    (k, filter (fun r => coord_eqb (coord r) k) geo))
        (Py.sorted coord_leb (unique coord_eqb (map coord geo))).
Proof. unfold coordenadas_unicas, groupby. now rewrite map_map. Qed.

Lemma agg_ubicacion_fields (k : Coord) (g : list FilaGeo) :
  u_ventas_totales (agg_ubicacion (k, g))
  = sum (dropna (map (fun r => option_map vc_ventas_totales (snd r)) g)) /\
  num_transacciones (agg_ubicacion (k, g))
  = fold_right Z.add 0%Z
      (dropna (map (fun r => option_map vc_num_transacciones (snd r)) g)) /\
  conteo_clientes (agg_ubicacion (k, g)) = Z.of_nat (List.length g).
Proof.
  destruct k as [[la lo] c]. cbn. unfold count. now rewrite length_map.
Qed.

Lemma ventas_de_by_customer (v : list Fila) :
  fold_right Z.add 0%Z
    (map (fun k => vc_num_transacciones (ventas_de v k))
         (unique String.eqb (map cliente_id v)))
  = Z.of_nat (List.length v).
Proof.
  assert (Hnd : NoDup (unique String.eqb (map cliente_id v)))
    by apply (unique_NoDup _ String.eqb_eq).
  assert (Hcov : forall f, In f v ->
            In (cliente_id f) (unique String.eqb (map cliente_id v))).
  { intros f Hf. apply (unique_In _ String.eqb_eq). now apply in_map. }
  cbn [ventas_de vc_num_transacciones]. unfold count.
  rewrite (map_ext _ (fun k => Z.of_nat
             (List.length (filter (fun r => String.eqb (cliente_id r) k) v))))
    by (intros k; now rewrite length_map).
  rewrite Zsum_of_nat. f_equal.
  apply (length_by_groups_any String.eqb cliente_id).
  intros f Hf. apply (una_NoDup _ String.eqb_eq); auto.
Qed.

(** X17: when the customer table has no repeated [cliente_id] and holds the
    customer of every row of the view, the rollup by location loses and
    repeats no transaction and no customer: over its rows, the transactions
    add up to the number of rows of the view, and the customers to the
    number of distinct customers of the view. *)
Theorem rollup_conserves (cs : list Cliente) (v : list Fila) :
  NoDup (map cl_cliente_id cs) ->
  (forall f, In f v -> In (cliente_id f) (map cl_cliente_id cs)) ->
  let r := coordenadas_unicas (df_clientes_geo cs v) in
  fold_right Z.add 0%Z (map num_transacciones r) = Z.of_nat (List.length v) /\
  fold_right Z.add 0%Z (map conteo_clientes r) = Z.of_nat (clientes_unicos v).
Proof.
  intros Hnd Hcov r. subst r.
  pose proof (clientes_filtrado_ids cs v Hnd Hcov) as Hperm.
  set (geo := df_clientes_geo cs v).
  set (ks := Py.sorted coord_leb (unique coord_eqb (map coord geo))).
  rewrite coordenadas_unicas_shape. fold ks. rewrite !map_map.
  pose proof (ventas_de_by_customer v) as Hz.
  split.
  - rewrite (map_ext _
      (fun k => fold_right Z.add 0%Z
                  (map (fun r : FilaGeo =>
                          match snd r with
                          | Some x => vc_num_transacciones x
                          | None => 0%Z
                          end)
                       (filter (fun r => coord_eqb (coord r) k) geo))))
      by (intros k; rewrite (proj1 (proj2 (agg_ubicacion_fields k _)));
          apply Zsum_dropna_opt).
    rewrite (Zsum_by_groups_any coord_eqb coord)
      by (intros r Hr; now apply coord_keys_una).
    unfold geo. rewrite df_clientes_geo_shape, map_map. cbn [snd].
    rewrite <- Hz.
    rewrite <- (map_map cl_cliente_id
                  (fun k => vc_num_transacciones (ventas_de v k))).
    apply Zsum_perm, Permutation_map, Hperm.
  - rewrite (map_ext _
      (fun k => Z.of_nat
                  (List.length (filter (fun r => coord_eqb (coord r) k) geo))))
      by (intros k; apply (proj2 (proj2 (agg_ubicacion_fields k _)))).
    rewrite Zsum_of_nat. f_equal.
    rewrite (length_by_groups_any coord_eqb coord)
      by (intros r Hr; now apply coord_keys_una).
    unfold geo. rewrite df_clientes_geo_shape, length_map.
    rewrite <- (length_map cl_cliente_id), (Permutation_length Hperm).
    reflexivity.
Qed.

Lemma rollup_conserves_witness :
  fold_right Z.add 0%Z
    (map num_transacciones (coordenadas_unicas Ejemplo.geo))
  = Z.of_nat (List.length Ejemplo.df).
Proof.
  apply (rollup_conserves Ejemplo.clientes Ejemplo.df).
  - repeat constructor; simpl; intuition discriminate.
  - intros f [<-|[<-|[]]]; simpl; auto.
Defined.

(** ** Words and labels of ASCII text *)

Lemma isspace_upper_char (c : ascii) :
  PyAscii.isspace (PyAscii.upper_char c) = PyAscii.isspace c.
Proof. destruct c as [[] [] [] [] [] [] [] []]; reflexivity. Qed.

Lemma upper_lower_upper (c : ascii) :
  PyAscii.upper_char (PyAscii.lower_char (PyAscii.upper_char c)) = PyAscii.upper_char c.
Proof. destruct c as [[] [] [] [] [] [] [] []]; reflexivity. Qed.

Lemma lower_idem (s : string) : PyAscii.lower (PyAscii.lower s) = PyAscii.lower s.
Proof.
  induction s as [|c s IH]; simpl; [reflexivity|].
  now rewrite lower_char_idem, IH.
Qed.

Lemma lower_app (a b : string) : PyAscii.lower (a ++ b) = PyAscii.lower a ++ PyAscii.lower b.
Proof. induction a as [|c a IH]; simpl; [reflexivity | now rewrite IH]. Qed.

Lemma sin_espacios_lower (w : string) :
  sin_espacios (PyAscii.lower w) = sin_espacios w.
Proof.
  induction w as [|c w IH]; simpl; [reflexivity|].
  now rewrite isspace_lower_char, IH.
Qed.

Lemma palabra_lower (w : string) : palabra w -> palabra (PyAscii.lower w).
Proof.
  intros [Hne Hs]. split.
  - destruct w; [contradiction | discriminate].
  - now rewrite sin_espacios_lower.
Qed.

Lemma palabra_capitalize (w : string) : palabra w -> palabra (PyAscii.capitalize w).
Proof.
  intros [Hne Hs]. destruct w as [|c r]; [contradiction|].
  split; [discriminate|]. cbn [PyAscii.capitalize sin_espacios] in *.
  now rewrite isspace_upper_char, sin_espacios_lower.
Qed.

Lemma capitalize_lower_capitalize (w : string) :
  PyAscii.capitalize (PyAscii.lower (PyAscii.capitalize w)) = PyAscii.capitalize w.
Proof.
  destruct w as [|c r]; cbn [PyAscii.capitalize PyAscii.lower]; [reflexivity|].
  now rewrite upper_lower_upper, !lower_idem.
Qed.

(** What [split] returns are words. *)
Lemma split_palabras (s : string) : Forall palabra (PyAscii.split s).
Proof.
  induction s as [|c r IH]; simpl; [constructor|].
  destruct (PyAscii.isspace c) eqn:Ec; [exact IH|].
  assert (Hc : palabra (String c EmptyString)).
  { split; [discriminate | simpl; now rewrite Ec]. }
  destruct r as [|c' r']; [now constructor|].
  destruct (PyAscii.isspace c') eqn:Ec'; [now constructor|].
  destruct (PyAscii.split (String c' r')) as [|w ws]; [now constructor|].
  inversion IH as [|? ? [Hw1 Hw2] Hws]; subst.
  constructor; [|exact Hws].
  split; [discriminate | simpl; now rewrite Ec, Hw2].
Qed.

Lemma split_cons2 (c c2 : ascii) (r : string) :
  PyAscii.isspace c = false -> PyAscii.isspace c2 = false ->
  PyAscii.split (String c (String c2 r))
  = match PyAscii.split (String c2 r) with
    | w :: ws => String c w :: ws
    | [] => [String c EmptyString]
    end.
Proof. intros Hc Hc2. simpl. rewrite Hc, Hc2. reflexivity. Qed.

(** A word followed by nothing, or by white space, is split off whole. *)
Lemma split_palabra_app (w s : string) :
  palabra w ->
  match s with
  | EmptyString => True
  | String c _ => PyAscii.isspace c = true
  end ->
  PyAscii.split (w ++ s) = w :: PyAscii.split s.
Proof.
  intros [Hne Hs] Hsp. induction w as [|c r IH]; [contradiction|].
  simpl in Hs. apply andb_true_iff in Hs. destruct Hs as [Hc Hr].
  apply negb_true_iff in Hc.
  destruct r as [|c2 r2].
  - cbn [append PyAscii.split]. rewrite Hc.
    destruct s as [|c' s']; [reflexivity|]. now rewrite Hsp.
  - assert (Hc2 : PyAscii.isspace c2 = false).
    { simpl in Hr. apply andb_true_iff in Hr. destruct Hr as [H _].
      now apply negb_true_iff in H. }
    change (String c (String c2 r2) ++ s)
      with (String c (String c2 (r2 ++ s))).
    rewrite (split_cons2 c c2 (r2 ++ s) Hc Hc2).
    change (String c2 (r2 ++ s)) with (String c2 r2 ++ s).
    rewrite (IH ltac:(discriminate) Hr).
    reflexivity.
Qed.

Lemma append_empty_r (w : string) : w ++ EmptyString = w.
Proof. induction w as [|c w IH]; simpl; [reflexivity | now rewrite IH]. Qed.

Lemma concat_cons2 (sep x y : string) (xs : list string) :
  String.concat sep (x :: y :: xs) = x ++ sep ++ String.concat sep (y :: xs).
Proof. reflexivity. Qed.

Lemma split_concat (ws : list string) :
  Forall palabra ws -> PyAscii.split (String.concat " " ws) = ws.
Proof.
  induction 1 as [|w ws Hw Hws IH]; [reflexivity|].
  destruct ws as [|y ys].
  - cbn [String.concat]. rewrite <- (append_empty_r w) at 1.
    now rewrite (split_palabra_app w EmptyString Hw I).
  - rewrite concat_cons2.
    rewrite (split_palabra_app w (" " ++ String.concat " " (y :: ys)) Hw)
      by reflexivity.
    f_equal. exact IH.
Qed.

Lemma lower_concat (ws : list string) :
  PyAscii.lower (String.concat " " ws) = String.concat " " (map PyAscii.lower ws).
Proof.
  induction ws as [|w ws IH]; [reflexivity|].
  destruct ws as [|y ys]; [reflexivity|].
  cbn [map] in *. rewrite !concat_cons2, !lower_app, IH. reflexivity.
Qed.

Lemma empieza_palabra_app (w s : string) :
  palabra w -> empieza_palabra (w ++ s).
Proof.
  intros [Hne Hs]. destruct w as [|c r]; [contradiction|].
  simpl in *. apply andb_true_iff in Hs. destruct Hs as [Hc _].
  now apply negb_true_iff in Hc.
Qed.

Lemma concat_empieza (w : string) (ws : list string) :
  palabra w -> empieza_palabra (String.concat " " (w :: ws)).
Proof.
  intros Hw. destruct ws as [|y ys].
  - cbn [String.concat]. rewrite <- (append_empty_r w).
    now apply empieza_palabra_app.
  - rewrite concat_cons2. now apply empieza_palabra_app.
Qed.

Lemma lstrip_empieza (s : string) : empieza_palabra s -> PyAscii.lstrip s = s.
Proof. destruct s as [|c r]; simpl; [easy | now intros ->]. Qed.

Lemma rstrip_palabra (w : string) : sin_espacios w = true -> PyAscii.rstrip w = w.
Proof.
  induction w as [|c r IH]; [reflexivity|].
  cbn [sin_espacios PyAscii.rstrip]. intros Hs.
  apply andb_true_iff in Hs. destruct Hs as [Hc Hr].
  apply negb_true_iff in Hc. rewrite (IH Hr), Hc. now destruct r.
Qed.

Lemma rstrip_app_fixed (a b : string) :
  b <> EmptyString -> PyAscii.rstrip b = b -> PyAscii.rstrip (a ++ b) = a ++ b.
Proof.
  intros Hne Hb. induction a as [|c a IH]; [exact Hb|].
  cbn [append PyAscii.rstrip]. rewrite IH.
  destruct (a ++ b) eqn:E; [|reflexivity].
  destruct a; simpl in E; [contradiction | discriminate].
Qed.

Lemma rstrip_concat (ws : list string) :
  Forall palabra ws ->
  PyAscii.rstrip (String.concat " " ws) = String.concat " " ws.
Proof.
  induction 1 as [|w ws [Hne Hs] Hws IH]; [reflexivity|].
  destruct ws as [|y ys].
  - cbn [String.concat]. now apply rstrip_palabra.
  - rewrite concat_cons2.
    change (w ++ " " ++ String.concat " " (y :: ys))
      with (w ++ (" " ++ String.concat " " (y :: ys))).
    apply rstrip_app_fixed; [discriminate|].
    apply rstrip_app_fixed; [|exact IH].
    inversion Hws as [|? ? Hy _]; subst.
    pose proof (concat_empieza y ys Hy) as H.
    destruct (String.concat " " (y :: ys)); [destruct H | discriminate].
Qed.

Lemma strip_concat (ws : list string) :
  Forall palabra ws ->
  PyAscii.strip (String.concat " " ws) = String.concat " " ws.
Proof.
  intros Hws. unfold PyAscii.strip.
  destruct ws as [|w ws]; [reflexivity|].
  inversion Hws as [|? ? Hw _]; subst.
  rewrite (lstrip_empieza _ (concat_empieza w ws Hw)).
  now apply rstrip_concat.
Qed.

(** ** ASCII text: the general functions and their restriction agree *)

Lemma bytes_cons (c : ascii) (r : string) :
  Unicode.bytes (String c r) = N_of_ascii c :: Unicode.bytes r.
Proof. reflexivity. Qed.

Lemma bytes_app (a b : string) :
  Unicode.bytes (a ++ b) = (Unicode.bytes a ++ Unicode.bytes b)%list.
Proof.
  induction a as [|c a IH]; [reflexivity|].
  cbn [append]. rewrite !bytes_cons, IH. reflexivity.
Qed.

Lemma of_bytes_bytes (s : string) : Unicode.of_bytes (Unicode.bytes s) = s.
Proof.
  unfold Unicode.of_bytes, Unicode.bytes. rewrite map_map.
  rewrite (map_ext _ (fun a => a)) by (intro; apply ascii_N_embedding).
  rewrite map_id. apply string_of_list_ascii_of_string.
Qed.

Lemma es_ascii_cons (c : ascii) (r : string) :
  es_ascii (String c r) = true ->
  (N_of_ascii c <? 128)%N = true /\ es_ascii r = true.
Proof. cbn [es_ascii]. intros H. now apply andb_true_iff in H. Qed.

Lemma es_ascii_app (a b : string) :
  es_ascii a = true -> es_ascii b = true -> es_ascii (a ++ b) = true.
Proof.
  intros Ha Hb. induction a as [|c a IH]; [exact Hb|].
  destruct (es_ascii_cons c a Ha) as [Hc Hr].
  cbn [append es_ascii]. now rewrite Hc, (IH Hr).
Qed.

(** Character by character: the 128 ASCII characters, one at a time. *)
Ltac por_caracter c H :=
  destruct c as [[] [] [] [] [] [] [] []];
  vm_compute in H; first [discriminate H | vm_compute; reflexivity].

Lemma isspace_ascii (c : ascii) :
  (N_of_ascii c <? 128)%N = true ->
  Unicode.isspace (N_of_ascii c) = PyAscii.isspace c.
Proof. intros H. por_caracter c H. Qed.

Lemma to_lower_ascii (c : ascii) :
  (N_of_ascii c <? 128)%N = true ->
  Unicode.to_lower_full (N_of_ascii c) = [N_of_ascii (PyAscii.lower_char c)].
Proof. intros H. por_caracter c H. Qed.

Lemma to_title_ascii (c : ascii) :
  (N_of_ascii c <? 128)%N = true ->
  Unicode.to_title_full (N_of_ascii c) = [N_of_ascii (PyAscii.upper_char c)].
Proof. intros H. por_caracter c H. Qed.

Lemma not_sigma_ascii (c : ascii) :
  (N_of_ascii c <? 128)%N = true -> (N_of_ascii c =? 931)%N = false.
Proof. intros H. por_caracter c H. Qed.

Lemma lower_char_ascii (c : ascii) :
  (N_of_ascii c <? 128)%N = true ->
  (N_of_ascii (PyAscii.lower_char c) <? 128)%N = true.
Proof. intros H. por_caracter c H. Qed.

Lemma upper_char_ascii (c : ascii) :
  (N_of_ascii c <? 128)%N = true ->
  (N_of_ascii (PyAscii.upper_char c) <? 128)%N = true.
Proof. intros H. por_caracter c H. Qed.


(** *** ASCII text stays ASCII text *)

Lemma es_ascii_lstrip (s : string) :
  es_ascii s = true -> es_ascii (PyAscii.lstrip s) = true.
Proof.
  induction s as [|c r IH]; [easy|]. intros H.
  destruct (es_ascii_cons c r H) as [_ Hr]. cbn [PyAscii.lstrip].
  destruct (PyAscii.isspace c); [exact (IH Hr) | exact H].
Qed.

Lemma es_ascii_rstrip (s : string) :
  es_ascii s = true -> es_ascii (PyAscii.rstrip s) = true.
Proof.
  induction s as [|c r IH]; [easy|]. intros H.
  destruct (es_ascii_cons c r H) as [Hc Hr]. specialize (IH Hr).
  cbn [PyAscii.rstrip].
  destruct (PyAscii.rstrip r) as [|c2 r2].
  - destruct (PyAscii.isspace c); [reflexivity|].
    cbn [es_ascii]. now rewrite Hc.
  - cbn [es_ascii] in *. now rewrite Hc, IH.
Qed.

Lemma es_ascii_strip (s : string) :
  es_ascii s = true -> es_ascii (PyAscii.strip s) = true.
Proof. intros H. apply es_ascii_rstrip, es_ascii_lstrip, H. Qed.

Lemma es_ascii_lower (s : string) :
  es_ascii s = true -> es_ascii (PyAscii.lower s) = true.
Proof.
  induction s as [|c r IH]; [easy|]. intros H.
  destruct (es_ascii_cons c r H) as [Hc Hr].
  cbn [PyAscii.lower es_ascii]. now rewrite (lower_char_ascii c Hc), (IH Hr).
Qed.

Lemma es_ascii_capitalize (w : string) :
  es_ascii w = true -> es_ascii (PyAscii.capitalize w) = true.
Proof.
  destruct w as [|c r]; [easy|]. intros H.
  destruct (es_ascii_cons c r H) as [Hc Hr].
  cbn [PyAscii.capitalize es_ascii].
  now rewrite (upper_char_ascii c Hc), (es_ascii_lower r Hr).
Qed.

Lemma split_cons_cons (c c2 : ascii) (r : string) :
  PyAscii.split (String c (String c2 r))
  = if PyAscii.isspace c then PyAscii.split (String c2 r)
    else if PyAscii.isspace c2
         then String c EmptyString :: PyAscii.split (String c2 r)
         else match PyAscii.split (String c2 r) with
              | w :: ws => String c w :: ws
              | [] => [String c EmptyString]
              end.
Proof. reflexivity. Qed.

Lemma es_ascii_split (s : string) :
  es_ascii s = true ->
  Forall (fun w => es_ascii w = true) (PyAscii.split s).
Proof.
  induction s as [|c r IH]; [constructor|]. intros H.
  destruct (es_ascii_cons c r H) as [Hc Hr]. specialize (IH Hr).
  assert (H1 : es_ascii (String c EmptyString) = true).
  { cbn [es_ascii]. now rewrite Hc. }
  destruct r as [|c2 r2].
  - cbn [PyAscii.split]. destruct (PyAscii.isspace c); repeat constructor.
    exact H1.
  - rewrite split_cons_cons.
    destruct (PyAscii.isspace c); [exact IH|].
    destruct (PyAscii.isspace c2); [now constructor|].
    destruct (PyAscii.split (String c2 r2)) as [|w ws]; [now repeat constructor|].
    inversion IH as [|? ? Hw Hws]; subst. constructor; [|exact Hws].
    cbn [es_ascii]. now rewrite Hc, Hw.
Qed.

Lemma es_ascii_concat (ws : list string) :
  Forall (fun w => es_ascii w = true) ws ->
  es_ascii (String.concat " " ws) = true.
Proof.
  induction 1 as [|w ws Hw Hws IH]; [reflexivity|].
  destruct ws as [|y ys]; [exact Hw|].
  rewrite concat_cons2. apply es_ascii_app; [exact Hw|].
  apply es_ascii_app; [reflexivity | exact IH].
Qed.

Lemma es_ascii_normalizar (s : string) :
  es_ascii s = true -> es_ascii (PyAscii.normalizar s) = true.
Proof.
  intros H. unfold PyAscii.normalizar, PyAscii.capwords.
  apply es_ascii_concat, Forall_map.
  eapply Forall_impl; [|apply es_ascii_split, es_ascii_lower, es_ascii_strip, H].
  apply es_ascii_capitalize.
Qed.

(** *** The functions, one by one *)

Lemma lstrip_ascii (s : string) :
  es_ascii s = true ->
  Unicode.lstrip (Unicode.bytes s) = Unicode.bytes (PyAscii.lstrip s).
Proof.
  induction s as [|c r IH]; [reflexivity|]. intros H.
  destruct (es_ascii_cons c r H) as [Hc Hr].
  rewrite bytes_cons. cbn [Unicode.lstrip PyAscii.lstrip].
  rewrite (isspace_ascii c Hc).
  destruct (PyAscii.isspace c); [exact (IH Hr) | reflexivity].
Qed.

Lemma rstrip_ascii (s : string) :
  es_ascii s = true ->
  Unicode.rstrip (Unicode.bytes s) = Unicode.bytes (PyAscii.rstrip s).
Proof.
  induction s as [|c r IH]; [reflexivity|]. intros H.
  destruct (es_ascii_cons c r H) as [Hc Hr].
  rewrite bytes_cons. cbn [Unicode.rstrip PyAscii.rstrip].
  rewrite (IH Hr), (isspace_ascii c Hc).
  destruct (PyAscii.rstrip r) as [|c2 r2];
    [destruct (PyAscii.isspace c)|]; reflexivity.
Qed.

Lemma strip_ascii (s : string) :
  es_ascii s = true ->
  Unicode.strip (Unicode.bytes s) = Unicode.bytes (PyAscii.strip s).
Proof.
  intros H. unfold Unicode.strip, PyAscii.strip.
  rewrite (lstrip_ascii s H). apply rstrip_ascii, es_ascii_lstrip, H.
Qed.

Lemma lower_from_ascii (s : string) (prev : list N) :
  es_ascii s = true ->
  Unicode.lower_from prev (Unicode.bytes s) = Unicode.bytes (PyAscii.lower s).
Proof.
  revert prev. induction s as [|c r IH]; intros prev H; [reflexivity|].
  destruct (es_ascii_cons c r H) as [Hc Hr].
  rewrite bytes_cons. cbn [Unicode.lower_from PyAscii.lower].
  unfold Unicode.lower_ucs4.
  rewrite (not_sigma_ascii c Hc), (to_lower_ascii c Hc), (IH _ Hr).
  reflexivity.
Qed.

Lemma capitalize_ascii (w : string) :
  es_ascii w = true ->
  Unicode.capitalize (Unicode.bytes w) = Unicode.bytes (PyAscii.capitalize w).
Proof.
  destruct w as [|c r]; [reflexivity|]. intros H.
  destruct (es_ascii_cons c r H) as [Hc Hr].
  rewrite bytes_cons. cbn [Unicode.capitalize PyAscii.capitalize].
  rewrite (to_title_ascii c Hc), (lower_from_ascii r _ Hr). reflexivity.
Qed.

Lemma usplit_cons_cons (c c2 : N) (r : list N) :
  Unicode.split (c :: c2 :: r)
  = if Unicode.isspace c then Unicode.split (c2 :: r)
    else if Unicode.isspace c2 then [c] :: Unicode.split (c2 :: r)
         else match Unicode.split (c2 :: r) with
              | w :: ws => (c :: w) :: ws
              | [] => [[c]]
              end.
Proof. reflexivity. Qed.

Lemma split_ascii (s : string) :
  es_ascii s = true ->
  Unicode.split (Unicode.bytes s) = map Unicode.bytes (PyAscii.split s).
Proof.
  induction s as [|c r IH]; [reflexivity|]. intros H.
  destruct (es_ascii_cons c r H) as [Hc Hr]. specialize (IH Hr).
  destruct r as [|c2 r2].
  - change (Unicode.bytes (String c EmptyString)) with [N_of_ascii c].
    cbn [Unicode.split PyAscii.split]. rewrite (isspace_ascii c Hc).
    destruct (PyAscii.isspace c); reflexivity.
  - destruct (es_ascii_cons c2 r2 Hr) as [Hc2 _].
    rewrite (bytes_cons c2) in IH. rewrite (bytes_cons c), (bytes_cons c2).
    rewrite usplit_cons_cons, split_cons_cons, IH.
    rewrite (isspace_ascii c Hc), (isspace_ascii c2 Hc2).
    destruct (PyAscii.isspace c); [reflexivity|].
    destruct (PyAscii.isspace c2); [reflexivity|].
    destruct (PyAscii.split (String c2 r2)); reflexivity.
Qed.

Lemma join_space_ascii (ws : list string) :
  Unicode.join_space (map Unicode.bytes ws)
  = Unicode.bytes (String.concat " " ws).
Proof.
  induction ws as [|w ws IH]; [reflexivity|].
  destruct ws as [|y ys]; [reflexivity|].
  change (Unicode.join_space (map Unicode.bytes (w :: y :: ys)))
    with (Unicode.bytes w
          ++ 32%N :: Unicode.join_space (map Unicode.bytes (y :: ys)))%list.
  rewrite IH, concat_cons2, !bytes_app. reflexivity.
Qed.

Lemma decode_ascii (s : string) :
  es_ascii s = true ->
  Unicode.decode (Unicode.bytes s) = Some (Unicode.bytes s).
Proof.
  induction s as [|c r IH]; [reflexivity|]. intros H.
  destruct (es_ascii_cons c r H) as [Hc Hr].
  rewrite bytes_cons. cbn [Unicode.decode]. rewrite Hc, (IH Hr). reflexivity.
Qed.

Lemma encode_ascii (s : string) :
  es_ascii s = true ->
  Unicode.encode (Unicode.bytes s) = Unicode.bytes s.
Proof.
  induction s as [|c r IH]; [reflexivity|]. intros H.
  destruct (es_ascii_cons c r H) as [Hc Hr].
  rewrite bytes_cons. unfold Unicode.encode in *. cbn [flat_map].
  rewrite (IH Hr). unfold Unicode.encode_char. now rewrite Hc.
Qed.

(** On ASCII text the label is what the ASCII functions give. *)
Lemma normalizar_ascii (s : string) :
  es_ascii s = true -> normalizar s = PyAscii.normalizar s.
Proof.
  intros H. unfold normalizar. rewrite (decode_ascii s H).
  unfold Unicode.lower, Unicode.capwords.
  rewrite (strip_ascii s H).
  rewrite (lower_from_ascii _ _ (es_ascii_strip s H)).
  pose proof (es_ascii_lower _ (es_ascii_strip s H)) as Hl.
  rewrite (split_ascii _ Hl), map_map.
  rewrite (map_ext_in _ (fun w => Unicode.bytes (PyAscii.capitalize w))).
  - rewrite <- (map_map PyAscii.capitalize Unicode.bytes), join_space_ascii.
    rewrite encode_ascii by (apply (es_ascii_normalizar s H)).
    apply of_bytes_bytes.
  - intros w Hw. apply capitalize_ascii.
    exact (proj1 (Forall_forall _ _) (es_ascii_split _ Hl) w Hw).
Qed.

(** *** The words of a label *)







Lemma palabras_capitalize (s : string) :
  Forall palabra (map PyAscii.capitalize (PyAscii.split s)).
Proof.
  apply Forall_map. eapply Forall_impl; [|apply split_palabras].
  apply palabra_capitalize.
Qed.



Lemma normalizar_ascii_idempotent (s : string) :
  PyAscii.normalizar (PyAscii.normalizar s) = PyAscii.normalizar s.
Proof.
  unfold PyAscii.normalizar at 2 3. unfold PyAscii.capwords.
  set (ws := PyAscii.split (PyAscii.lower (PyAscii.strip s))).
  assert (Hws : Forall palabra (map PyAscii.capitalize ws))
    by apply palabras_capitalize.
  unfold PyAscii.normalizar, PyAscii.capwords.
  rewrite (strip_concat _ Hws), lower_concat, split_concat.
  - rewrite !map_map. f_equal. apply map_ext. intros w.
    apply capitalize_lower_capitalize.
  - apply Forall_map. eapply Forall_impl; [|exact Hws].
    apply palabra_lower.
Qed.

(** ** The label of a cell *)




(** The labels of the sample: case and padding are gone, also where the
    letters are not ASCII. *)
Example normalizar_muestras :
  map normalizar [" electronics "; "HOGAR"; " CARD"; "  hOME   oFFice ";
                  Ejemplo.electronica_mayus]
  = ["Electronics"; "Hogar"; "Card"; "Home Office";
     Ejemplo.electronica_titulo].
Proof. vm_compute. reflexivity. Qed.

(** ** Normalising twice *)

(** X18: normalising a normalised label of ASCII text gives the same
    label again. *)
Theorem normalizar_idempotent (s : string) :
  es_ascii s = true -> normalizar (normalizar s) = normalizar s.
Proof.
  intros H. rewrite (normalizar_ascii s H).
  rewrite (normalizar_ascii _ (es_ascii_normalizar s H)).
  apply normalizar_ascii_idempotent.
Qed.

Lemma normalizar_idempotent_witness :
  normalizar (normalizar "  hOME   oFFice ") = normalizar "  hOME   oFFice ".
Proof. apply (normalizar_idempotent "  hOME   oFFice "). reflexivity. Defined.

(** The letter U+0149 has no capital of its own: its label is an
    apostrophe and a capital N, whose label is an apostrophe and a small
    n. *)
Example normalizar_twice_n_apostrofo :
  normalizar (normalizar Ejemplo.n_apostrofo)
  <> normalizar Ejemplo.n_apostrofo.
Proof. vm_compute. discriminate. Qed.

(** ** What the normalising assignments need *)

Lemma load_data_row (ts : list Transaccion) (ps : list Producto)
    (cs : list Cliente) (r : FilaCruda) :
  In r (fst (load_data ts ps cs)) ->
  match prod r with
  | Some p => In p ps /\ pr_producto_id p = tr_producto_id (tx r)
  | None => True
  end /\
  match cli r with
  | Some c => In c cs /\ cl_cliente_id c = tr_cliente_id (tx r)
  | None => True
  end.
Proof.
  destruct r as [[t op] oc]. unfold load_data, tx, prod, cli. cbn [fst snd].
  intros Hr. apply merge_left_In in Hr. destruct Hr as [H1 H2].
  apply merge_left_In in H1. destruct H1 as [_ Hp]. cbn [fst] in H2.
  split; [destruct op | destruct oc]; tauto.
Qed.

Lemma normalizar_df_rows (raw : list FilaCruda) (df : list Fila) :
  normalizar_df raw = Some df ->
  forall f, In f df -> normalizar_fila (cruda f) = Some f.
Proof.
  revert df. induction raw as [|r raw IH]; simpl; intros df.
  - intros [= <-] f [].
  - destruct (normalizar_fila r) as [f0|] eqn:Ef; [|discriminate].
    destruct (normalizar_df raw) as [fs|]; [|discriminate].
    intros [= <-] f [<-|Hf].
    + destruct (normalizar_fila_Some _ _ Ef) as [-> _]. exact Ef.
    + now apply (IH fs).
Qed.

Lemma normalizar_df_None_inv (raw : list FilaCruda) :
  normalizar_df raw = None ->
  exists r, In r raw /\
    (col_categoria r = None \/ col_segmento r = None \/
     col_metodo_pago r = None).
Proof.
  induction raw as [|r raw IH]; simpl; [discriminate|].
  destruct (normalizar_fila r) as [f|] eqn:Ef.
  - destruct (normalizar_df raw) as [fs|]; [discriminate|].
    intros _. destruct (IH eq_refl) as [r' [Hr' H]]. exists r'. tauto.
  - intros _. exists r. split; [now left|].
    unfold normalizar_fila in Ef.
    destruct (col_categoria r), (col_segmento r), (col_metodo_pago r);
      try discriminate; tauto.
Qed.

(** X19: the normalising assignments of lines 48-50 go through exactly when
    no row of the joined frame lacks a category, a segment or a payment
    method; so one transaction whose product or customer key has no match
    stops the script there.  When they go through, the rows are those of
    the joined frame, in order, each with its product and its customer, and
    its three text columns are the normalised cells. *)
Theorem normalizar_df_needs_matches (ts : list Transaccion)
    (ps : list Producto) (cs : list Cliente) :
  let raw := fst (load_data ts ps cs) in
  (normalizar_df raw = None <->
   exists r, In r raw /\
     (col_categoria r = None \/ col_segmento r = None \/
      col_metodo_pago r = None)) /\
  (forall r, In r raw -> prod r = None \/ cli r = None ->
     normalizar_df raw = None) /\
  (forall df, normalizar_df raw = Some df ->
     map cruda df = raw /\
     forall f, In f df ->
       Some (categoria f) = option_map normalizar (col_categoria (cruda f)) /\
       Some (segmento f) = option_map normalizar (col_segmento (cruda f)) /\
       Some (metodo_pago f)
       = option_map normalizar (col_metodo_pago (cruda f)) /\
       (exists p, prod (cruda f) = Some p /\ In p ps) /\
       (exists c, cli (cruda f) = Some c /\ In c cs /\
                  cl_cliente_id c = cliente_id f)).
Proof.
  intros raw. split; [|split].
  - split; [apply normalizar_df_None_inv|].
    intros [r [Hr H]]. now apply (normalizar_df_None raw r).
  - intros r Hr H. apply (normalizar_df_None raw r Hr).
    unfold col_categoria, col_segmento.
    destruct H as [-> | ->]; tauto.
  - intros df Hdf. destruct (normalizar_df_Some _ _ Hdf) as [Hmap Hcells].
    split; [exact Hmap|]. intros f Hf.
    pose proof (normalizar_df_rows _ _ Hdf f Hf) as Ef.
    assert (Hraw : In (cruda f) raw).
    { rewrite <- Hmap. now apply in_map. }
    destruct (load_data_row ts ps cs _ Hraw) as [Hp Hc].
    unfold normalizar_fila in Ef.
    unfold col_categoria, col_segmento in *.
    destruct (prod (cruda f)) as [p|];
      [|destruct (cli (cruda f)) as [c|]; [destruct (cl_segmento c)|];
        discriminate].
    destruct (pr_categoria p) as [cat|];
      [|destruct (cli (cruda f)) as [c|]; [destruct (cl_segmento c)|];
        discriminate].
    destruct (cli (cruda f)) as [c|]; [|discriminate].
    destruct (cl_segmento c) as [seg|]; [|discriminate].
    destruct (col_metodo_pago (cruda f)) as [mp|]; [|discriminate].
    injection Ef as <-. cbn [categoria segmento metodo_pago cruda option_map].
    repeat split.
    + exists p. tauto.
    + exists c. unfold cliente_id. cbn [cruda]. tauto.
Qed.
